(** * Analizador de funciones: the analysis engine of [src/main.py]

    The engine is a thin layer of Python over the SymPy computer-algebra
    library.  This development embeds the engine's own functions
    ([safe_sympify], [find_denominator_singularities], [find_log_constraints],
    [find_even_root_problems], [compute_domain], [compute_intersections],
    [compute_range], [evaluate_point], [sample_function]) and proves the
    properties their specification states.

    - Python floats are IEEE binary64 numbers: Rocq's primitive floats.
    - A call that can raise returns an [outcome]; [try ... except Exception]
      is [try_except].  The exceptions are those deriving from [Exception];
      [KeyboardInterrupt] and [SystemExit], which no handler of the engine
      catches, are outside the model.
    - The expression tree is an inductive type; the traversals the engine
      performs on it ([atoms], [as_base_exp], [is_Rational], [q]) are
      functions on that type.  A call of a relational class is a call of
      the library: it evaluates the comparison and can raise.
    - The algorithms of the library (parsing, simplification, solving,
      numeric evaluation, printing) are not part of the program: they are
      the fields of the record [Library], and every general theorem holds
      for every library. *)

From Stdlib Require Import ZArith List String Ascii Bool Lia Floats QArith.
From Stdlib Require Import DecimalString Permutation.
Import ListNotations.

Local Open Scope list_scope.
Local Open Scope string_scope.

(** ** Python: exceptions, numbers, float formatting *)

Module Py.

(** An exception deriving from [Exception]: its class name and [str(e)]. *)
Record PyException : Type := mkException { exc_class : string; exc_str : string }.

Inductive outcome (A : Type) : Type :=
| Return (a : A)
| Raise (e : PyException).
Arguments Return {A} a.
Arguments Raise {A} e.

Definition bind {A B} (c : outcome A) (k : A -> outcome B) : outcome B :=
  match c with
  | Return a => k a
  | Raise e => Raise e
  end.

(** [try: body / except Exception as e: handler e]. *)
Definition try_except {A} (body : outcome A) (handler : PyException -> outcome A)
  : outcome A :=
  match body with
  | Return a => Return a
  | Raise e => handler e
  end.

(** [[f(a) for a in l]] and [list(map(f, l))]: the first failure aborts. *)
Fixpoint mapM {A B} (f : A -> outcome B) (l : list A) : outcome (list B) :=
  match l with
  | [] => Return []
  | a :: l' =>
      bind (f a) (fun b => bind (mapM f l') (fun bs => Return (b :: bs)))
  end.

(** [[a for a in l if p(a)]] with a test that can raise. *)
Fixpoint filterM {A} (p : A -> outcome bool) (l : list A) : outcome (list A) :=
  match l with
  | [] => Return []
  | a :: l' =>
      bind (p a) (fun keep =>
      bind (filterM p l') (fun r => Return (if keep then a :: r else r)))
  end.

(** A Python number: [int] or [float]. *)
Inductive pynum : Type :=
| PyInt (z : Z)
| PyFloat (f : float).

(** [float(n)] for an [int]: round to nearest even, [OverflowError] beyond
    the range of binary64. *)
Definition float_of_int (z : Z) : outcome float :=
  let f := SF2Prim (binary_normalize prec emax z 0 false) in
  if PrimFloat.is_infinity f
  then Raise (mkException "OverflowError" "int too large to convert to float")
  else Return f.

(** [math.isfinite]. *)
Definition isfinite (f : float) : bool := PrimFloat.is_finite f.

(** [min(ys)] and [max(ys)] on a non-empty list: the first extremal item. *)
Definition py_min (y : float) (ys : list float) : float :=
  fold_left (fun m v => if PrimFloat.ltb v m then v else m) ys y.
Definition py_max (y : float) (ys : list float) : float :=
  fold_left (fun m v => if PrimFloat.ltb m v then v else m) ys y.

(** [l.append(a)]. *)
Definition list_append {A} (l : list A) (a : A) : list A := (l ++ [a])%list.

(** [sep.join(parts)]. *)
Definition join (sep : string) (parts : list string) : string :=
  String.concat sep parts.

(** [str(n)] for an [int]. *)
Definition str_int (z : Z) : string := NilZero.string_of_int (Z.to_int z).

(** *** The format specification [.4g]

    [format(v, '.4g')] rounds the exact value of [v] to four significant
    decimal digits (ties to even), drops trailing zeros, and prints in
    scientific notation when the decimal exponent is below -4 or at least 4. *)

(** The exact value of a finite float, as a fraction [num / den] with its
    sign apart. *)
Definition exact_abs (f : float) : Z * Z :=
  match Prim2SF f with
  | S754_finite _ m e =>
      if (0 <=? e)%Z then (Zpos m * 2 ^ e, 1)%Z else (Zpos m, 2 ^ (- e))%Z
  | _ => (0, 1)%Z
  end.

Definition is_negative (f : float) : bool :=
  match Prim2SF f with
  | S754_zero s | S754_infinity s | S754_finite s _ _ => s
  | S754_nan => false
  end.

(** [10^X <= num/den]. *)
Definition pow10_le (X num den : Z) : bool :=
  if (0 <=? X)%Z then (10 ^ X * den <=? num)%Z else (den <=? num * 10 ^ (- X))%Z.

(** The decimal exponent of a positive fraction: the largest [X] with
    [10^X <= num/den], searched downwards from [X]. *)
Fixpoint decimal_exponent (fuel : nat) (X num den : Z) : Z :=
  match fuel with
  | O => X
  | S n => if pow10_le X num den then X else decimal_exponent n (X - 1) num den
  end.

(** Round [p/q] to the nearest integer, ties to even. *)
Definition round_half_even (p q : Z) : Z :=
  let d := (p / q)%Z in
  let r := (p mod q)%Z in
  match (2 * r ?= q)%Z with
  | Lt => d
  | Gt => (d + 1)%Z
  | Eq => if Z.even d then d else (d + 1)%Z
  end.

(** Four significant digits of a positive fraction: [(D, X)] with
    [1000 <= D <= 9999], standing for [D * 10^(X-3)]. *)
Definition round_4 (num den : Z) : Z * Z :=
  let X := decimal_exponent 700 310 num den in
  let p := (num * 10 ^ Z.max (3 - X) 0)%Z in
  let q := (den * 10 ^ Z.max (X - 3) 0)%Z in
  let D := round_half_even p q in
  if (D =? 10000)%Z then (1000, X + 1)%Z else (D, X).

(** The value [format(v, '.4g')] prints, as a fraction: [(n, d)] for [n/d]. *)
Definition value_4g (f : float) : Z * Z :=
  let '(num, den) := exact_abs f in
  if (num =? 0)%Z then (0, 1)%Z
  else
    let '(D, X) := round_4 num den in
    let s := if is_negative f then (-1)%Z else 1%Z in
    if (3 <=? X)%Z then (s * D * 10 ^ (X - 3), 1)%Z else (s * D, 10 ^ (3 - X))%Z.

(** Significant digits without trailing zeros, e.g. 1250 gives "125". *)
Fixpoint strip_zeros (fuel : nat) (D : Z) : Z :=
  match fuel with
  | O => D
  | S n => if (D mod 10 =? 0)%Z then strip_zeros n (D / 10) else D
  end.

Fixpoint zeros (n : nat) : string :=
  match n with
  | O => ""
  | S n' => "0" ++ zeros n'
  end.

Definition exponent_suffix (X : Z) : string :=
  let a := str_int (Z.abs X) in
  (if (X <? 0)%Z then "e-" else "e+") ++ (if (Z.abs X <? 10)%Z then "0" ++ a else a).

(** [format(v, '.4g')] for a finite [v]. *)
Definition format_4g (f : float) : string :=
  let sign := if is_negative f then "-" else "" in
  let '(num, den) := exact_abs f in
  if (num =? 0)%Z then sign ++ "0"
  else
    let '(D, X) := round_4 num den in
    let digits := str_int (strip_zeros 3 D) in
    let nd := String.length digits in
    let decpt := (X + 1)%Z in
    if ((X <? -4) || (4 <=? X))%Z then
      sign ++ substring 0 1 digits
           ++ (if (1 <? nd)%nat then "." ++ substring 1 (nd - 1) digits else "")
           ++ exponent_suffix X
    else if (decpt <=? 0)%Z then
      sign ++ "0." ++ zeros (Z.to_nat (- decpt)) ++ digits
    else if (Z.of_nat nd <=? decpt)%Z then
      sign ++ digits ++ zeros (Z.to_nat decpt - nd)
    else
      sign ++ substring 0 (Z.to_nat decpt) digits ++ "."
           ++ substring (Z.to_nat decpt) (nd - Z.to_nat decpt) digits.

End Py.
Import Py.

(** ** SymPy expressions *)

(** The expression tree: atoms, [Add] and [Mul] with their argument lists,
    [Pow(base, exp)], and applied functions such as [log(x)] or [sin(x)]. *)
#[warnings="-register-all"]
Inductive Expr : Type :=
| Symbol (name : string)
| Integer (p : Z)
| Rational (p : Z) (q : positive)
| Float (f : float)
| Infinity
| NegativeInfinity
| ComplexInfinity
| NaN
| ImaginaryUnit
| Add (args : list Expr)
| Mul (args : list Expr)
| Pow (base exp : Expr)
| Func (f : string) (args : list Expr).

(** A relational object: [lhs > rhs] or [lhs >= rhs], not evaluated. *)
Inductive Relational : Type :=
| StrictGreaterThan (lhs rhs : Expr)
| GreaterThan (lhs rhs : Expr).

(** What a call of a relational class returns: [True] or [False] when the
    comparison evaluates, the relational object when it does not. *)
Inductive Boolean : Type :=
| BooleanTrue
| BooleanFalse
| Unevaluated (r : Relational).

(** The module-level symbol [x = sp.symbols('x')]. *)
Definition x : Expr := Symbol "x".

(** Equality of argument lists, element by element. *)
Definition list_eqb {A} (eqb : A -> A -> bool) : list A -> list A -> bool :=
  fix go (l l' : list A) : bool :=
    match l, l' with
    | [], [] => true
    | u :: l1, v :: l1' => eqb u v && go l1 l1'
    | _, _ => false
    end.

(** Structural equality, the [==] of expressions. *)
Fixpoint expr_eqb (a b : Expr) : bool :=
  match a, b with
  | Symbol n, Symbol m => String.eqb n m
  | Integer p, Integer p' => Z.eqb p p'
  | Rational p d, Rational p' d' => Z.eqb p p' && Pos.eqb d d'
  | Float f, Float f' => PrimFloat.Leibniz.eqb f f'
  | Infinity, Infinity => true
  | NegativeInfinity, NegativeInfinity => true
  | ComplexInfinity, ComplexInfinity => true
  | NaN, NaN => true
  | ImaginaryUnit, ImaginaryUnit => true
  | Add l, Add l' => list_eqb expr_eqb l l'
  | Mul l, Mul l' => list_eqb expr_eqb l l'
  | Pow u v, Pow u' v' => expr_eqb u u' && expr_eqb v v'
  | Func f l, Func f' l' => String.eqb f f' && list_eqb expr_eqb l l'
  | _, _ => false
  end.

(** A Python [set] of expressions, kept as a duplicate-free list.  (The
    iteration order of a real [set] is unspecified; nothing below depends
    on it beyond the order in which one set is read twice.) *)
Definition set_mem (e : Expr) (s : list Expr) : bool := existsb (expr_eqb e) s.
Definition set_add (e : Expr) (s : list Expr) : list Expr :=
  if set_mem e s then s else list_append s e.
Definition set_of_list (l : list Expr) : list Expr :=
  fold_left (fun s e => set_add e s) l [].

(** [preorder_traversal]: the node, then the traversals of its arguments. *)
Fixpoint preorder (e : Expr) : list Expr :=
  e :: match e with
       | Add l | Mul l | Func _ l => flat_map preorder l
       | Pow b n => (preorder b ++ preorder n)%list
       | _ => []
       end.

(** [expr.atoms(cls)]: the set of sub-expressions that are instances of
    the class. *)
Definition atoms (cls : Expr -> bool) (e : Expr) : list Expr :=
  set_of_list (filter cls (preorder e)).

Definition isinstance_Pow (e : Expr) : bool :=
  match e with Pow _ _ => true | _ => false end.
Definition isinstance_log (e : Expr) : bool :=
  match e with Func f _ => String.eqb f "log" | _ => false end.

(** [e.args]. *)
Definition args (e : Expr) : list Expr :=
  match e with
  | Add l | Mul l | Func _ l => l
  | Pow b n => [b; n]
  | _ => []
  end.

(** [e.is_Rational]: an instance of [Rational], of which [Integer] is a
    subclass. *)
Definition is_Rational (e : Expr) : bool :=
  match e with Integer _ | Rational _ _ => true | _ => false end.

(** [e.q] of a rational number. *)
Definition q (e : Expr) : Z :=
  match e with Rational _ d => Zpos d | _ => 1%Z end.

(** [-e], of which the engine only uses the value on rational numbers. *)
Definition neg (e : Expr) : Expr :=
  match e with
  | Integer p => Integer (- p)
  | Rational p d => Rational (- p) d
  | Infinity => NegativeInfinity
  | NegativeInfinity => Infinity
  | _ => Mul [Integer (-1); e]
  end.

(** [Pow.as_base_exp]: the arguments, except that a base [1/n] is inverted
    and the exponent negated ([b.is_Rational and b.p == 1 and b.q != 1]). *)
Definition as_base_exp (p : Expr) : Expr * Expr :=
  match p with
  | Pow (Rational n d) e =>
      if ((n =? 1)%Z && negb (d =? 1)%positive)
      then (Integer (Zpos d), neg e)
      else (Rational n d, e)
  | Pow b e => (b, e)
  | _ => (p, Integer 1)
  end.

(** ** The library interface

    What the engine calls in SymPy and in the interpreter.  A field that
    returns an [outcome] can raise. *)
Module sp.
Record Library : Type := {
  (** [sp.sympify(s, evaluate=True)] *)
  sympify : string -> outcome Expr;
  (** [sp.simplify(e)] *)
  simplify : Expr -> outcome Expr;
  (** [sp.fraction(e)] *)
  fraction : Expr -> outcome (Expr * Expr);
  (** [sp.solve(sp.Eq(lhs, rhs), x)] *)
  solve_Eq : Expr -> Expr -> outcome (list Expr);
  (** [sp.im(e)] *)
  im : Expr -> outcome Expr;
  (** [sp.StrictGreaterThan(lhs, rhs)]: the call evaluates the comparison,
      and raises [TypeError] on a side that is not real *)
  StrictGreaterThan : Expr -> Expr -> outcome Boolean;
  (** [e.subs(x, v)] *)
  subs : Expr -> pynum -> outcome Expr;
  (** [sp.N(e)] *)
  N : Expr -> outcome Expr;
  (** [e.is_real]: [True], [False] or [None] *)
  is_real : Expr -> option bool;
  (** [float(e)] *)
  __float__ : Expr -> outcome float;
  (** [str(function_range(e, x, S.Reals))] *)
  function_range : Expr -> outcome string;
  (** [sp.srepr(e)] *)
  srepr : Expr -> string;
  (** [str(e)] *)
  str : Expr -> string;
  (** [str(v)] of a Python float *)
  str_float : float -> string
}.
End sp.

Declare Scope py_scope.
Notation "v <- c ;; k" := (bind c (fun v => k))
  (at level 61, c at next level, right associativity) : py_scope.
Notation "' pat <- c ;; k" := (bind c (fun v => match v with pat => k end))
  (at level 61, pat pattern, c at next level, right associativity) : py_scope.
Local Open Scope py_scope.

(** [range(start, stop, step)] for a positive step. *)
Definition py_range (start stop step : Z) : list Z :=
  map (fun k => (start + step * Z.of_nat k)%Z)
      (seq 0 (Z.to_nat ((stop - start + step - 1) / step))).

(** The tolerance [1e-2] of the sampler. *)
Definition tolerance : float := 0x1.47ae147ae147bp-7%float.

(** ** The engine *)

Section Engine.

Variable lib : sp.Library.

(** [str(n)] for a Python number. *)
Definition str_num (v : pynum) : string :=
  match v with
  | PyInt z => str_int z
  | PyFloat f => sp.str_float lib f
  end.

Definition safe_sympify (expr_str : string) : outcome (option Expr * option string) :=
  try_except
    (expr <- sp.sympify lib expr_str ;;
     Return (Some expr, None))
    (fun e => Return (None, Some (exc_str e))).

(** [sp.im(s) == 0]. *)
Definition im_is_zero (s : Expr) : outcome bool :=
  i <- sp.im lib s ;; Return (expr_eqb i (Integer 0)).

Definition find_denominator_singularities (expr : Expr) : outcome (list Expr) :=
  try_except
    (e' <- sp.simplify lib expr ;;
     '(num, den) <- sp.fraction lib e' ;;
     if expr_eqb den (Integer 1) then Return []
     else
       sols <- sp.solve_Eq lib den (Integer 0) ;;
       real_sols <- filterM im_is_zero sols ;;
       mapM (sp.simplify lib) real_sols)
    (fun _ => Return []).

(** The left-hand sides the loop of [find_log_constraints] reaches its
    call with: [args[0]] of each logarithm sub-term that has arguments.  The
    sub-terms come as a set, read here in the order of their first
    occurrence; the interpreter may read it in another order, on which no
    statement depends. *)
Definition log_arguments (expr : Expr) : list Expr :=
  flat_map (fun f =>
              match args f with
              | a :: _ => [a]
              | [] => []
              end)
           (atoms isinstance_log expr).

(** Each pass appends what [sp.StrictGreaterThan(args[0], 0)] returns; a
    call that raises ends the function. *)
Definition find_log_constraints (expr : Expr) : outcome (list Boolean) :=
  mapM (fun a => sp.StrictGreaterThan lib a (Integer 0)) (log_arguments expr).

(** The left-hand sides the loop of [find_even_root_problems] reaches its
    call with: the base of each power sub-term whose exponent is a rational
    with an even denominator. *)
Definition even_root_bases (expr : Expr) : list Expr :=
  flat_map (fun p =>
              let '(base, exp) := as_base_exp p in
              if is_Rational exp then
                let den := q exp in
                if (den mod 2 =? 0)%Z then [base] else []
              else [])
           (atoms isinstance_Pow expr).

(** Each pass appends what [sp.StrictGreaterThan(base, -sp.oo)] returns. *)
Definition find_even_root_problems (expr : Expr) : outcome (list Boolean) :=
  mapM (fun base => sp.StrictGreaterThan lib base (neg Infinity))
       (even_root_bases expr).

(** The loop [for s in den_sing: domain_exceptions.add(sp.simplify(s))]. *)
Fixpoint add_simplified (den_sing : list Expr) (domain_exceptions : list Expr)
  : outcome (list Expr) :=
  match den_sing with
  | [] => Return domain_exceptions
  | s :: rest =>
      s' <- sp.simplify lib s ;;
      add_simplified rest (set_add s' domain_exceptions)
  end.

Definition nonempty {A} (l : list A) : bool :=
  match l with [] => false | _ => true end.

Definition compute_domain (expr : Expr)
  : outcome (string * list Expr * list Boolean * list Boolean) :=
  den_sing <- find_denominator_singularities expr ;;
  domain_exceptions <- add_simplified den_sing [] ;;
  logs <- find_log_constraints expr ;;
  roots <- find_even_root_problems expr ;;
  desc <-
    (if nonempty domain_exceptions || nonempty logs || nonempty roots then
       parts1 <-
         (if nonempty domain_exceptions then
            names <- mapM (fun v => n <- sp.N lib v ;; Return (sp.str lib n))
                          domain_exceptions ;;
            Return ["excepto x = " ++ join ", " names]
          else Return []) ;;
       let parts2 :=
         if nonempty logs
         then list_append parts1 "y además los argumentos de log deben ser > 0"
         else parts1 in
       let parts3 :=
         if nonempty roots
         then list_append parts2 "y cuidar raíces de índice par (radicandos >= 0)"
         else parts2 in
       Return ("Dominio: todos los reales, " ++ join "; " parts3)
     else Return "Dominio: todos los reales") ;;
  Return (desc, domain_exceptions, logs, roots).

Definition compute_intersections (expr : Expr) : outcome (option Expr * list Expr) :=
  try_except
    (s0 <- sp.subs lib expr (PyInt 0) ;;
     y_at_0 <- sp.simplify lib s0 ;;
     sol <- sp.solve_Eq lib expr (Integer 0) ;;
     real_roots <- filterM im_is_zero sol ;;
     Return (Some y_at_0, real_roots))
    (fun _ => Return (None, [])).

(** One pass of the fallback loop of [compute_range]: the finite value at
    [val], if there is one. *)
Definition range_sample (expr : Expr) (val : Z) : option float :=
  match (s <- sp.subs lib expr (PyInt val) ;;
         n <- sp.N lib s ;;
         sp.__float__ lib n) with
  | Return fv => if isfinite fv then Some fv else None
  | Raise _ => None
  end.

(** The list [ys] the fallback loop builds. *)
Definition range_samples (expr : Expr) : list float :=
  flat_map (fun val => match range_sample expr val with
                       | Some fv => [fv]
                       | None => []
                       end)
           (py_range (-50) 51 2).

Definition compute_range (expr : Expr) : outcome string :=
  try_except
    (sp.function_range lib expr)
    (fun _ =>
       match range_samples expr with
       | y :: ys =>
           Return ("aprox [" ++ format_4g (py_min y ys) ++ ", "
                   ++ format_4g (py_max y ys) ++ "] (muestreo)")
       | [] => Return "No se pudo estimar el recorrido"
       end).

Definition evaluate_point (expr : Expr) (x_val : pynum)
  : outcome (list string * option float * option string) :=
  try_except
    (let steps := ["Expresión original: " ++ sp.srepr lib expr] in
     substituted <- sp.subs lib expr x_val ;;
     simplified <- sp.simplify lib substituted ;;
     let steps := list_append steps ("Sustituyendo x = " ++ str_num x_val ++ " -> "
                                       ++ sp.str lib simplified) in
     n <- sp.N lib substituted ;;
     numeric <- sp.__float__ lib n ;;
     let steps := list_append steps ("Cálculo numérico: f(" ++ str_num x_val ++ ") = "
                                       ++ sp.str_float lib numeric) in
     Return (steps, Some numeric, None))
    (fun e => Return (["Error en evaluación: " ++ exc_str e], None, Some (exc_str e))).

(** The inner [for] loop of [sample_function]: whether [cur] is within the
    tolerance of an exclusion that converts to a float. *)
Definition near_exception (domain_exceptions : list Expr) (cur : float) : bool :=
  existsb (fun s =>
             match (n <- sp.N lib s ;; sp.__float__ lib n) with
             | Return sval => PrimFloat.ltb (PrimFloat.abs (cur - sval)) tolerance
             | Raise _ => false
             end)
          domain_exceptions.

(** The second [try] of the loop body: the value appended to [ys], if any. *)
Definition sample_point (expr : Expr) (cur : float) : option float :=
  match (s <- sp.subs lib expr (PyFloat cur) ;;
         yv <- sp.N lib s ;;
         match sp.is_real lib yv with
         | Some true =>
             yvf <- sp.__float__ lib yv ;;
             Return (if isfinite yvf then Some yvf else None)
         | _ => Return None
         end) with
  | Return r => r
  | Raise _ => None
  end.

(** The [while cur <= x_max] loop; [None] when [fuel] iterations do not
    reach its end. *)
Fixpoint sample_loop (fuel : nat) (expr : Expr) (domain_exceptions : list Expr)
    (x_max step cur : float) (xs ys : list float)
  : option (list float * list float) :=
  match fuel with
  | O => None
  | S fuel' =>
      if PrimFloat.leb cur x_max then
        let '(xs', ys') :=
          if near_exception domain_exceptions cur then (xs, ys)
          else match sample_point expr cur with
               | Some yvf => (list_append xs cur, list_append ys yvf)
               | None => (xs, ys)
               end in
        sample_loop fuel' expr domain_exceptions x_max step (cur + step) xs' ys'
      else Some (xs, ys)
  end.

(** The interval bounds are floats: an [int] bound such as the default
    [-10] takes part in the arithmetic and the comparisons of the loop
    through its float value. *)
Definition sample_function (fuel : nat) (expr : Expr) (domain_exceptions : list Expr)
    (x_min x_max : float) (n_points : Z)
  : outcome (option (list float * list float)) :=
  d <- float_of_int (Z.max 1 n_points) ;;
  let step := ((x_max - x_min) / d)%float in
  Return (sample_loop fuel expr domain_exceptions x_max step x_min [] []).

End Engine.

(** ** A reference library

    The answers SymPy and the interpreter give on the expressions of the
    examples: [1/x], [x + 1], [x + sin(x)], [sqrt(x)], [1 + 2*I] and the
    numbers they evaluate to.  It instantiates the general theorems and carries the concrete
    examples; inputs outside these expressions are answered with
    [NotImplementedError] and take part in no statement. *)
Module Reference.

Definition one_over_x : Expr := Pow x (Integer (-1)).
Definition x_plus_1 : Expr := Add [x; Integer 1].
Definition x_plus_sin_x : Expr := Add [x; Func "sin" [x]].
Definition sqrt_x : Expr := Pow x (Rational 1 2).
Definition one_plus_2i : Expr := Add [Integer 1; Mul [Integer 2; ImaginaryUnit]].

Definition not_modelled {A} : outcome A :=
  Raise (mkException "NotImplementedError" "outside the reference expressions").

(** [n + sin(n)] for [n = 0, 2, ..., 50], correctly rounded. *)
Definition sin_table : list float :=
  [ 0x0.0p+0; 0x1.7463dbab46d11p+1; 0x1.9f2118888f854p+1;
    0x1.6e1e0e754f5d4p+2; 0x1.1fa8d2a028cf8p+3; 0x1.2e97610a0cb0bp+3;
    0x1.6ed46508289a6p+3; 0x1.dfb30e327c5e4p+3; 0x1.f6c97efbd06f8p+3;
    0x1.13fbf4cbf670fp+4; 0x1.4e9b6c7aae9e7p+4; 0x1.5fdbbebac1229p+4;
    0x1.7182c04373760p+4; 0x1.ac33707d6192cp+4; 0x1.c455a14ed1453p+4;
    0x1.d03105c071b7ep+4; 0x1.0469526450996p+5; 0x1.143b8fb40e1f7p+5;
    0x1.1810d63f9cc79p+5; 0x1.325ef67d48f35p+5; 0x1.45f5fde3809fcp+5;
    0x1.48aaf6c02cfc0p+5; 0x1.602440e82b3b6p+5; 0x1.7736dccf28863p+5;
    0x1.79da9d4cd4ec2p+5; 0x1.8de6a80340640p+5 ]%float.

(** The float of [n + sin(n)] for an even [n]; the function is odd. *)
Definition n_plus_sin_n (n : Z) : option float :=
  if Z.even n then
    if (0 <=? n)%Z then nth_error sin_table (Z.to_nat (n / 2))
    else option_map PrimFloat.opp (nth_error sin_table (Z.to_nat (- n / 2)))
  else None.

Definition float_of_Z (z : Z) : float := SF2Prim (binary_normalize prec emax z 0 false).

(** [sympify]: a lone unknown name becomes a fresh symbol; an expression
    cut short is a syntax error. *)
Definition sympify (s : string) : outcome Expr :=
  if String.eqb s "x" then Return x
  else if String.eqb s "y" then Return (Symbol "y")
  else if String.eqb s "1/x" then Return one_over_x
  else if String.eqb s "x + 1" then Return x_plus_1
  else if String.eqb s "x + sin(x)" then Return x_plus_sin_x
  else if String.eqb s "sqrt(x)" then Return sqrt_x
  else if String.eqb s "x +" then
    Raise (mkException "SympifyError"
             "Sympify of expression 'could not parse 'x +'' failed, because of exception being raised:
SyntaxError: invalid syntax (<string>, line 1)")
  else not_modelled.

(** The reference expressions and the numbers are already in simplest form. *)
Definition simplify (e : Expr) : outcome Expr := Return e.

Definition fraction (e : Expr) : outcome (Expr * Expr) :=
  match e with
  | Pow b (Integer (-1)) => Return (Integer 1, b)
  | _ => Return (e, Integer 1)
  end.

Definition solve_Eq (lhs rhs : Expr) : outcome (list Expr) :=
  if negb (expr_eqb rhs (Integer 0)) then not_modelled
  else if expr_eqb lhs x then Return [Integer 0]
  else if expr_eqb lhs one_over_x then Return []
  else if expr_eqb lhs x_plus_1 then Return [Integer (-1)]
  else not_modelled.

Definition im (e : Expr) : outcome Expr :=
  match e with
  | Integer _ | Rational _ _ | Float _ => Return (Integer 0)
  | _ => Return (Func "im" [e])
  end.

(** [sp.StrictGreaterThan(lhs, rhs)] against [0] or [-oo]: a symbol
    without assumptions leaves the relation unevaluated, a rational number
    decides it, and a side that is not real is refused. *)
Definition StrictGreaterThan (lhs rhs : Expr) : outcome Boolean :=
  let decided (b : bool) := Return (if b then BooleanTrue else BooleanFalse) in
  match lhs, rhs with
  | Symbol _, Integer 0 | Symbol _, NegativeInfinity =>
      Return (Unevaluated (StrictGreaterThan lhs rhs))
  | Integer p, Integer 0 | Rational p _, Integer 0 => decided (0 <? p)%Z
  | Integer _, NegativeInfinity | Rational _ _, NegativeInfinity => decided true
  | ImaginaryUnit, _ =>
      Raise (mkException "TypeError" "Invalid comparison of non-real I")
  | Add [Integer 1; Mul [Integer 2; ImaginaryUnit]], _ =>
      Raise (mkException "TypeError" "Invalid comparison of non-real 1 + 2*I")
  | _, _ => not_modelled
  end.

(** [1/v] as the library evaluates it. *)
Definition reciprocal (v : pynum) : Expr :=
  match v with
  | PyInt 0 => ComplexInfinity
  | PyInt 1 => Integer 1
  | PyInt (-1) => Integer (-1)
  | PyInt (Zpos p) => Rational 1 p
  | PyInt (Zneg p) => Rational (-1) p
  | PyFloat f => if PrimFloat.eqb f 0%float then ComplexInfinity else Float (1 / f)%float
  end.

Definition subs (e : Expr) (v : pynum) : outcome Expr :=
  if expr_eqb e one_over_x then Return (reciprocal v)
  else if expr_eqb e x_plus_1 then
    Return (match v with
            | PyInt n => Integer (n + 1)
            | PyFloat f => Float (f + 1)%float
            end)
  else if expr_eqb e x_plus_sin_x then
    match v with
    | PyInt 0 => Return (Integer 0)
    | PyInt n => Return (Add [Integer n; Func "sin" [Integer n]])
    | PyFloat _ => not_modelled
    end
  else not_modelled.

Definition N (e : Expr) : outcome Expr :=
  match e with
  | Integer 0 => Return (Integer 0)
  | Integer n => Return (Float (float_of_Z n))
  | Rational p d => Return (Float (float_of_Z p / float_of_Z (Zpos d))%float)
  | Float f => Return (Float f)
  | ComplexInfinity => Return ComplexInfinity
  | Add [Integer n; Func "sin" [Integer m]] =>
      if (n =? m)%Z then
        match n_plus_sin_n n with
        | Some v => Return (Float v)
        | None => not_modelled
        end
      else not_modelled
  | _ => not_modelled
  end.

Definition is_real (e : Expr) : option bool :=
  match e with
  | Integer _ | Rational _ _ => Some true
  | Float f => Some true
  | ComplexInfinity => Some false
  | _ => None
  end.

Definition __float__ (e : Expr) : outcome float :=
  match e with
  | Integer n => float_of_int n
  | Rational p d => Return (float_of_Z p / float_of_Z (Zpos d))%float
  | Float f => Return f
  | ComplexInfinity =>
      Raise (mkException "TypeError" "Cannot convert complex to float")
  | _ => Raise (mkException "TypeError" "Cannot convert expression to float")
  end.

Definition function_range (e : Expr) : outcome string :=
  if expr_eqb e x_plus_sin_x then
    Raise (mkException "NotImplementedError"
             "Infinite number of critical points for x + sin(x)")
  else if expr_eqb e one_over_x then
    Return "Union(Interval.open(-oo, 0), Interval.open(0, oo))"
  else if expr_eqb e x_plus_1 then Return "Interval(-oo, oo)"
  else not_modelled.

Fixpoint srepr (e : Expr) : string :=
  match e with
  | Symbol n => "Symbol('" ++ n ++ "')"
  | Integer p => "Integer(" ++ str_int p ++ ")"
  | Rational p d => "Rational(" ++ str_int p ++ ", " ++ str_int (Zpos d) ++ ")"
  | Float _ => "Float(...)"
  | Infinity => "oo"
  | NegativeInfinity => "-oo"
  | ComplexInfinity => "zoo"
  | NaN => "nan"
  | ImaginaryUnit => "I"
  | Add l => "Add(" ++ join ", " (map srepr l) ++ ")"
  | Mul l => "Mul(" ++ join ", " (map srepr l) ++ ")"
  | Pow b n => "Pow(" ++ srepr b ++ ", " ++ srepr n ++ ")"
  | Func f l => f ++ "(" ++ join ", " (map srepr l) ++ ")"
  end.

(** [str(v)] of an integer-valued float below [1e16], e.g. ["3.0"]. *)
Definition str_float (f : float) : string :=
  let '(num, den) := exact_abs f in
  if ((num mod den =? 0) && (num / den <? 10 ^ 16))%Z
  then (if is_negative f then "-" else "") ++ str_int (num / den) ++ ".0"
  else "...".

(** [str(e)]: a float prints with fifteen significant digits. *)
Definition str (e : Expr) : string :=
  match e with
  | Symbol n => n
  | Integer p => str_int p
  | Rational p d => str_int p ++ "/" ++ str_int (Zpos d)
  | Float f =>
      let '(num, den) := exact_abs f in
      if ((num mod den =? 0) && (0 <? num / den) && (num / den <? 10))%Z
      then (if is_negative f then "-" else "") ++ str_int (num / den) ++ ".00000000000000"
      else "..."
  | Infinity => "oo"
  | NegativeInfinity => "-oo"
  | ComplexInfinity => "zoo"
  | NaN => "nan"
  | ImaginaryUnit => "I"
  | _ => "..."
  end.

Definition library : sp.Library :=
  {| sp.sympify := sympify;
     sp.simplify := simplify;
     sp.fraction := fraction;
     sp.solve_Eq := solve_Eq;
     sp.im := im;
     sp.StrictGreaterThan := StrictGreaterThan;
     sp.subs := subs;
     sp.N := N;
     sp.is_real := is_real;
     sp.__float__ := __float__;
     sp.function_range := function_range;
     sp.srepr := srepr;
     sp.str := str;
     sp.str_float := str_float |}.

End Reference.

(** ** Notions used by the statements *)

(** Exact arithmetic on the rational fragment: the value of a number, and
    the value of an expression in [x] at a rational point.  A division by
    zero has no value. *)
Definition exact_number (e : Expr) : option Q :=
  match e with
  | Integer p => Some (inject_Z p)
  | Rational p d => Some (p # d)
  | _ => None
  end.

Fixpoint exact_eval (e : Expr) (v : Q) : option Q :=
  match e with
  | Symbol n => if String.eqb n "x" then Some v else None
  | Integer p => Some (inject_Z p)
  | Rational p d => Some (p # d)
  | Add l =>
      fold_right (fun a acc =>
                    match exact_eval a v, acc with
                    | Some p, Some r => Some (p + r)%Q
                    | _, _ => None
                    end) (Some 0%Q) l
  | Mul l =>
      fold_right (fun a acc =>
                    match exact_eval a v, acc with
                    | Some p, Some r => Some (p * r)%Q
                    | _, _ => None
                    end) (Some 1%Q) l
  | Pow b (Integer n) =>
      match exact_eval b v with
      | Some bv => if Qeq_bool bv 0 && (n <? 0)%Z then None else Some (bv ^ n)%Q
      | None => None
      end
  | _ => None
  end.

(** [den] is exactly zero at the number [s]. *)
Definition vanishes_exactly (den s : Expr) : Prop :=
  exists v r, exact_number s = Some v /\ exact_eval den v = Some r /\ (r == 0)%Q.

(** [m] is a solution from [sols] with zero imaginary part, simplified by
    [find_denominator_singularities] and once more by [compute_domain]. *)
Definition simplified_real_solution (lib : sp.Library) (sols : list Expr) (m : Expr)
  : Prop :=
  exists s m1,
    In s sols /\ sp.im lib s = Return (Integer 0)
    /\ sp.simplify lib s = Return m1 /\ sp.simplify lib m1 = Return m.

(** The values [cur] takes in the loop of [sample_function], in order:
    [x_min], [x_min + step], ... while [cur <= x_max], at most [fuel] of
    them. *)
Fixpoint grid (fuel : nat) (x_max step cur : float) : list float :=
  match fuel with
  | O => []
  | S fuel' =>
      if PrimFloat.leb cur x_max
      then cur :: grid fuel' x_max step (cur + step)%float
      else []
  end.

(** Whether the loop leaves within [fuel] tests of its condition. *)
Fixpoint leaves (fuel : nat) (x_max step cur : float) : bool :=
  match fuel with
  | O => false
  | S fuel' =>
      if PrimFloat.leb cur x_max
      then leaves fuel' x_max step (cur + step)%float
      else true
  end.

(** The points the loop body keeps among the values of [cur]. *)
Definition kept (lib : sp.Library) (expr : Expr) (domain_exceptions : list Expr)
    (curs : list float) : list (float * float) :=
  flat_map (fun cur =>
              if near_exception lib domain_exceptions cur then []
              else match sample_point lib expr cur with
                   | Some yvf => [(cur, yvf)]
                   | None => []
                   end)
           curs.

(** A clause of the domain description, when it applies. *)
Definition clause (applies : bool) (text : string) : list string :=
  if applies then [text] else [].

(** The exact value of a finite float as a signed fraction. *)
Definition exact_value (f : float) : Z * Z :=
  let '(num, den) := exact_abs f in
  ((if is_negative f then - num else num)%Z, den).

(** Order on fractions with positive denominators. *)
Definition frac_le (a b : Z * Z) : Prop :=
  (fst a * snd b <= fst b * snd a)%Z.

(** The bounds [compute_range] prints lie within the extremes of the
    finite samples. *)
Definition printed_bounds_within (lib : sp.Library) (expr : Expr) : Prop :=
  match range_samples lib expr with
  | [] => True
  | y :: ys =>
      let lo := py_min y ys in
      let hi := py_max y ys in
      frac_le (exact_value lo) (value_4g lo) /\ frac_le (value_4g lo) (exact_value hi)
      /\ frac_le (exact_value lo) (value_4g hi) /\ frac_le (value_4g hi) (exact_value hi)
  end.

(** A failure in the pipeline of [evaluate_point]: substitution,
    simplification of the substituted form, numeric evaluation, conversion. *)
Definition evaluation_raises (lib : sp.Library) (expr : Expr) (x_val : pynum)
    (ex : PyException) : Prop :=
  sp.subs lib expr x_val = Raise ex
  \/ exists s, sp.subs lib expr x_val = Return s
       /\ (sp.simplify lib s = Raise ex
           \/ exists simp, sp.simplify lib s = Return simp
                /\ (sp.N lib s = Raise ex
                    \/ exists n, sp.N lib s = Return n
                         /\ sp.__float__ lib n = Raise ex)).

(** ** Further notions *)

(** [sp.im(s) == 0] when the call answers. *)
Definition im_zero_b (lib : sp.Library) (s : Expr) : bool :=
  match sp.im lib s with
  | Return i => expr_eqb i (Integer 0)
  | Raise _ => false
  end.

(** The points of two parallel sequences that are not within the
    tolerance of one of the exclusions [more]. *)
Definition away_from (lib : sp.Library) (more : list Expr) (xs ys : list float)
  : list (float * float) :=
  filter (fun p => negb (near_exception lib more (fst p))) (combine xs ys).

(** Libraries in which one call fails: the reference library, with that
    call raising whatever it is given. *)
Module Faulty.

Definition failure : PyException := mkException "RuntimeError" "library failure".

Definition im_raises : sp.Library :=
  {| sp.sympify := Reference.sympify;
     sp.simplify := Reference.simplify;
     sp.fraction := Reference.fraction;
     sp.solve_Eq := Reference.solve_Eq;
     sp.im := fun _ => Raise failure;
     sp.StrictGreaterThan := Reference.StrictGreaterThan;
     sp.subs := Reference.subs;
     sp.N := Reference.N;
     sp.is_real := Reference.is_real;
     sp.__float__ := Reference.__float__;
     sp.function_range := Reference.function_range;
     sp.srepr := Reference.srepr;
     sp.str := Reference.str;
     sp.str_float := Reference.str_float |}.

Definition N_raises : sp.Library :=
  {| sp.sympify := Reference.sympify;
     sp.simplify := Reference.simplify;
     sp.fraction := Reference.fraction;
     sp.solve_Eq := Reference.solve_Eq;
     sp.im := Reference.im;
     sp.StrictGreaterThan := Reference.StrictGreaterThan;
     sp.subs := Reference.subs;
     sp.N := fun _ => Raise failure;
     sp.is_real := Reference.is_real;
     sp.__float__ := Reference.__float__;
     sp.function_range := Reference.function_range;
     sp.srepr := Reference.srepr;
     sp.str := Reference.str;
     sp.str_float := Reference.str_float |}.

Definition solve_raises : sp.Library :=
  {| sp.sympify := Reference.sympify;
     sp.simplify := Reference.simplify;
     sp.fraction := Reference.fraction;
     sp.solve_Eq := fun _ _ => Raise failure;
     sp.im := Reference.im;
     sp.StrictGreaterThan := Reference.StrictGreaterThan;
     sp.subs := Reference.subs;
     sp.N := Reference.N;
     sp.is_real := Reference.is_real;
     sp.__float__ := Reference.__float__;
     sp.function_range := Reference.function_range;
     sp.srepr := Reference.srepr;
     sp.str := Reference.str;
     sp.str_float := Reference.str_float |}.

End Faulty.

(** ** The window

    The class [AnalizadorGUI]: its attributes, the contents of its widgets
    and its callbacks, with the state passed explicitly.  The text widget is
    the string it holds, the axes are the list of what has been added since
    they were last cleared, the canvas is what the axes held when it was
    last drawn, and the message boxes shown are kept in a list. *)

(** [format(v, '.Pg')]: [P] significant digits; [inf] and [nan] by name. *)
Definition round_sig (P : Z) (num den : Z) : Z * Z :=
  let X := decimal_exponent 700 310 num den in
  let p := (num * 10 ^ Z.max (P - 1 - X) 0)%Z in
  let q := (den * 10 ^ Z.max (X - (P - 1)) 0)%Z in
  let D := round_half_even p q in
  if (D =? 10 ^ P)%Z then (10 ^ (P - 1), X + 1)%Z else (D, X).

Definition format_g (P : Z) (f : float) : string :=
  if PrimFloat.is_nan f then "nan"
  else if PrimFloat.is_infinity f then (if is_negative f then "-inf" else "inf")
  else
  let sign := if is_negative f then "-" else "" in
  let '(num, den) := exact_abs f in
  if (num =? 0)%Z then sign ++ "0"
  else
    let '(D, X) := round_sig P num den in
    let digits := str_int (strip_zeros (Z.to_nat (P - 1)) D) in
    let nd := String.length digits in
    let decpt := (X + 1)%Z in
    if ((X <? -4) || (P <=? X))%Z then
      sign ++ substring 0 1 digits
           ++ (if (1 <? nd)%nat then "." ++ substring 1 (nd - 1) digits else "")
           ++ exponent_suffix X
    else if (decpt <=? 0)%Z then
      sign ++ "0." ++ zeros (Z.to_nat (- decpt)) ++ digits
    else if (Z.of_nat nd <=? decpt)%Z then
      sign ++ digits ++ zeros (Z.to_nat decpt - nd)
    else
      sign ++ substring 0 (Z.to_nat decpt) digits ++ "."
           ++ substring (Z.to_nat decpt) (nd - Z.to_nat decpt) digits.

Module AnalizadorGUI.

(** What the callbacks use besides the engine's library. *)
Record Runtime : Type := {
  (** [s.strip()] *)
  strip : string -> string;
  (** [float(s)] of a string *)
  parse_float : string -> outcome float;
  (** [sp.pretty(e)] *)
  pretty : Expr -> string;
  (** [sp.simplify(None)] *)
  simplify_None : outcome (option Expr);
  (** the exception [compute_domain(None)] ends with: at the latest
      [None.atoms] in [find_log_constraints] *)
  compute_domain_None : PyException;
  (** [float(sp.N(None))] *)
  float_N_None : outcome float
}.

Inductive Dialog : Type :=
| showwarning (title message : string)
| showerror (title message : string).

(** What the axes hold: [ax.plot], [ax.scatter] (with its colour when
    given), [ax.axvline], and the decorations. *)
Inductive Artist : Type :=
| Line (xs ys : list float) (label : string)
| Scatter (px py : float) (marker : string) (s : Z) (color : option string)
          (label : string)
| VLine (px : float) (linestyle : string) (label : string)
| Title (t : string)
| XLabel (t : string)
| YLabel (t : string)
| Grid (on : bool)
| Legend (loc fontsize : string).

Record App : Type := mkApp {
  func_entry : string;
  x_entry : string;
  text : string;
  ax : list Artist;
  canvas : list Artist;
  parsed_expr : option Expr;
  domain_exceptions : list Expr;
  x_eval_point : option (float * option float);
  dialogs : list Dialog
}.

(** The window after [__init__]. *)
Definition init : App := mkApp "" "" "" [] [] None [] None [].

Definition set_func_entry (v : string) (a : App) : App :=
  mkApp v (x_entry a) (text a) (ax a) (canvas a) (parsed_expr a)
        (domain_exceptions a) (x_eval_point a) (dialogs a).
Definition set_x_entry (v : string) (a : App) : App :=
  mkApp (func_entry a) v (text a) (ax a) (canvas a) (parsed_expr a)
        (domain_exceptions a) (x_eval_point a) (dialogs a).
Definition set_text (v : string) (a : App) : App :=
  mkApp (func_entry a) (x_entry a) v (ax a) (canvas a) (parsed_expr a)
        (domain_exceptions a) (x_eval_point a) (dialogs a).
Definition set_ax (v : list Artist) (a : App) : App :=
  mkApp (func_entry a) (x_entry a) (text a) v (canvas a) (parsed_expr a)
        (domain_exceptions a) (x_eval_point a) (dialogs a).
Definition set_canvas (v : list Artist) (a : App) : App :=
  mkApp (func_entry a) (x_entry a) (text a) (ax a) v (parsed_expr a)
        (domain_exceptions a) (x_eval_point a) (dialogs a).
Definition set_parsed_expr (v : option Expr) (a : App) : App :=
  mkApp (func_entry a) (x_entry a) (text a) (ax a) (canvas a) v
        (domain_exceptions a) (x_eval_point a) (dialogs a).
Definition set_domain_exceptions (v : list Expr) (a : App) : App :=
  mkApp (func_entry a) (x_entry a) (text a) (ax a) (canvas a) (parsed_expr a)
        v (x_eval_point a) (dialogs a).
Definition set_x_eval_point (v : option (float * option float)) (a : App) : App :=
  mkApp (func_entry a) (x_entry a) (text a) (ax a) (canvas a) (parsed_expr a)
        (domain_exceptions a) v (dialogs a).
Definition set_dialogs (v : list Dialog) (a : App) : App :=
  mkApp (func_entry a) (x_entry a) (text a) (ax a) (canvas a) (parsed_expr a)
        (domain_exceptions a) (x_eval_point a) v.

(** A callback or a part of one: it returns or raises, and leaves the
    window in a new state either way. *)
Definition action (A : Type) : Type := App -> outcome A * App.

Definition ret {A} (v : A) : action A := fun a => (Return v, a).
Definition raise {A} (e : PyException) : action A := fun a => (Raise e, a).
Definition lift {A} (c : outcome A) : action A := fun a => (c, a).
Definition get : action App := fun a => (Return a, a).
Definition modify (f : App -> App) : action unit := fun a => (Return tt, f a).
Definition and_then {A B} (c : action A) (k : A -> action B) : action B :=
  fun a => match c a with
           | (Return v, a') => k v a'
           | (Raise e, a') => (Raise e, a')
           end.

Declare Scope gui_scope.
Notation "v <~ c ;; k" := (and_then c (fun v => k))
  (at level 61, c at next level, right associativity) : gui_scope.
Notation "' pat <~ c ;; k" := (and_then c (fun v => match v with pat => k end))
  (at level 61, pat pattern, c at next level, right associativity) : gui_scope.
Notation "c ;;; k" := (and_then c (fun _ => k))
  (at level 61, right associativity) : gui_scope.
Local Open Scope gui_scope.

(** [self.log]: each message on a line of its own. *)
Definition log (msgs : list string) : action unit :=
  modify (fun a => set_text (text a ++ String.concat "" (map (fun m => m ++ "
") msgs)) a).

Definition show (d : Dialog) : action unit :=
  modify (fun a => set_dialogs (list_append (dialogs a) d) a).

(** [self.ax.plot], [self.ax.scatter], ...: one more artist on the axes. *)
Definition ax_add (art : Artist) : action unit :=
  modify (fun a => set_ax (list_append (ax a) art) a).

(** The truth value of a string or [None]. *)
Definition truthy (s : option string) : bool :=
  match s with
  | Some m => negb (String.eqb m "")
  | None => false
  end.

Section Callbacks.

Variable lib : sp.Library.
Variable rt : Runtime.

(** [sp.simplify(o)] for an expression or [None]. *)
Definition simplify_obj (o : option Expr) : outcome (option Expr) :=
  match o with
  | Some e => e' <- sp.simplify lib e ;; Return (Some e')
  | None => simplify_None rt
  end.

(** [str(o)] for an expression or [None]. *)
Definition str_obj (o : option Expr) : string :=
  match o with
  | Some e => sp.str lib e
  | None => "None"
  end.

(** [float(sp.N(o))] for an expression or [None]. *)
Definition float_N_obj (o : option Expr) : outcome float :=
  match o with
  | Some e => n <- sp.N lib e ;; sp.__float__ lib n
  | None => float_N_None rt
  end.

(** [str(v)] for a float or [None]. *)
Definition str_float_obj (o : option float) : string :=
  match o with
  | Some v => sp.str_float lib v
  | None => "None"
  end.

(** [sample_function(expr, exclusions, x_min=-10, x_max=10, n_points=800)]:
    the call returns within 801 tests of the loop condition, whatever the
    expression and the exclusions. *)
Definition default_samples (expr : Expr) (exclusions : list Expr)
  : list float * list float :=
  match sample_function lib 801 expr exclusions (-10)%float 10%float 800 with
  | Return (Some r) => r
  | _ => ([], [])
  end.

Definition on_clear : action unit :=
  modify (set_func_entry "") ;;;
  modify (set_x_entry "") ;;;
  modify (set_text "") ;;;
  modify (set_ax []) ;;;
  modify (fun a => set_canvas (ax a) a) ;;;
  modify (set_parsed_expr None) ;;;
  modify (set_domain_exceptions []).

Definition on_analyze : action unit :=
  a <~ get ;;
  let expr_str := strip rt (func_entry a) in
  if String.eqb expr_str "" then
    show (showwarning "Entrada vacía" "Ingrese una función en la caja 'Función f(x)'.")
  else
    '(expr, err) <~ lift (safe_sympify lib expr_str) ;;
    modify (set_text "") ;;;
    if truthy err then
      log ["Error al parsear la función:"; match err with Some m => m | None => "" end]
    else
      parsed <~ lift (simplify_obj expr) ;;
      modify (set_parsed_expr parsed) ;;;
      log ["Función parseada:"; str_obj parsed] ;;;
      match parsed with
      | None => raise (compute_domain_None rt)
      | Some e =>
          '(domain_desc, den_excs, logs, roots) <~ lift (compute_domain lib e) ;;
          modify (set_domain_exceptions den_excs) ;;;
          log ["Dominio (descripción):"; domain_desc] ;;;
          (if nonempty den_excs then
             names <~ lift (mapM (fun d => n <- sp.N lib d ;; Return (sp.str lib n))
                                 den_excs) ;;
             log ["Singularidades detectadas:"; join ", " names]
           else ret tt) ;;;
          '(y0, x_roots) <~ lift (compute_intersections lib e) ;;
          y0s <~ lift (simplify_obj y0) ;;
          log ["Intersección con eje Y: f(0) = " ++ str_obj y0s] ;;;
          (if nonempty x_roots then
             rs <~ lift (mapM (fun r => r' <- sp.simplify lib r ;; Return (sp.str lib r'))
                              x_roots) ;;
             log ["Intersecciones con eje X (reales):"; join ", " rs]
           else log ["Intersecciones con eje X: no se detectaron raíces reales."]) ;;;
          rng <~ lift (compute_range lib e) ;;
          log ["Recorrido (simbol./aprox):"; rng] ;;;
          log ["Análisis completado."]
      end.

(** The markers of [on_plot]: one [scatter] per root, one [axvline] per
    exclusion, for those that convert to a float. *)
Fixpoint plot_roots (x_roots : list Expr) : action unit :=
  match x_roots with
  | [] => ret tt
  | r :: rest =>
      match (n <- sp.N lib r ;; sp.__float__ lib n) with
      | Return rv =>
          ax_add (Scatter rv 0%float "x" 50 None ("root " ++ sp.str_float lib rv))
      | Raise _ => ret tt
      end ;;;
      plot_roots rest
  end.

Fixpoint plot_exclusions (exclusions : list Expr) : action unit :=
  match exclusions with
  | [] => ret tt
  | s :: rest =>
      match (n <- sp.N lib s ;; sp.__float__ lib n) with
      | Return sval => ax_add (VLine sval "--" ("x=" ++ sp.str_float lib sval))
      | Raise _ => ret tt
      end ;;;
      plot_exclusions rest
  end.

Definition on_plot : action unit :=
  a0 <~ get ;;
  (match parsed_expr a0 with None => on_analyze | Some _ => ret tt end) ;;;
  a <~ get ;;
  match parsed_expr a with
  | None => ret tt
  | Some e =>
      modify (set_ax []) ;;;
      let '(xs, ys) := default_samples e (domain_exceptions a) in
      if nonempty xs then
        ax_add (Line xs ys ("f(x) = " ++ pretty rt e)) ;;;
        '(y0, x_roots) <~ lift (compute_intersections lib e) ;;
        match float_N_obj y0 with
        | Return y0f =>
            ax_add (Scatter 0%float y0f "o" 50 None ("f(0)=" ++ sp.str_float lib y0f))
        | Raise _ => ret tt
        end ;;;
        plot_roots x_roots ;;;
        plot_exclusions (domain_exceptions a) ;;;
        match x_eval_point a with
        | Some (xv, Some yv) =>
            ax_add (Scatter xv yv "o" 80 (Some "red")
                            ("Punto evaluado (" ++ format_g 3 xv ++ ","
                             ++ format_g 3 yv ++ ")"))
        | _ => ret tt
        end ;;;
        ax_add (Title "Gráfica de la función") ;;;
        ax_add (XLabel "x") ;;;
        ax_add (YLabel "y") ;;;
        ax_add (Grid true) ;;;
        ax_add (Legend "best" "small") ;;;
        modify (fun a => set_canvas (ax a) a) ;;;
        log ["Gráfica generada."]
      else
        log ["No hay puntos muestreables para graficar (posible dominio muy restringido)."]
  end.

(** [for s in steps: self.log(s)]. *)
Fixpoint log_each (steps : list string) : action unit :=
  match steps with
  | [] => ret tt
  | s :: rest => log [s] ;;; log_each rest
  end.

Definition on_evaluate : action unit :=
  a0 <~ get ;;
  (match parsed_expr a0 with None => on_analyze | Some _ => ret tt end) ;;;
  a <~ get ;;
  match parsed_expr a with
  | None => ret tt
  | Some e =>
      let x_text := strip rt (x_entry a) in
      if String.eqb x_text "" then
        show (showwarning "Entrada vacía" "Ingrese un valor numérico para x.")
      else
        match parse_float rt x_text with
        | Raise _ => show (showerror "Error" "Valor de x no es numérico.")
        | Return x_val =>
            '(steps, numeric, err) <~ lift (evaluate_point lib e (PyFloat x_val)) ;;
            log_each steps ;;;
            if truthy err then
              log ["Error en evaluación:"; match err with Some m => m | None => "" end]
            else
              log ["Punto evaluado: (" ++ sp.str_float lib x_val ++ ", "
                   ++ str_float_obj numeric ++ ")"] ;;;
              modify (set_x_eval_point (Some (x_val, numeric))) ;;;
              on_plot
        end
  end.

End Callbacks.

End AnalizadorGUI.

(** The reference answers of the interpreter and the library for the
    window: ASCII white space stripped, a few numerals read, and the
    failures on [None]. *)
Module ReferenceShell.

Definition is_space (c : ascii) : bool :=
  let n := nat_of_ascii c in
  (n =? 32)%nat || ((9 <=? n)%nat && (n <=? 13)%nat).

Fixpoint lstrip (s : string) : string :=
  match s with
  | String c s' => if is_space c then lstrip s' else s
  | EmptyString => EmptyString
  end.

Fixpoint rstrip (s : string) : string :=
  match s with
  | String c s' =>
      match rstrip s' with
      | EmptyString => if is_space c then EmptyString else String c EmptyString
      | r => String c r
      end
  | EmptyString => EmptyString
  end.

Definition strip (s : string) : string := rstrip (lstrip s).

Definition parse_float (s : string) : outcome float :=
  if String.eqb s "2" then Return 2%float
  else if String.eqb s "2.0" then Return 2%float
  else if String.eqb s "0" then Return 0%float
  else if String.eqb s "-1" then Return (-1)%float
  else Raise (mkException "ValueError"
                ("could not convert string to float: '" ++ s ++ "'")).

Definition pretty (e : Expr) : string :=
  if expr_eqb e Reference.x_plus_1 then "x + 1"
  else if expr_eqb e x then "x"
  else "...".

Definition runtime : AnalizadorGUI.Runtime :=
  {| AnalizadorGUI.strip := strip;
     AnalizadorGUI.parse_float := parse_float;
     AnalizadorGUI.pretty := pretty;
     AnalizadorGUI.simplify_None :=
       Raise (mkException "AttributeError" "'NoneType' object has no attribute 'replace'");
     AnalizadorGUI.compute_domain_None :=
       mkException "AttributeError" "'NoneType' object has no attribute 'atoms'";
     AnalizadorGUI.float_N_None :=
       Raise (mkException "AttributeError" "'NoneType' object has no attribute 'evalf'") |}.

End ReferenceShell.

(** ** Notions used by the statements about the window *)

(** The text a call of [self.log] appends: its messages, a line each. *)
Definition lines (msgs : list string) : string :=
  String.concat "" (map (fun m => m ++ "
") msgs).

(** The markers [on_plot] adds for the roots and for the exclusions that
    convert to a float. *)
Definition root_markers (lib : sp.Library) (x_roots : list Expr)
  : list AnalizadorGUI.Artist :=
  flat_map (fun r =>
              match (n <- sp.N lib r ;; sp.__float__ lib n) with
              | Return rv =>
                  [AnalizadorGUI.Scatter rv 0%float "x" 50 None
                     ("root " ++ sp.str_float lib rv)]
              | Raise _ => []
              end)
           x_roots.

Definition exclusion_markers (lib : sp.Library) (exclusions : list Expr)
  : list AnalizadorGUI.Artist :=
  flat_map (fun s =>
              match (n <- sp.N lib s ;; sp.__float__ lib n) with
              | Return sval =>
                  [AnalizadorGUI.VLine sval "--" ("x=" ++ sp.str_float lib sval)]
              | Raise _ => []
              end)
           exclusions.

(** The marker of the evaluated point, when its value is a float. *)
Definition point_marker (pt : option (float * option float))
  : list AnalizadorGUI.Artist :=
  match pt with
  | Some (xv, Some yv) =>
      [AnalizadorGUI.Scatter xv yv "o" 80 (Some "red")
         ("Punto evaluado (" ++ format_g 3 xv ++ "," ++ format_g 3 yv ++ ")")]
  | _ => []
  end.

(** The marker of the value at zero, when it converts to a float. *)
Definition intercept_marker (lib : sp.Library) (rt : AnalizadorGUI.Runtime)
    (y0 : option Expr) : list AnalizadorGUI.Artist :=
  match AnalizadorGUI.float_N_obj lib rt y0 with
  | Return y0f =>
      [AnalizadorGUI.Scatter 0%float y0f "o" 50 None ("f(0)=" ++ sp.str_float lib y0f)]
  | Raise _ => []
  end.

Definition decorations : list AnalizadorGUI.Artist :=
  [AnalizadorGUI.Title "Gráfica de la función"; AnalizadorGUI.XLabel "x";
   AnalizadorGUI.YLabel "y"; AnalizadorGUI.Grid true;
   AnalizadorGUI.Legend "best" "small"].

(** A callback, or a part of one, that leaves one attribute of the window
    as it was. *)
Definition keeps {X A} (attr : AnalizadorGUI.App -> X) (c : AnalizadorGUI.action A)
  : Prop :=
  forall a, attr (snd (c a)) = attr a.

(** A part of a callback that returns and only adds [arts] to the axes. *)
Definition adds (arts : list AnalizadorGUI.Artist) (c : AnalizadorGUI.action unit)
  : Prop :=
  forall a, c a = (Return tt, AnalizadorGUI.set_ax (AnalizadorGUI.ax a ++ arts)%list a).

(** What a completed plot holds, in order. *)
Definition plot_contents (lib : sp.Library) (rt : AnalizadorGUI.Runtime)
    (e : Expr) (xs ys : list float) (y0 : option Expr) (x_roots exclusions : list Expr)
    (pt : option (float * option float)) : list AnalizadorGUI.Artist :=
  (AnalizadorGUI.Line xs ys ("f(x) = " ++ AnalizadorGUI.pretty rt e)
   :: intercept_marker lib rt y0
   ++ root_markers lib x_roots
   ++ exclusion_markers lib exclusions
   ++ point_marker pt
   ++ decorations)%list.

(** A library whose conversion to a float raises an exception with an
    empty message. *)
Definition float_raises_silently : sp.Library :=
  {| sp.sympify := Reference.sympify;
     sp.simplify := Reference.simplify;
     sp.fraction := Reference.fraction;
     sp.solve_Eq := Reference.solve_Eq;
     sp.im := Reference.im;
     sp.StrictGreaterThan := Reference.StrictGreaterThan;
     sp.subs := Reference.subs;
     sp.N := Reference.N;
     sp.is_real := Reference.is_real;
     sp.__float__ := fun _ => Raise (mkException "TypeError" "");
     sp.function_range := Reference.function_range;
     sp.srepr := Reference.srepr;
     sp.str := Reference.str;
     sp.str_float := Reference.str_float |}.

(** ** The sampler, call by call

    [sample_function] as the interpreter runs it, one call at a time.  A
    library call is a relation between its argument and what it answers, so
    that it may answer differently from one time to the next, and the
    exclusions, which [compute_domain] builds as a set, are iterated in
    whatever order the interpreter picks, a new one at each pass if it likes.
    The relation [Calls.sample_function] holds of the arguments of a call
    and a pair of sequences when the call can return that pair. *)
Module Calls.

Record Answers : Type := {
  (** [e.subs(x, v)] *)
  subs : Expr -> pynum -> outcome Expr -> Prop;
  (** [sp.N(e)] *)
  N : Expr -> outcome Expr -> Prop;
  (** [e.is_real] *)
  is_real : Expr -> option bool -> Prop;
  (** [float(e)] *)
  __float__ : Expr -> outcome float -> Prop
}.

(** The answers of a library that is a function of its arguments. *)
Definition of_library (lib : sp.Library) : Answers :=
  {| subs := fun e v r => sp.subs lib e v = r;
     N := fun e r => sp.N lib e = r;
     is_real := fun e r => sp.is_real lib e = r;
     __float__ := fun e r => sp.__float__ lib e = r |}.

(** Each call has one answer per argument. *)
Definition single_valued (o : Answers) : Prop :=
  (forall e v r r', subs o e v r -> subs o e v r' -> r = r')
  /\ (forall e r r', N o e r -> N o e r' -> r = r')
  /\ (forall e r r', is_real o e r -> is_real o e r' -> r = r')
  /\ (forall e r r', __float__ o e r -> __float__ o e r' -> r = r').

Section Runs.

Variable o : Answers.

(** [sval = float(sp.N(s))] in the first [try]: the float, or [None] when
    the [except] clause is taken. *)
Inductive converts (s : Expr) : option float -> Prop :=
| converts_float (n : Expr) (sval : float) :
    N o s (Return n) -> __float__ o n (Return sval) -> converts s (Some sval)
| converts_N_raises (ex : PyException) :
    N o s (Raise ex) -> converts s None
| converts_float_raises (n : Expr) (ex : PyException) :
    N o s (Return n) -> __float__ o n (Raise ex) -> converts s None.

(** The loop [for s in domain_exceptions] at [cur], over the exclusions in
    the order they are iterated in: the value of [skip] after it. *)
Inductive skips (cur : float) : list Expr -> bool -> Prop :=
| skips_end : skips cur [] false
| skips_break (s : Expr) (rest : list Expr) (sval : float) :
    converts s (Some sval) ->
    PrimFloat.ltb (PrimFloat.abs (cur - sval)) tolerance = true ->
    skips cur (s :: rest) true
| skips_next (s : Expr) (rest : list Expr) (sval : float) (skip : bool) :
    converts s (Some sval) ->
    PrimFloat.ltb (PrimFloat.abs (cur - sval)) tolerance = false ->
    skips cur rest skip ->
    skips cur (s :: rest) skip
| skips_continue (s : Expr) (rest : list Expr) (skip : bool) :
    converts s None ->
    skips cur rest skip ->
    skips cur (s :: rest) skip.

(** The second [try] at [cur]: the value appended to [ys], if any. *)
Inductive evaluates (expr : Expr) (cur : float) : option float -> Prop :=
| evaluates_subs_raises (ex : PyException) :
    subs o expr (PyFloat cur) (Raise ex) -> evaluates expr cur None
| evaluates_N_raises (s : Expr) (ex : PyException) :
    subs o expr (PyFloat cur) (Return s) -> N o s (Raise ex) ->
    evaluates expr cur None
| evaluates_not_real (s yv : Expr) (real : option bool) :
    subs o expr (PyFloat cur) (Return s) -> N o s (Return yv) ->
    is_real o yv real -> real <> Some true ->
    evaluates expr cur None
| evaluates_float_raises (s yv : Expr) (ex : PyException) :
    subs o expr (PyFloat cur) (Return s) -> N o s (Return yv) ->
    is_real o yv (Some true) -> __float__ o yv (Raise ex) ->
    evaluates expr cur None
| evaluates_float (s yv : Expr) (yvf : float) :
    subs o expr (PyFloat cur) (Return s) -> N o s (Return yv) ->
    is_real o yv (Some true) -> __float__ o yv (Return yvf) ->
    evaluates expr cur (if isfinite yvf then Some yvf else None).

(** The loop [while cur <= x_max], from [cur] with [xs] and [ys] built so
    far, to the pair it ends with. *)
Inductive loops (expr : Expr) (domain_exceptions : list Expr) (x_max step : float)
  : float -> list float -> list float -> list float * list float -> Prop :=
| loops_end (cur : float) (xs ys : list float) :
    PrimFloat.leb cur x_max = false ->
    loops expr domain_exceptions x_max step cur xs ys (xs, ys)
| loops_skip (cur : float) (xs ys : list float) (order : list Expr)
    (r : list float * list float) :
    PrimFloat.leb cur x_max = true ->
    Permutation domain_exceptions order ->
    skips cur order true ->
    loops expr domain_exceptions x_max step (cur + step) xs ys r ->
    loops expr domain_exceptions x_max step cur xs ys r
| loops_append (cur : float) (xs ys : list float) (order : list Expr) (yvf : float)
    (r : list float * list float) :
    PrimFloat.leb cur x_max = true ->
    Permutation domain_exceptions order ->
    skips cur order false ->
    evaluates expr cur (Some yvf) ->
    loops expr domain_exceptions x_max step (cur + step)
          (list_append xs cur) (list_append ys yvf) r ->
    loops expr domain_exceptions x_max step cur xs ys r
| loops_pass (cur : float) (xs ys : list float) (order : list Expr)
    (r : list float * list float) :
    PrimFloat.leb cur x_max = true ->
    Permutation domain_exceptions order ->
    skips cur order false ->
    evaluates expr cur None ->
    loops expr domain_exceptions x_max step (cur + step) xs ys r ->
    loops expr domain_exceptions x_max step cur xs ys r.

Inductive sample_function (expr : Expr) (domain_exceptions : list Expr)
    (x_min x_max : float) (n_points : Z) : list float * list float -> Prop :=
| returns (d : float) (r : list float * list float) :
    float_of_int (Z.max 1 n_points) = Return d ->
    loops expr domain_exceptions x_max ((x_max - x_min) / d) x_min [] [] r ->
    sample_function expr domain_exceptions x_min x_max n_points r.

End Runs.

End Calls.

(** A library whose numeric evaluation answers 1.0 at one time and 2.0 at
    another. *)
Definition two_answers : Calls.Answers :=
  {| Calls.subs := fun _ _ r => r = Return x;
     Calls.N := fun _ r => r = Return (Float 1) \/ r = Return (Float 2);
     Calls.is_real := fun _ r => r = Some true;
     Calls.__float__ := fun e r => match e with Float f => r = Return f | _ => False end |}.

(** * Proofs *)

(** ** The outcome monad *)

Lemma bind_Return {A B} (c : outcome A) (k : A -> outcome B) (b : B) :
  bind c k = Return b -> exists a, c = Return a /\ k a = Return b.
Proof. destruct c as [a|e]; simpl; intros H; [eauto | discriminate]. Qed.

Lemma bind_Raise {A B} (c : outcome A) (k : A -> outcome B) (ex : PyException) :
  bind c k = Raise ex ->
  c = Raise ex \/ exists a, c = Return a /\ k a = Raise ex.
Proof. destruct c as [a|e]; simpl; intros H; [right; eauto | left; congruence]. Qed.

Lemma try_except_total {A} (body : outcome A) (h : PyException -> A) :
  exists a, try_except body (fun e => Return (h e)) = Return a.
Proof. destruct body; simpl; eauto. Qed.

Ltac inv_bind H :=
  let a := fresh "v" in
  let Ha := fresh "Hv" in
  apply bind_Return in H; destruct H as (a & Ha & H).

Lemma mapM_Return {A B} (f : A -> outcome B) (l : list A) (r : list B) :
  mapM f l = Return r -> Forall2 (fun a b => f a = Return b) l r.
Proof.
  revert r; induction l as [|a l IH]; simpl; intros r H.
  - inversion H; constructor.
  - inv_bind H. inv_bind H. inversion H; subst. constructor; auto.
Qed.

Lemma filterM_Return {A} (p : A -> outcome bool) (l r : list A) :
  filterM p l = Return r ->
  Forall (fun a => exists b, p a = Return b) l
  /\ forall a, In a r <-> In a l /\ p a = Return true.
Proof.
  revert r; induction l as [|a l IH]; simpl; intros r H.
  - inversion H; subst. split; [constructor | simpl; tauto].
  - inv_bind H. inv_bind H. inversion H; subst; clear H.
    destruct (IH _ Hv0) as [Hall Hin]. split; [constructor; eauto|].
    intros b. destruct v; simpl; rewrite Hin; split.
    + intros [->|[? ?]]; auto.
    + intros [[->|?] ?]; auto.
    + intros [? ?]; auto.
    + intros [[->|?] Hp]; [congruence | auto].
Qed.

Lemma Forall2_In_l {A B} (R : A -> B -> Prop) l r a :
  Forall2 R l r -> In a l -> exists b : B, In b r /\ R a b.
Proof.
  induction 1 as [|u v l r Huv _ IH]; simpl; [tauto|].
  intros [->|Hin]; [eauto | destruct (IH Hin) as (b & ? & ?); eauto].
Qed.

Lemma Forall2_In_r {A B} (R : A -> B -> Prop) l r b :
  Forall2 R l r -> In b r -> exists a : A, In a l /\ R a b.
Proof.
  induction 1 as [|u v l r Huv _ IH]; simpl; [tauto|].
  intros [->|Hin]; [eauto | destruct (IH Hin) as (a & ? & ?); eauto].
Qed.

(** ** Expressions: induction and equality *)

Lemma Expr_nested_ind (P : Expr -> Prop)
  (HSymbol : forall n, P (Symbol n))
  (HInteger : forall p, P (Integer p))
  (HRational : forall p d, P (Rational p d))
  (HFloat : forall f, P (Float f))
  (HInfinity : P Infinity)
  (HNegativeInfinity : P NegativeInfinity)
  (HComplexInfinity : P ComplexInfinity)
  (HNaN : P NaN)
  (HImaginaryUnit : P ImaginaryUnit)
  (HAdd : forall l, Forall P l -> P (Add l))
  (HMul : forall l, Forall P l -> P (Mul l))
  (HPow : forall b n, P b -> P n -> P (Pow b n))
  (HFunc : forall f l, Forall P l -> P (Func f l)) :
  forall e, P e.
Proof.
  exact (fix IH (e : Expr) : P e :=
    let all := fix all (l : list Expr) : Forall P l :=
      match l with
      | [] => Forall_nil P
      | a :: l' => Forall_cons a (IH a) (all l')
      end in
    match e with
    | Symbol n => HSymbol n
    | Integer p => HInteger p
    | Rational p d => HRational p d
    | Float f => HFloat f
    | Infinity => HInfinity
    | NegativeInfinity => HNegativeInfinity
    | ComplexInfinity => HComplexInfinity
    | NaN => HNaN
    | ImaginaryUnit => HImaginaryUnit
    | Add l => HAdd l (all l)
    | Mul l => HMul l (all l)
    | Pow b n => HPow b n (IH b) (IH n)
    | Func f l => HFunc f l (all l)
    end).
Qed.

Lemma list_eqb_eq {A} (eqb : A -> A -> bool) (l : list A) :
  Forall (fun a => forall b, eqb a b = true <-> a = b) l ->
  forall l', list_eqb eqb l l' = true <-> l = l'.
Proof.
  induction 1 as [|a l Ha _ IH]; intros [|b l']; simpl;
    try (split; [discriminate | congruence]); [tauto|].
  rewrite andb_true_iff, Ha, IH. split; [intros [-> ->]; auto | intros H; inversion H; auto].
Qed.

Lemma expr_eqb_eq (a b : Expr) : expr_eqb a b = true <-> a = b.
Proof.
  revert b; induction a using Expr_nested_ind; intros [];
    simpl; try (split; [discriminate | congruence]); try tauto.
  - rewrite String.eqb_eq. split; congruence.
  - rewrite Z.eqb_eq. split; congruence.
  - rewrite andb_true_iff, Z.eqb_eq, Pos.eqb_eq. split; [intros [-> ->]; auto | intros E; inversion E; auto].
  - rewrite FloatAxioms.Leibniz.eqb_spec. split; congruence.
  - rewrite (list_eqb_eq _ _ H). split; congruence.
  - rewrite (list_eqb_eq _ _ H). split; congruence.
  - rewrite andb_true_iff, IHa1, IHa2. split; [intros [-> ->]; auto | intros E; inversion E; auto].
  - rewrite andb_true_iff, String.eqb_eq, (list_eqb_eq _ _ H).
    split; [intros [-> ->]; auto | intros E; inversion E; auto].
Qed.

Lemma expr_eqb_refl (a : Expr) : expr_eqb a a = true.
Proof. apply expr_eqb_eq; reflexivity. Qed.

Lemma expr_eqb_neq (a b : Expr) : expr_eqb a b = false <-> a <> b.
Proof.
  rewrite <- expr_eqb_eq. destruct (expr_eqb a b); split; congruence.
Qed.

(** ** Sets of expressions *)

Lemma set_mem_In (e : Expr) (s : list Expr) : set_mem e s = true <-> In e s.
Proof.
  unfold set_mem. rewrite existsb_exists. split.
  - intros (y & Hy & E). apply expr_eqb_eq in E; subst; auto.
  - intros H. exists e; split; [auto | apply expr_eqb_refl].
Qed.

Lemma set_add_In (e a : Expr) (s : list Expr) :
  In a (set_add e s) <-> a = e \/ In a s.
Proof.
  unfold set_add, list_append. destruct (set_mem e s) eqn:M.
  - apply set_mem_In in M. split; [auto | intros [->|?]; auto].
  - rewrite in_app_iff; simpl. split; [intros [?|[?|[]]]; auto | intros [?|?]; auto].
Qed.

Lemma fold_set_add_In (l acc : list Expr) (a : Expr) :
  In a (fold_left (fun s e => set_add e s) l acc) <-> In a l \/ In a acc.
Proof.
  revert acc; induction l as [|e l IH]; simpl; intros acc; [tauto|].
  rewrite IH, set_add_In. split; [intros [?|[?|?]]; auto | intros [[?|?]|?]; auto].
Qed.

Lemma atoms_In (cls : Expr -> bool) (e p : Expr) :
  In p (atoms cls e) <-> In p (preorder e) /\ cls p = true.
Proof.
  unfold atoms, set_of_list. rewrite fold_set_add_In, filter_In; simpl; tauto.
Qed.

(** ** The expression parser *)

(** C4 (as amended): for every input string [safe_sympify] returns, never
    raising: [(expr, None)] exactly when the library's [sympify] returns
    [expr], and [(None, str(e))] exactly when [sympify] raises [e].  It adds
    no check of its own, so it accepts whatever [sympify] accepts. *)
Theorem safe_sympify_total_and_transparent (lib : sp.Library) (expr_str : string) :
  (exists r, safe_sympify lib expr_str = Return r)
  /\ (forall e, sp.sympify lib expr_str = Return e
                <-> safe_sympify lib expr_str = Return (Some e, None))
  /\ (forall msg, (exists ex, sp.sympify lib expr_str = Raise ex /\ exc_str ex = msg)
                  <-> safe_sympify lib expr_str = Return (None, Some msg))
  /\ (forall r, safe_sympify lib expr_str = Return r ->
                (exists e, r = (Some e, None)) \/ (exists msg, r = (None, Some msg))).
Proof.
  unfold safe_sympify.
  destruct (sp.sympify lib expr_str) as [e|ex]; simpl.
  - split; [eauto|]. split; [|split].
    + intros e'; split; congruence.
    + intros msg; split; [intros (ex & H & _); discriminate | discriminate].
    + intros r H; inversion H; eauto.
  - split; [eauto|]. split; [|split].
    + intros e'; split; discriminate.
    + intros msg; split.
      * intros (ex' & H & <-). congruence.
      * intros H; inversion H; eauto.
    + intros r H; inversion H; eauto.
Qed.

(** C4, as stated, fails: the name [y] is unknown to the program, whose
    only symbol is [x]; the library parses it to a new symbol and
    [safe_sympify] accepts it instead of reporting an error. *)
Lemma safe_sympify_accepts_unknown_symbol :
  safe_sympify Reference.library "y" = Return (Some (Symbol "y"), None)
  /\ Symbol "y" <> x
  /\ ~ (exists msg, safe_sympify Reference.library "y" = Return (None, Some msg)).
Proof.
  split; [reflexivity|]. split; [discriminate|].
  intros (msg & H). vm_compute in H. discriminate.
Qed.

(** ** The point evaluator *)

Lemma evaluate_point_success (lib : sp.Library) (expr : Expr) (x_val : pynum)
    (s simp n : Expr) (numeric : float) :
  sp.subs lib expr x_val = Return s ->
  sp.simplify lib s = Return simp ->
  sp.N lib s = Return n ->
  sp.__float__ lib n = Return numeric ->
  evaluate_point lib expr x_val =
    Return (["Expresión original: " ++ sp.srepr lib expr;
             "Sustituyendo x = " ++ str_num lib x_val ++ " -> " ++ sp.str lib simp;
             "Cálculo numérico: f(" ++ str_num lib x_val ++ ") = "
               ++ sp.str_float lib numeric],
            Some numeric, None).
Proof.
  intros H1 H2 H3 H4. unfold evaluate_point. rewrite H1; simpl.
  rewrite H2; simpl. rewrite H3; simpl. rewrite H4; simpl. reflexivity.
Qed.

Lemma evaluate_point_failure (lib : sp.Library) (expr : Expr) (x_val : pynum)
    (ex : PyException) :
  evaluation_raises lib expr x_val ex ->
  evaluate_point lib expr x_val =
    Return (["Error en evaluación: " ++ exc_str ex], None, Some (exc_str ex)).
Proof.
  unfold evaluation_raises, evaluate_point.
  intros [H|(s & H & [H1|(simp & H1 & [H2|(n & H2 & H3)])])];
    rewrite H; simpl; auto; rewrite H1; simpl; auto; rewrite H2; simpl; auto;
    rewrite H3; simpl; auto.
Qed.

(** Either the whole pipeline returns or one of its steps raises. *)
Lemma evaluation_cases (lib : sp.Library) (expr : Expr) (x_val : pynum) :
  (exists s simp n numeric,
      sp.subs lib expr x_val = Return s /\ sp.simplify lib s = Return simp
      /\ sp.N lib s = Return n /\ sp.__float__ lib n = Return numeric)
  \/ (exists ex, evaluation_raises lib expr x_val ex).
Proof.
  unfold evaluation_raises.
  destruct (sp.subs lib expr x_val) as [s|ex] eqn:H1; [|right; eauto].
  destruct (sp.simplify lib s) as [simp|ex] eqn:H2; [|right; exists ex; right; eauto].
  destruct (sp.N lib s) as [n|ex] eqn:H3; [|right; exists ex; right; eauto 8].
  destruct (sp.__float__ lib n) as [numeric|ex] eqn:H4; [|right; exists ex; right; eauto 10].
  left; eauto 10.
Qed.

(** C6: on success the trace holds, in order, the original expression's
    representation, the substituted and simplified form, and the numeric
    value; a failure of substitution, simplification or numeric reduction
    is caught and becomes a trace entry with a non-null error; no call
    raises.  For [x + 1] at 2 the trace ends in the result 3.0 and the
    error is null. *)
Theorem evaluate_point_trace (lib : sp.Library) (expr : Expr) (x_val : pynum) :
  (forall s simp n numeric,
      sp.subs lib expr x_val = Return s ->
      sp.simplify lib s = Return simp ->
      sp.N lib s = Return n ->
      sp.__float__ lib n = Return numeric ->
      evaluate_point lib expr x_val =
        Return (["Expresión original: " ++ sp.srepr lib expr;
                 "Sustituyendo x = " ++ str_num lib x_val ++ " -> " ++ sp.str lib simp;
                 "Cálculo numérico: f(" ++ str_num lib x_val ++ ") = "
                   ++ sp.str_float lib numeric],
                Some numeric, None))
  /\ (forall ex, evaluation_raises lib expr x_val ex ->
        exists entry err,
          evaluate_point lib expr x_val = Return ([entry], None, Some err)
          /\ entry = "Error en evaluación: " ++ exc_str ex /\ err = exc_str ex)
  /\ (exists r, evaluate_point lib expr x_val = Return r)
  /\ (forall s simp n,
        expr = Reference.x_plus_1 ->
        x_val = PyInt 2 \/ x_val = PyFloat 2%float ->
        sp.subs lib expr x_val = Return s ->
        sp.simplify lib s = Return simp ->
        sp.N lib s = Return n ->
        sp.__float__ lib n = Return 3%float ->
        sp.str_float lib 3%float = "3.0" ->
        exists first second,
          evaluate_point lib expr x_val =
            Return ([first; second;
                     "Cálculo numérico: f(" ++ str_num lib x_val ++ ") = 3.0"],
                    Some 3%float, None)).
Proof.
  split; [|split; [|split]].
  - intros s simp n numeric H1 H2 H3 H4.
    exact (evaluate_point_success _ _ _ _ _ _ _ H1 H2 H3 H4).
  - intros ex H. do 2 eexists. split; [apply evaluate_point_failure; exact H | auto].
  - destruct (evaluation_cases lib expr x_val) as [(s & simp & n & numeric & H1 & H2 & H3 & H4)|(ex & H)].
    + rewrite (evaluate_point_success _ _ _ _ _ _ _ H1 H2 H3 H4); eauto.
    + rewrite (evaluate_point_failure _ _ _ _ H); eauto.
  - intros s simp n _ _ H1 H2 H3 H4 H5.
    rewrite (evaluate_point_success _ _ _ _ _ _ _ H1 H2 H3 H4), H5. eauto.
Qed.

Lemma evaluate_point_trace_witness :
  evaluate_point Reference.library Reference.x_plus_1 (PyFloat 2%float) =
    Return (["Expresión original: Add(Symbol('x'), Integer(1))";
             "Sustituyendo x = 2.0 -> 3.00000000000000";
             "Cálculo numérico: f(2.0) = 3.0"],
            Some 3%float, None).
Proof.
  destruct (evaluate_point_trace Reference.library Reference.x_plus_1 (PyFloat 2%float))
    as (_ & _ & _ & H).
  destruct (H (Float 3%float) (Float 3%float) (Float 3%float) eq_refl (or_intror eq_refl)
              eq_refl eq_refl eq_refl eq_refl eq_refl) as (first & second & E).
  vm_compute in E |- *. exact eq_refl.
Defined.

(** C10: exactly one of the numeric result and the error is null.  When
    the pipeline returns, the result is non-null and the error null; when a
    step raises, the result is null, the error is the exception's message
    and the trace is the single entry carrying that message. *)
Theorem evaluate_point_result_xor_error (lib : sp.Library) (expr : Expr) (x_val : pynum) :
  (exists steps numeric n s,
      evaluate_point lib expr x_val = Return (steps, Some numeric, None)
      /\ sp.subs lib expr x_val = Return s /\ sp.N lib s = Return n
      /\ sp.__float__ lib n = Return numeric)
  \/ (exists ex,
        evaluate_point lib expr x_val =
          Return (["Error en evaluación: " ++ exc_str ex], None, Some (exc_str ex))
        /\ evaluation_raises lib expr x_val ex).
Proof.
  destruct (evaluation_cases lib expr x_val)
    as [(s & simp & n & numeric & H1 & H2 & H3 & H4)|(ex & H)].
  - left. do 4 eexists. split; [apply (evaluate_point_success _ _ _ _ _ _ _ H1 H2 H3 H4)|eauto].
  - right. exists ex. split; [apply evaluate_point_failure|]; assumption.
Qed.

(** ** The domain analyzer: constraints *)

Lemma even_root_bases_In (expr base : Expr) :
  In base (even_root_bases expr) <->
  exists p, In p (preorder expr) /\ isinstance_Pow p = true
            /\ is_Rational (snd (as_base_exp p)) = true
            /\ (q (snd (as_base_exp p)) mod 2 = 0)%Z
            /\ base = fst (as_base_exp p).
Proof.
  unfold even_root_bases. rewrite in_flat_map. split.
  - intros (p & Hp & Hc). apply atoms_In in Hp. destruct Hp as [Hp Hcls].
    exists p. destruct (as_base_exp p) as [b exp]; simpl in *.
    destruct (is_Rational exp); [|contradiction].
    destruct (q exp mod 2 =? 0)%Z eqn:E; [|contradiction].
    apply Z.eqb_eq in E. destruct Hc as [<-|[]]. auto.
  - intros (p & Hp & Hcls & HR & Hq & ->). exists p. split; [apply atoms_In; auto|].
    destruct (as_base_exp p) as [b exp]; simpl in *.
    rewrite HR. apply Z.eqb_eq in Hq. rewrite Hq. left; reflexivity.
Qed.

Lemma log_arguments_In (expr a : Expr) :
  In a (log_arguments expr) <->
  exists rest, In (Func "log" (a :: rest)) (preorder expr).
Proof.
  unfold log_arguments. rewrite in_flat_map. split.
  - intros (p & Hp & Hc). apply atoms_In in Hp. destruct Hp as [Hp Hcls].
    destruct p; simpl in Hcls; try discriminate. apply String.eqb_eq in Hcls.
    simpl in Hc. destruct args0 as [|a0 rest]; [contradiction|].
    destruct Hc as [<-|[]]. subst. eauto.
  - intros (rest & Hp). exists (Func "log" (a :: rest)). split.
    + apply atoms_In; auto.
    + simpl; auto.
Qed.

Lemma mapM_Raise_inv {A B} (f : A -> outcome B) (l : list A) (ex : PyException) :
  mapM f l = Raise ex -> exists a, In a l /\ f a = Raise ex.
Proof.
  induction l as [|a l IH]; simpl; [discriminate|].
  destruct (f a) as [v|ex'] eqn:Ea; simpl.
  - destruct (mapM f l) as [r|ex''] eqn:El; simpl; [discriminate|].
    intros H; inversion H; subst. destruct (IH eq_refl) as (b & ? & ?). eauto.
  - intros H; inversion H; subst. eauto.
Qed.

Lemma mapM_raises {A B} (f : A -> outcome B) (l : list A) :
  (exists a ex, In a l /\ f a = Raise ex) -> exists ex, mapM f l = Raise ex.
Proof.
  induction l as [|a l IH]; intros (b & ex & Hin & Hb); [destruct Hin|].
  simpl. destruct (f a) as [v|ex'] eqn:Ea; simpl; [|eauto].
  destruct Hin as [->|Hin]; [congruence|].
  destruct IH as (ex'' & E); [eauto|]. rewrite E. simpl. eauto.
Qed.

(** What a comprehension returns, whatever the order of its source: as
    many items, and the same answers. *)
Lemma mapM_Return_members {A B} (f : A -> outcome B) (l : list A) (r : list B) :
  mapM f l = Return r ->
  List.length r = List.length l
  /\ (forall a, In a l -> exists b, In b r /\ f a = Return b)
  /\ (forall b, In b r -> exists a, In a l /\ f a = Return b).
Proof.
  intros H. apply mapM_Return in H. split; [symmetry; apply (Forall2_length H)|].
  split; [intros a; apply (Forall2_In_l _ _ _ _ H) | intros b; apply (Forall2_In_r _ _ _ _ H)].
Qed.

(** C2: for [sqrt(x)], a power with exponent 1/2, the function emits
    [x > -oo] where the claim (and the function's own documentation)
    requires [x >= 0]; for [sqrt(2)*x] the comparison [2 > -oo] evaluates
    and the item is [True].  In general the only comparison it asks the
    library for, on the base of an even-root power sub-term, is
    [base > -oo]: what it returns are the library's answers to these
    comparisons, one per sub-term, and it raises when one of them raises;
    it never asks for [base >= 0]. *)
Theorem find_even_root_problems_emits_lower_bound_minus_infinity :
  find_even_root_problems Reference.library Reference.sqrt_x
    = Return [Unevaluated (StrictGreaterThan x NegativeInfinity)]
  /\ (forall cs,
        find_even_root_problems Reference.library Reference.sqrt_x = Return cs ->
        ~ In (Unevaluated (GreaterThan x (Integer 0))) cs)
  /\ find_even_root_problems Reference.library (Mul [Pow (Integer 2) (Rational 1 2); x])
     = Return [BooleanTrue]
  /\ (forall expr base,
        In base (even_root_bases expr) <->
        exists p, In p (preorder expr) /\ isinstance_Pow p = true
                  /\ is_Rational (snd (as_base_exp p)) = true
                  /\ (q (snd (as_base_exp p)) mod 2 = 0)%Z
                  /\ base = fst (as_base_exp p))
  /\ (forall lib expr cs,
        find_even_root_problems lib expr = Return cs ->
        List.length cs = List.length (even_root_bases expr)
        /\ (forall base,
              In base (even_root_bases expr) ->
              exists c, In c cs
                        /\ sp.StrictGreaterThan lib base NegativeInfinity = Return c)
        /\ (forall c,
              In c cs ->
              exists base, In base (even_root_bases expr)
                           /\ sp.StrictGreaterThan lib base NegativeInfinity = Return c))
  /\ (forall lib expr ex,
        find_even_root_problems lib expr = Raise ex ->
        exists base, In base (even_root_bases expr)
                     /\ sp.StrictGreaterThan lib base NegativeInfinity = Raise ex).
Proof.
  split; [reflexivity|]. split; [|split; [reflexivity|split; [|split]]].
  - intros cs H. vm_compute in H. inversion H; subst cs.
    intros [E|[]]; discriminate.
  - apply even_root_bases_In.
  - intros lib expr cs H. apply (mapM_Return_members _ _ _ H).
  - intros lib expr ex H. apply (mapM_Raise_inv _ _ _ H).
Qed.

(** ** The domain analyzer: exclusions and description *)

Lemma add_simplified_In (lib : sp.Library) (den_sing acc excl : list Expr) :
  add_simplified lib den_sing acc = Return excl ->
  Forall (fun s => exists s', sp.simplify lib s = Return s') den_sing
  /\ forall m, In m excl <->
               In m acc \/ exists s, In s den_sing /\ sp.simplify lib s = Return m.
Proof.
  revert acc excl; induction den_sing as [|s l IH]; simpl; intros acc excl H.
  - inversion H; subst. split; [constructor|].
    intros m; split; [auto | intros [?|(s & [] & _)]; auto].
  - inv_bind H. destruct (IH _ _ H) as [Hall Hin]. split; [constructor; eauto|].
    intros m. rewrite Hin, set_add_In. split.
    + intros [[->|?]|(s0 & ? & ?)]; eauto.
    + intros [?|(s0 & [->|?] & E)]; eauto.
      left; left; congruence.
Qed.

Lemma find_denominator_singularities_total (lib : sp.Library) (expr : Expr) :
  exists l, find_denominator_singularities lib expr = Return l.
Proof. apply (try_except_total _ (fun _ => [])). Qed.

Lemma mapM_total {A B} (f : A -> outcome B) (l : list A) :
  Forall (fun a => exists b, f a = Return b) l -> exists r, mapM f l = Return r.
Proof.
  induction 1 as [|a l (b & Hb) _ (r & Hr)]; simpl; [eauto|].
  rewrite Hb; simpl. rewrite Hr; simpl. eauto.
Qed.

Lemma filterM_total {A} (p : A -> outcome bool) (l : list A) :
  Forall (fun a => exists b, p a = Return b) l -> exists r, filterM p l = Return r.
Proof.
  induction 1 as [|a l (b & Hb) _ (r & Hr)]; simpl; [eauto|].
  rewrite Hb; simpl. rewrite Hr; simpl. eauto.
Qed.

Lemma im_is_zero_true (lib : sp.Library) (s : Expr) :
  im_is_zero lib s = Return true <-> sp.im lib s = Return (Integer 0).
Proof.
  unfold im_is_zero. destruct (sp.im lib s) as [i|ex]; simpl.
  - split; intros H; inversion H.
    + apply expr_eqb_eq in H1. congruence.
    + rewrite expr_eqb_refl; reflexivity.
  - split; discriminate.
Qed.

(** What [find_denominator_singularities] returns when simplification and
    the split into numerator and denominator go through. *)
Lemma find_denominator_singularities_cases (lib : sp.Library) (expr e' num den : Expr)
    (l : list Expr) :
  sp.simplify lib expr = Return e' ->
  sp.fraction lib e' = Return (num, den) ->
  find_denominator_singularities lib expr = Return l ->
  (den = Integer 1 -> l = [])
  /\ (l <> [] ->
      exists sols real_sols,
        sp.solve_Eq lib den (Integer 0) = Return sols
        /\ filterM (im_is_zero lib) sols = Return real_sols
        /\ mapM (sp.simplify lib) real_sols = Return l)
  /\ (den <> Integer 1 ->
      forall sols real_sols,
        sp.solve_Eq lib den (Integer 0) = Return sols ->
        filterM (im_is_zero lib) sols = Return real_sols ->
        mapM (sp.simplify lib) real_sols = Return l \/
        (l = [] /\ exists ex, mapM (sp.simplify lib) real_sols = Raise ex)).
Proof.
  intros H1 H2. unfold find_denominator_singularities. rewrite H1; simpl.
  rewrite H2; simpl. destruct (expr_eqb den (Integer 1)) eqn:E.
  - apply expr_eqb_eq in E. simpl. intros H; inversion H; subst.
    split; [auto|]. split; [congruence | contradiction].
  - apply expr_eqb_neq in E. intros H. split; [contradiction|]. split.
    + intros Hl. destruct (sp.solve_Eq lib den (Integer 0)) as [sols|] eqn:Hs;
        simpl in H; [|inversion H; congruence].
      destruct (filterM (im_is_zero lib) sols) as [real_sols|] eqn:Hf;
        simpl in H; [|inversion H; congruence].
      destruct (mapM (sp.simplify lib) real_sols) as [r|] eqn:Hm;
        simpl in H; [|inversion H; congruence].
      inversion H; subst. eauto.
    + intros _ sols real_sols Hs Hf. rewrite Hs in H; simpl in H.
      rewrite Hf in H; simpl in H.
      destruct (mapM (sp.simplify lib) real_sols) as [r|ex] eqn:Hm; simpl in H;
        inversion H; subst; eauto.
Qed.

(** A failure anywhere in the search degrades to the empty list. *)
Lemma find_denominator_singularities_failure (lib : sp.Library) (expr : Expr) :
  (exists ex, sp.simplify lib expr = Raise ex)
  \/ (exists e' ex, sp.simplify lib expr = Return e' /\ sp.fraction lib e' = Raise ex)
  \/ (exists e' num den ex,
        sp.simplify lib expr = Return e' /\ sp.fraction lib e' = Return (num, den)
        /\ den <> Integer 1 /\ sp.solve_Eq lib den (Integer 0) = Raise ex) ->
  find_denominator_singularities lib expr = Return [].
Proof.
  unfold find_denominator_singularities.
  intros [(ex & H)|[(e' & ex & H1 & H2)|(e' & num & den & ex & H1 & H2 & Hd & H3)]].
  - rewrite H. reflexivity.
  - rewrite H1; simpl. rewrite H2. reflexivity.
  - rewrite H1; simpl. rewrite H2; simpl.
    apply expr_eqb_neq in Hd. rewrite Hd, H3. reflexivity.
Qed.

Lemma compute_domain_inv (lib : sp.Library) (expr : Expr) desc excl logs roots :
  compute_domain lib expr = Return (desc, excl, logs, roots) ->
  exists den_sing,
    find_denominator_singularities lib expr = Return den_sing
    /\ add_simplified lib den_sing [] = Return excl
    /\ find_log_constraints lib expr = Return logs
    /\ find_even_root_problems lib expr = Return roots.
Proof.
  unfold compute_domain. intros H. inv_bind H. inv_bind H. inv_bind H. inv_bind H.
  inv_bind H. inversion H; subst. eauto 6.
Qed.

(** C1: with [num/den] the fraction of the simplified expression, the
    exclusion set is empty when [den] is the constant 1; otherwise, when the
    imaginary-part and simplification calls answer, its members are exactly
    the simplified solutions of [den = 0] whose imaginary part is zero.
    Whenever the solver is sound and simplification preserves the property,
    every member makes [den] vanish. *)
Theorem domain_exclusions_are_denominator_zeros
    (lib : sp.Library) (vanishes : Expr -> Expr -> Prop)
    (expr e' num den : Expr) desc excl logs roots
    (solve_sound : forall d sols s,
        sp.solve_Eq lib d (Integer 0) = Return sols -> In s sols -> vanishes d s)
    (simplify_sound : forall d s s',
        sp.simplify lib s = Return s' -> vanishes d s -> vanishes d s') :
  sp.simplify lib expr = Return e' ->
  sp.fraction lib e' = Return (num, den) ->
  compute_domain lib expr = Return (desc, excl, logs, roots) ->
  (den = Integer 1 -> excl = [])
  /\ (den <> Integer 1 ->
      forall sols,
        sp.solve_Eq lib den (Integer 0) = Return sols ->
        (forall s, In s sols -> exists i, sp.im lib s = Return i) ->
        (forall s, In s sols -> sp.im lib s = Return (Integer 0) ->
                   exists m1, sp.simplify lib s = Return m1) ->
        forall m, In m excl <-> simplified_real_solution lib sols m)
  /\ (forall m, In m excl -> vanishes den m).
Proof.
  intros H1 H2 HD. apply compute_domain_inv in HD.
  destruct HD as (den_sing & Hfds & Hadd & _ & _).
  destruct (find_denominator_singularities_cases _ _ _ _ _ _ H1 H2 Hfds)
    as (Hone & Hsome & Hnot1).
  destruct (add_simplified_In _ _ _ _ Hadd) as [_ Hin].
  split; [|split].
  - intros E. rewrite (Hone E) in Hadd. simpl in Hadd. congruence.
  - intros Hden sols Hs Him Hsimp m.
    destruct (filterM_total (im_is_zero lib) sols) as (real_sols & Hf).
    { apply Forall_forall. intros s Hin_s. destruct (Him s Hin_s) as (i & Hi).
      unfold im_is_zero. rewrite Hi; simpl; eauto. }
    destruct (filterM_Return _ _ _ Hf) as [_ Hreal].
    destruct (Hnot1 Hden sols real_sols Hs Hf) as [Hm|(_ & ex & Hm)].
    + pose proof (mapM_Return _ _ _ Hm) as HF2.
      rewrite Hin. unfold simplified_real_solution. split.
      * intros [[]|(s1 & Hs1 & Em)].
        destruct (Forall2_In_r _ _ _ _ HF2 Hs1) as (s & Hsr & Es).
        apply Hreal in Hsr. destruct Hsr as [Hsin Hz].
        apply im_is_zero_true in Hz. eauto 8.
      * intros (s & m1 & Hsin & Hz & Es & Em). right. exists m1. split; [|exact Em].
        assert (Hsr : In s real_sols) by (apply Hreal; split; [auto | apply im_is_zero_true; auto]).
        destruct (Forall2_In_l _ _ _ _ HF2 Hsr) as (b & Hb & Eb). congruence.
    + exfalso. destruct (mapM_total (sp.simplify lib) real_sols) as (r & Hr); [|congruence].
      apply Forall_forall. intros s Hsr. apply Hreal in Hsr. destruct Hsr as [Hsin Hz].
      apply im_is_zero_true in Hz. eauto.
  - intros m Hm. apply Hin in Hm. destruct Hm as [[]|(s1 & Hs1 & Em)].
    assert (Hne : den_sing <> []) by (intros ->; contradiction).
    destruct (Hsome Hne) as (sols & real_sols & Hs & Hf & Hmap).
    destruct (Forall2_In_r _ _ _ _ (mapM_Return _ _ _ Hmap) Hs1) as (s & Hsr & Es).
    destruct (filterM_Return _ _ _ Hf) as [_ Hreal]. apply Hreal in Hsr.
    destruct Hsr as [Hsin _].
    eapply simplify_sound; [exact Em|]. eapply simplify_sound; [exact Es|].
    eapply solve_sound; eauto.
Qed.

(** The reference library's solver is sound for exact arithmetic. *)
Lemma reference_solve_sound (d : Expr) (sols : list Expr) (s : Expr) :
  sp.solve_Eq Reference.library d (Integer 0) = Return sols ->
  In s sols -> vanishes_exactly d s.
Proof.
  simpl. unfold Reference.solve_Eq. simpl.
  destruct (expr_eqb d x) eqn:E1.
  { apply expr_eqb_eq in E1; subst. intros H; inversion H; subst.
    intros [<-|[]]. exists 0%Q, 0%Q. repeat split; reflexivity. }
  destruct (expr_eqb d Reference.one_over_x) eqn:E2.
  { intros H; inversion H; subst. contradiction. }
  destruct (expr_eqb d Reference.x_plus_1) eqn:E3.
  { apply expr_eqb_eq in E3; subst. intros H; inversion H; subst.
    intros [<-|[]]. exists (inject_Z (-1)), (inject_Z (-1) + (inject_Z 1 + 0))%Q.
    repeat split; reflexivity. }
  discriminate.
Qed.

Lemma reference_simplify_sound (d s s' : Expr) :
  sp.simplify Reference.library s = Return s' ->
  vanishes_exactly d s -> vanishes_exactly d s'.
Proof. simpl. unfold Reference.simplify. congruence. Qed.

Lemma domain_exclusions_are_denominator_zeros_witness :
  compute_domain Reference.library Reference.one_over_x
    = Return ("Dominio: todos los reales, excepto x = 0", [Integer 0], [], [])
  /\ (forall m, In m [Integer 0] <->
                simplified_real_solution Reference.library [Integer 0] m)
  /\ (forall m, In m [Integer 0] -> vanishes_exactly x m).
Proof.
  destruct (domain_exclusions_are_denominator_zeros
              Reference.library vanishes_exactly
              Reference.one_over_x Reference.one_over_x (Integer 1) x
              "Dominio: todos los reales, excepto x = 0" [Integer 0] [] []
              reference_solve_sound reference_simplify_sound
              eq_refl eq_refl eq_refl) as (_ & H2 & H3).
  split; [reflexivity|]. split; [|exact H3].
  apply (H2 ltac:(discriminate) [Integer 0] eq_refl).
  - intros s _. destruct s; simpl; eauto.
  - intros s _ _. simpl. unfold Reference.simplify. eauto.
Defined.

Lemma nonempty_false {A} (l : list A) : nonempty l = false <-> l = [].
Proof. destruct l; simpl; split; congruence. Qed.

(** C8: the description is "Dominio: todos los reales" exactly when the
    exclusion set, the logarithm constraints and the even-root constraints
    are all empty; otherwise it is that text followed by the clauses that
    apply, in order: the excluded values ("excepto x = ..."), the logarithm
    caveat, the even-root caveat. *)
Theorem compute_domain_description (lib : sp.Library) (expr : Expr)
    desc excl logs roots :
  compute_domain lib expr = Return (desc, excl, logs, roots) ->
  (desc = "Dominio: todos los reales" <-> excl = [] /\ logs = [] /\ roots = [])
  /\ (excl = [] /\ logs = [] /\ roots = []
      \/ exists names,
           Forall2 (fun v name => exists n, sp.N lib v = Return n /\ name = sp.str lib n)
                   excl names
           /\ desc = "Dominio: todos los reales, "
                     ++ join "; "
                          (clause (nonempty excl) ("excepto x = " ++ join ", " names)
                           ++ clause (nonempty logs)
                                "y además los argumentos de log deben ser > 0"
                           ++ clause (nonempty roots)
                                "y cuidar raíces de índice par (radicandos >= 0)")%list).
Proof.
  unfold compute_domain. intros H. inv_bind H. inv_bind H. inv_bind H. inv_bind H.
  inv_bind H. inversion H; subst v3 excl logs roots; clear H.
  clear Hv1 Hv2. rename v0 into excl, v1 into logs, v2 into roots, Hv3 into Hv1.
  unfold clause.
  destruct (nonempty excl) eqn:E0.
  - cbn [orb] in Hv1. cbv iota in Hv1.
    apply bind_Return in Hv1. destruct Hv1 as (parts1 & Hparts & Hdesc).
    apply bind_Return in Hparts. destruct Hparts as (names & Hnames & Hp1).
    inversion Hp1; subst parts1; clear Hp1. split.
    + split; [|intros (-> & _); discriminate].
      intros ->. destruct (nonempty logs), (nonempty roots); discriminate.
    + right. exists names. split.
      * apply mapM_Return in Hnames. eapply Forall2_impl; [|exact Hnames].
        simpl. intros a b Hab. inv_bind Hab. inversion Hab; eauto.
      * destruct (nonempty logs), (nonempty roots); inversion Hdesc; reflexivity.
  - apply nonempty_false in E0. subst excl. cbn [orb] in Hv1.
    destruct (nonempty logs) eqn:E1; [|apply nonempty_false in E1; rewrite E1 in *].
    + cbn [orb] in Hv1. cbv iota in Hv1. split.
      * split; [|intros (_ & E & _); rewrite E in E1; discriminate].
        intros ->. destruct (nonempty roots); discriminate.
      * right. exists []. split; [constructor|].
        destruct (nonempty roots); inversion Hv1; reflexivity.
    + cbn [orb] in Hv1.
      destruct (nonempty roots) eqn:E2; [|apply nonempty_false in E2; rewrite E2 in *].
      * cbv iota in Hv1. split.
        -- split; [|intros (_ & _ & E); rewrite E in E2; discriminate].
           intros ->. discriminate.
        -- right. exists []. split; [constructor|]. inversion Hv1; reflexivity.
      * inversion Hv1; subst. split; [tauto | left; auto].
Qed.

Lemma compute_domain_description_witness :
  exists names,
    Forall2 (fun v name => exists n, sp.N Reference.library v = Return n
                                     /\ name = sp.str Reference.library n)
            [Integer 0] names
    /\ "Dominio: todos los reales, excepto x = 0"
       = "Dominio: todos los reales, " ++ join "; " ["excepto x = " ++ join ", " names].
Proof.
  destruct (compute_domain_description Reference.library Reference.one_over_x
              "Dominio: todos los reales, excepto x = 0" [Integer 0] [] [] eq_refl)
    as [_ [(H & _)|(names & H1 & H2)]]; [discriminate|].
  exists names. split; [exact H1 | exact H2].
Defined.

(** ** The curve sampler *)

Section Sampler.

Variable lib : sp.Library.
Variables (expr : Expr) (domain_exceptions : list Expr).

(** The loop returns when its condition fails within the fuel, and then it
    has appended the kept points of the values [cur] went through. *)
Lemma sample_loop_spec (fuel : nat) (x_max step cur : float) (xs ys : list float) :
  sample_loop lib fuel expr domain_exceptions x_max step cur xs ys =
  if leaves fuel x_max step cur
  then let pts := kept lib expr domain_exceptions (grid fuel x_max step cur) in
       Some ((xs ++ map fst pts)%list, (ys ++ map snd pts)%list)
  else None.
Proof.
  revert cur xs ys; induction fuel as [|fuel IH]; intros cur xs ys; simpl; [reflexivity|].
  destruct (PrimFloat.leb cur x_max); [|simpl; rewrite !app_nil_r; reflexivity].
  unfold kept; simpl. fold (kept lib expr domain_exceptions).
  destruct (near_exception lib domain_exceptions cur); simpl; [apply IH|].
  destruct (sample_point lib expr cur) as [yvf|]; simpl; [|apply IH].
  rewrite IH. destruct (leaves fuel x_max step (cur + step)); [|reflexivity].
  unfold list_append; simpl. rewrite <- !app_assoc. reflexivity.
Qed.

(** More fuel than the loop needs changes nothing. *)
Lemma leaves_grid_mono (f1 f2 : nat) (x_max step cur : float) :
  (f1 <= f2)%nat -> leaves f1 x_max step cur = true ->
  leaves f2 x_max step cur = true
  /\ grid f2 x_max step cur = grid f1 x_max step cur.
Proof.
  revert f2 cur; induction f1 as [|f1 IH]; intros f2 cur Hle; simpl; [discriminate|].
  destruct f2 as [|f2]; [lia|]. simpl.
  destruct (PrimFloat.leb cur x_max); [|auto].
  intros H. destruct (IH f2 (cur + step)%float ltac:(lia) H) as [H1 H2].
  split; [exact H1 | rewrite H2; reflexivity].
Qed.

Lemma grid_nth (fuel : nat) (x_max step cur : float) (k : nat) (c : float) :
  nth_error (grid fuel x_max step cur) k = Some c ->
  c = Nat.iter k (fun v => (v + step)%float) cur /\ PrimFloat.leb c x_max = true.
Proof.
  revert cur k; induction fuel as [|fuel IH]; intros cur k; simpl.
  - destruct k; discriminate.
  - destruct (PrimFloat.leb cur x_max) eqn:E; [|destruct k; discriminate].
    destruct k as [|k]; simpl.
    + intros H; inversion H; subst; auto.
    + intros H. destruct (IH _ _ H) as [-> Hle]. split; [|exact Hle].
      clear. induction k as [|k IHk]; simpl; [reflexivity | rewrite IHk; reflexivity].
Qed.

Lemma kept_In (curs : list float) (c y : float) :
  In (c, y) (kept lib expr domain_exceptions curs) <->
  In c curs /\ near_exception lib domain_exceptions c = false
  /\ sample_point lib expr c = Some y.
Proof.
  unfold kept. rewrite in_flat_map. split.
  - intros (cur & Hin & H). destruct (near_exception lib domain_exceptions cur) eqn:E;
      [contradiction|].
    destruct (sample_point lib expr cur) eqn:S; [|contradiction].
    destruct H as [H|[]]; inversion H; subst; auto.
  - intros (Hin & E & S). exists c. rewrite E, S. simpl; auto.
Qed.

Lemma near_exception_false (c : float) :
  near_exception lib domain_exceptions c = false ->
  forall s n sval,
    In s domain_exceptions -> sp.N lib s = Return n -> sp.__float__ lib n = Return sval ->
    PrimFloat.ltb (PrimFloat.abs (c - sval)) tolerance = false.
Proof.
  unfold near_exception. intros H s n sval Hin HN HF.
  destruct (PrimFloat.ltb (PrimFloat.abs (c - sval)) tolerance) eqn:E; [|reflexivity].
  assert (existsb
            (fun s => match (n <- sp.N lib s ;; sp.__float__ lib n) with
                      | Return sval => PrimFloat.ltb (PrimFloat.abs (c - sval)) tolerance
                      | Raise _ => false
                      end) domain_exceptions = true) as C.
  { apply existsb_exists. exists s. split; [exact Hin|]. rewrite HN; simpl. rewrite HF. exact E. }
  congruence.
Qed.

Lemma near_exception_true (c : float) :
  near_exception lib domain_exceptions c = true ->
  exists s n sval,
    In s domain_exceptions /\ sp.N lib s = Return n /\ sp.__float__ lib n = Return sval
    /\ PrimFloat.ltb (PrimFloat.abs (c - sval)) tolerance = true.
Proof.
  unfold near_exception. rewrite existsb_exists. intros (s & Hin & H).
  destruct (sp.N lib s) as [n|] eqn:HN; simpl in H; [|discriminate].
  destruct (sp.__float__ lib n) as [sval|] eqn:HF; [|discriminate].
  eauto 8.
Qed.

Lemma sample_point_Some (c y : float) :
  sample_point lib expr c = Some y <->
  exists s yv,
    sp.subs lib expr (PyFloat c) = Return s /\ sp.N lib s = Return yv
    /\ sp.is_real lib yv = Some true /\ sp.__float__ lib yv = Return y
    /\ isfinite y = true.
Proof.
  unfold sample_point. split.
  - destruct (sp.subs lib expr (PyFloat c)) as [s|] eqn:H1; simpl; [|discriminate].
    destruct (sp.N lib s) as [yv|] eqn:H2; simpl; [|discriminate].
    destruct (sp.is_real lib yv) as [[|]|] eqn:H3; simpl; try discriminate.
    destruct (sp.__float__ lib yv) as [yvf|] eqn:H4; simpl; [|discriminate].
    destruct (isfinite yvf) eqn:H5; [|discriminate].
    intros H; inversion H; subst. eauto 10.
  - intros (s & yv & H1 & H2 & H3 & H4 & H5).
    rewrite H1; simpl. rewrite H2; simpl. rewrite H3, H4; simpl. rewrite H5. reflexivity.
Qed.

Lemma sample_function_inv (fuel : nat) (x_min x_max : float) (n_points : Z)
    (xs ys : list float) :
  sample_function lib fuel expr domain_exceptions x_min x_max n_points
    = Return (Some (xs, ys)) ->
  exists d,
    float_of_int (Z.max 1 n_points) = Return d
    /\ leaves fuel x_max ((x_max - x_min) / d) x_min = true
    /\ xs = map fst (kept lib expr domain_exceptions
                          (grid fuel x_max ((x_max - x_min) / d) x_min))
    /\ ys = map snd (kept lib expr domain_exceptions
                          (grid fuel x_max ((x_max - x_min) / d) x_min)).
Proof.
  unfold sample_function. intros H. apply bind_Return in H.
  destruct H as (d & Hd & H). exists d. split; [exact Hd|].
  rewrite sample_loop_spec in H.
  destruct (leaves fuel x_max ((x_max - x_min) / d) x_min); [|discriminate].
  inversion H; subst. auto.
Qed.

End Sampler.

(** With the default bounds and point count the loop leaves after 800
    points, whatever the expression and the exclusions. *)
Lemma default_interval_leaves :
  float_of_int (Z.max 1 800) = Return 800%float
  /\ leaves 801 10%float ((10 - (-10)) / 800)%float (-10)%float = true
  /\ List.length (grid 801 10%float ((10 - (-10)) / 800)%float (-10)%float) = 800%nat.
Proof. vm_compute. auto. Qed.

(** With equal bounds the step is zero and the loop never leaves. *)
Lemma zero_step_never_leaves (fuel : nat) (x_max cur : float) :
  PrimFloat.leb cur x_max = true -> (cur + 0)%float = cur ->
  leaves fuel x_max 0%float cur = false.
Proof.
  intros H1 H2. induction fuel as [|fuel IH]; simpl; [reflexivity|].
  rewrite H1, H2. exact IH.
Qed.

Lemma equal_bounds_never_return (lib : sp.Library) (fuel : nat) (expr : Expr)
    (domain_exceptions : list Expr) :
  sample_function lib fuel expr domain_exceptions 10%float 10%float 800 = Return None.
Proof.
  unfold sample_function.
  change (float_of_int (Z.max 1 800)) with (Return (A := float) 800%float).
  cbn [bind]. rewrite sample_loop_spec.
  change ((10 - 10) / 800)%float with 0%float.
  rewrite zero_step_never_leaves; reflexivity.
Qed.

(** C7: with the default bounds and point count [sample_function] returns
    for every expression and exclusion set.  Whenever it returns, [cur] has
    gone linearly from [x_min] by [step] while [cur <= x_max], and the
    returned sequences are the kept points of these values, in order: they
    have equal length; each returned [y] is finite and is the float of a
    value the library reports real; no returned [x] is within the tolerance
    1e-2 of an exclusion that converts to a float; and a value left out is
    either within the tolerance of such an exclusion or has no finite real
    value. *)
Theorem sample_function_points (lib : sp.Library) (fuel : nat) (expr : Expr)
    (domain_exceptions : list Expr) (x_min x_max : float) (n_points : Z) :
  (exists xs ys,
      sample_function lib 801 expr domain_exceptions (-10)%float 10%float 800
        = Return (Some (xs, ys)))
  /\ forall xs ys,
  sample_function lib fuel expr domain_exceptions x_min x_max n_points
    = Return (Some (xs, ys)) ->
  exists d curs,
    float_of_int (Z.max 1 n_points) = Return d
    /\ curs = grid fuel x_max ((x_max - x_min) / d) x_min
    /\ (forall k c, nth_error curs k = Some c ->
          c = Nat.iter k (fun v => (v + (x_max - x_min) / d)%float) x_min
          /\ PrimFloat.leb c x_max = true)
    /\ List.length xs = List.length ys
    /\ Forall (fun y => isfinite y = true) ys
    /\ Forall2 (fun c y =>
                  In c curs
                  /\ exists s yv,
                       sp.subs lib expr (PyFloat c) = Return s /\ sp.N lib s = Return yv
                       /\ sp.is_real lib yv = Some true /\ sp.__float__ lib yv = Return y)
               xs ys
    /\ Forall (fun c => forall s n sval,
                   In s domain_exceptions -> sp.N lib s = Return n ->
                   sp.__float__ lib n = Return sval ->
                   PrimFloat.ltb (PrimFloat.abs (c - sval)) tolerance = false) xs
    /\ (forall c, In c curs -> ~ In c xs ->
          near_exception lib domain_exceptions c = true
          \/ sample_point lib expr c = None).
Proof.
  split.
  { destruct default_interval_leaves as (Hd & Hleaves & _).
    unfold sample_function. rewrite Hd; cbn [bind]. rewrite sample_loop_spec, Hleaves.
    eauto. }
  intros xs ys H. apply sample_function_inv in H. destruct H as (d & Hd & _ & Hxs & Hys).
  exists d, (grid fuel x_max ((x_max - x_min) / d) x_min).
  set (curs := grid fuel x_max ((x_max - x_min) / d) x_min) in *.
  assert (Hk : forall p, In p (kept lib expr domain_exceptions curs) ->
                         In (fst p) curs
                         /\ near_exception lib domain_exceptions (fst p) = false
                         /\ sample_point lib expr (fst p) = Some (snd p)).
  { intros [c y] Hp. apply kept_In in Hp. exact Hp. }
  split; [exact Hd|]. split; [reflexivity|]. split; [intros k c; apply grid_nth|].
  subst xs ys. split; [rewrite !length_map; reflexivity|].
  assert (Hlast : forall c, In c curs ->
            ~ In c (map fst (kept lib expr domain_exceptions curs)) ->
            near_exception lib domain_exceptions c = true
            \/ sample_point lib expr c = None).
  { intros c Hc Hnot.
    destruct (near_exception lib domain_exceptions c) eqn:E; [left; reflexivity|].
    destruct (sample_point lib expr c) as [y|] eqn:S; [|right; reflexivity].
    exfalso. apply Hnot. apply (in_map fst _ (c, y)). apply kept_In; auto. }
  revert Hk Hlast. generalize (kept lib expr domain_exceptions curs) as pts.
  intros pts Hk Hlast. split; [|split; [|split]].
  - apply Forall_map, Forall_forall. intros p Hp.
    destruct (Hk p Hp) as (_ & _ & S). apply sample_point_Some in S.
    destruct S as (s & yv & _ & _ & _ & _ & F). exact F.
  - clear Hlast. induction pts as [|p pts IH]; simpl; constructor.
    + destruct (Hk p (or_introl eq_refl)) as (Hin & _ & S).
      apply sample_point_Some in S. destruct S as (s & yv & S1 & S2 & S3 & S4 & _).
      split; [exact Hin | eauto 8].
    + apply IH. intros p' Hp'. apply Hk. right; exact Hp'.
  - apply Forall_map, Forall_forall. intros p Hp.
    destruct (Hk p Hp) as (_ & E & _). apply near_exception_false. exact E.
  - exact Hlast.
Qed.

Lemma sample_function_points_witness :
  exists xs ys,
    sample_function Reference.library 801 Reference.one_over_x [Integer 0]
                    (-10)%float 10%float 800 = Return (Some (xs, ys))
    /\ List.length xs = List.length ys
    /\ List.length xs = 799%nat
    /\ Forall (fun y => isfinite y = true) ys.
Proof.
  destruct (sample_function Reference.library 801 Reference.one_over_x [Integer 0]
                            (-10)%float 10%float 800) as [[[xs ys]|]|ex] eqn:E.
  - exists xs, ys. split; [reflexivity|].
    destruct (sample_function_points Reference.library 801 Reference.one_over_x
                [Integer 0] (-10)%float 10%float 800) as [_ H].
    destruct (H xs ys E) as (d & curs & _ & _ & _ & Hlen & Hfin & _).
    split; [exact Hlen|]. split; [|exact Hfin].
    vm_compute in E. inversion E. reflexivity.
  - vm_compute in E. discriminate.
  - vm_compute in E. discriminate.
Defined.

(** *** Two calls of the sampler *)

Ltac one_answer HS HN HR HF :=
  repeat match goal with
  | A : Calls.subs _ ?e ?v _, B : Calls.subs _ ?e ?v _ |- _ =>
      let E := fresh "E" in
      pose proof (HS _ _ _ _ A B) as E; clear B; inversion E; subst
  | A : Calls.N _ ?e _, B : Calls.N _ ?e _ |- _ =>
      let E := fresh "E" in
      pose proof (HN _ _ _ A B) as E; clear B; inversion E; subst
  | A : Calls.is_real _ ?e _, B : Calls.is_real _ ?e _ |- _ =>
      let E := fresh "E" in
      pose proof (HR _ _ _ A B) as E; clear B; inversion E; subst
  | A : Calls.__float__ _ ?e _, B : Calls.__float__ _ ?e _ |- _ =>
      let E := fresh "E" in
      pose proof (HF _ _ _ A B) as E; clear B; inversion E; subst
  end.

Lemma converts_one_answer (o : Calls.Answers) (s : Expr) (a b : option float) :
  Calls.single_valued o -> Calls.converts o s a -> Calls.converts o s b -> a = b.
Proof.
  intros (HS & HN & HR & HF) H1 H2.
  inversion H1; subst; inversion H2; subst; one_answer HS HN HR HF; reflexivity.
Qed.

(** [skip] is set exactly when some exclusion converts to a float within
    the tolerance of [cur], whatever the order of iteration. *)
Lemma skips_spec (o : Calls.Answers) (cur : float) (order : list Expr) (skip : bool) :
  Calls.single_valued o ->
  Calls.skips o cur order skip ->
  skip = true <->
  exists s sval, In s order /\ Calls.converts o s (Some sval)
                 /\ PrimFloat.ltb (PrimFloat.abs (cur - sval)) tolerance = true.
Proof.
  intros Ho H. induction H as [|s rest sval Hc Hlt|s rest sval skip Hc Hlt H IH|s rest skip Hc H IH].
  - split; [discriminate | intros (s & sval & [] & _)].
  - split; [|reflexivity]. intros _. exists s, sval. simpl; auto.
  - rewrite IH. split.
    + intros (s' & sval' & Hin & Hc' & Hlt'). exists s', sval'. simpl; auto.
    + intros (s' & sval' & [<-|Hin] & Hc' & Hlt'); [|eauto].
      pose proof (converts_one_answer _ _ _ _ Ho Hc Hc') as E. inversion E; subst.
      congruence.
  - rewrite IH. split.
    + intros (s' & sval' & Hin & Hc' & Hlt'). exists s', sval'. simpl; auto.
    + intros (s' & sval' & [<-|Hin] & Hc' & Hlt'); [|eauto].
      pose proof (converts_one_answer _ _ _ _ Ho Hc Hc') as E. discriminate.
Qed.

Lemma skips_one_answer (o : Calls.Answers) (cur : float) (order1 order2 : list Expr)
    (skip1 skip2 : bool) :
  Calls.single_valued o ->
  (forall s, In s order1 <-> In s order2) ->
  Calls.skips o cur order1 skip1 -> Calls.skips o cur order2 skip2 -> skip1 = skip2.
Proof.
  intros Ho Hsame H1 H2.
  apply (skips_spec _ _ _ _ Ho) in H1. apply (skips_spec _ _ _ _ Ho) in H2.
  apply eq_true_iff_eq. rewrite H1, H2.
  split; intros (s & sval & Hin & H); exists s, sval; (split; [apply Hsame; exact Hin | exact H]).
Qed.

Lemma evaluates_one_answer (o : Calls.Answers) (expr : Expr) (cur : float)
    (a b : option float) :
  Calls.single_valued o ->
  Calls.evaluates o expr cur a -> Calls.evaluates o expr cur b -> a = b.
Proof.
  intros (HS & HN & HR & HF) H1 H2.
  inversion H1; subst; inversion H2; subst; one_answer HS HN HR HF;
    try reflexivity; try congruence.
Qed.

Lemma loops_one_answer (o : Calls.Answers) (expr : Expr) (excl1 excl2 : list Expr)
    (x_max step cur : float) (xs ys : list float) (r1 r2 : list float * list float) :
  Calls.single_valued o ->
  (forall s, In s excl1 <-> In s excl2) ->
  Calls.loops o expr excl1 x_max step cur xs ys r1 ->
  Calls.loops o expr excl2 x_max step cur xs ys r2 ->
  r1 = r2.
Proof.
  intros Ho Hsame H1. revert r2.
  assert (Horder : forall order1 order2,
             Permutation excl1 order1 -> Permutation excl2 order2 ->
             forall s, In s order1 <-> In s order2).
  { intros order1 order2 P1 P2 s. split; intros Hin.
    - apply (Permutation_in _ P2). apply Hsame.
      apply (Permutation_in _ (Permutation_sym P1)). exact Hin.
    - apply (Permutation_in _ P1). apply Hsame.
      apply (Permutation_in _ (Permutation_sym P2)). exact Hin. }
  induction H1 as [cur xs ys Hle
                  |cur xs ys order r Hle P Hskip H IH
                  |cur xs ys order yvf r Hle P Hskip Hev H IH
                  |cur xs ys order r Hle P Hskip Hev H IH];
    intros r2 H2; inversion H2; subst; try congruence;
    try match goal with
        | A : Calls.skips _ _ _ ?a, B : Calls.skips _ _ _ ?b, P' : Permutation excl2 _ |- _ =>
            pose proof (skips_one_answer _ _ _ _ _ _ Ho (Horder _ _ P P') A B) as Es;
            try discriminate Es
        end;
    try match goal with
        | A : Calls.evaluates _ _ _ ?a, B : Calls.evaluates _ _ _ ?b |- _ =>
            pose proof (evaluates_one_answer _ _ _ _ _ Ho A B) as Ee;
            try discriminate Ee; try (inversion Ee; subst)
        end;
    try reflexivity; try (apply IH; assumption).
Qed.

(** C9: two calls of the sampler with the same expression, the same set of
    exclusions, the same bounds and the same point count return the same
    two sequences, whenever both return: in whatever order the exclusions
    are iterated at each pass, and for every library whose calls give one
    answer per argument. *)
Theorem sample_function_calls_agree (o : Calls.Answers) (expr : Expr)
    (exclusions1 exclusions2 : list Expr) (x_min x_max : float) (n_points : Z)
    (r1 r2 : list float * list float) :
  Calls.single_valued o ->
  (forall s, In s exclusions1 <-> In s exclusions2) ->
  Calls.sample_function o expr exclusions1 x_min x_max n_points r1 ->
  Calls.sample_function o expr exclusions2 x_min x_max n_points r2 ->
  r1 = r2.
Proof.
  intros Ho Hsame H1 H2. destruct H1 as [d1 r1 Hd1 L1], H2 as [d2 r2 Hd2 L2].
  assert (d1 = d2) by congruence. subst d2.
  exact (loops_one_answer _ _ _ _ _ _ _ _ _ _ _ Ho Hsame L1 L2).
Qed.

(** Against a library that gives two answers to one call, two calls of the
    sampler with the same arguments can return different sequences. *)
Lemma sample_function_calls_can_differ :
  Calls.sample_function two_answers x [] 0%float 1%float 1 ([0; 1], [1; 1])%float
  /\ Calls.sample_function two_answers x [] 0%float 1%float 1 ([0; 1], [2; 2])%float.
Proof.
  assert (pass : forall v cur xs ys r,
             v = 1%float \/ v = 2%float ->
             PrimFloat.leb cur 1 = true ->
             Calls.loops two_answers x [] 1%float 1%float (cur + 1)%float
                         (list_append xs cur) (list_append ys v) r ->
             Calls.loops two_answers x [] 1%float 1%float cur xs ys r).
  { intros v cur xs ys r Hv Hle H.
    apply (Calls.loops_append _ _ _ _ _ _ _ _ [] v);
      [exact Hle | constructor | constructor | | exact H].
    assert (F : isfinite v = true) by (destruct Hv as [->| ->]; reflexivity).
    replace (Some v) with (if isfinite v then Some v else None) by (rewrite F; reflexivity).
    apply (Calls.evaluates_float _ _ _ x (Float v) v); simpl; auto.
    destruct Hv as [->| ->]; auto. }
  split; apply (Calls.returns _ _ _ _ _ _ 1%float); try reflexivity.
  - apply (pass 1%float); [auto | reflexivity|].
    apply (pass 1%float); [auto | reflexivity|].
    apply Calls.loops_end. reflexivity.
  - apply (pass 2%float); [auto | reflexivity|].
    apply (pass 2%float); [auto | reflexivity|].
    apply Calls.loops_end. reflexivity.
Qed.

(** A library that is a function of its arguments gives one answer. *)
Lemma of_library_single_valued (lib : sp.Library) :
  Calls.single_valued (Calls.of_library lib).
Proof. repeat split; simpl; intros; congruence. Qed.

(** What the executable sampler computes is a call that returns, with the
    exclusions iterated in the order of the list. *)
Lemma near_exception_skips (lib : sp.Library) (cur : float) (order : list Expr) :
  Calls.skips (Calls.of_library lib) cur order (near_exception lib order cur).
Proof.
  induction order as [|s rest IH]; [constructor|].
  unfold near_exception in *. cbn [existsb].
  destruct (sp.N lib s) as [n|ex] eqn:HN; cbn [bind].
  - destruct (sp.__float__ lib n) as [sval|ex] eqn:HF.
    + destruct (PrimFloat.ltb (PrimFloat.abs (cur - sval)) tolerance) eqn:Hlt; cbn [orb].
      * apply (Calls.skips_break _ _ _ _ sval); [|exact Hlt].
        apply (Calls.converts_float _ _ n); assumption.
      * apply (Calls.skips_next _ _ _ _ sval); [|exact Hlt|exact IH].
        apply (Calls.converts_float _ _ n); assumption.
    + cbn [orb]. apply Calls.skips_continue; [|exact IH].
      apply (Calls.converts_float_raises _ _ n ex); assumption.
  - cbn [orb]. apply Calls.skips_continue; [|exact IH].
    apply (Calls.converts_N_raises _ _ ex); assumption.
Qed.

Lemma sample_point_evaluates (lib : sp.Library) (expr : Expr) (cur : float) :
  Calls.evaluates (Calls.of_library lib) expr cur (sample_point lib expr cur).
Proof.
  unfold sample_point.
  destruct (sp.subs lib expr (PyFloat cur)) as [s|ex] eqn:H1; cbn [bind];
    [|apply (Calls.evaluates_subs_raises _ _ _ ex); exact H1].
  destruct (sp.N lib s) as [yv|ex] eqn:H2; cbn [bind];
    [|apply (Calls.evaluates_N_raises _ _ _ s ex); assumption].
  destruct (sp.is_real lib yv) as [[|]|] eqn:H3.
  - destruct (sp.__float__ lib yv) as [yvf|ex] eqn:H4; cbn [bind].
    + apply (Calls.evaluates_float _ _ _ s yv yvf); assumption.
    + apply (Calls.evaluates_float_raises _ _ _ s yv ex); assumption.
  - apply (Calls.evaluates_not_real _ _ _ s yv (Some false));
      [assumption | assumption | assumption | discriminate].
  - apply (Calls.evaluates_not_real _ _ _ s yv None);
      [assumption | assumption | assumption | discriminate].
Qed.

Lemma sample_loop_returns (lib : sp.Library) (fuel : nat) (expr : Expr)
    (domain_exceptions : list Expr) (x_max step cur : float) (xs ys : list float)
    (r : list float * list float) :
  sample_loop lib fuel expr domain_exceptions x_max step cur xs ys = Some r ->
  Calls.loops (Calls.of_library lib) expr domain_exceptions x_max step cur xs ys r.
Proof.
  revert cur xs ys; induction fuel as [|fuel IH]; intros cur xs ys; simpl; [discriminate|].
  destruct (PrimFloat.leb cur x_max) eqn:Hle;
    [|intros H; inversion H; subst; apply Calls.loops_end; exact Hle].
  pose proof (near_exception_skips lib cur domain_exceptions) as Hskip.
  pose proof (sample_point_evaluates lib expr cur) as Hev.
  destruct (near_exception lib domain_exceptions cur).
  - intros H. apply (Calls.loops_skip _ _ _ _ _ _ _ _ domain_exceptions);
      [exact Hle | apply Permutation_refl | exact Hskip | apply IH; exact H].
  - destruct (sample_point lib expr cur) as [yvf|].
    + intros H. apply (Calls.loops_append _ _ _ _ _ _ _ _ domain_exceptions yvf);
        [exact Hle | apply Permutation_refl | exact Hskip | exact Hev | apply IH; exact H].
    + intros H. apply (Calls.loops_pass _ _ _ _ _ _ _ _ domain_exceptions);
        [exact Hle | apply Permutation_refl | exact Hskip | exact Hev | apply IH; exact H].
Qed.

Lemma sample_function_returns (lib : sp.Library) (fuel : nat) (expr : Expr)
    (domain_exceptions : list Expr) (x_min x_max : float) (n_points : Z)
    (r : list float * list float) :
  sample_function lib fuel expr domain_exceptions x_min x_max n_points = Return (Some r) ->
  Calls.sample_function (Calls.of_library lib) expr domain_exceptions
                        x_min x_max n_points r.
Proof.
  unfold sample_function. intros H. apply bind_Return in H.
  destruct H as (d & Hd & H). inversion H as [H'].
  apply (Calls.returns _ _ _ _ _ _ d); [exact Hd|].
  apply (sample_loop_returns _ fuel). exact H'.
Qed.

Lemma sample_function_calls_agree_witness :
  exists r,
    Calls.sample_function (Calls.of_library Reference.library) Reference.one_over_x
                          [Integer 0; Integer 1] (-10)%float 10%float 800 r
    /\ Calls.sample_function (Calls.of_library Reference.library) Reference.one_over_x
                             [Integer 1; Integer 0] (-10)%float 10%float 800 r.
Proof.
  destruct (sample_function Reference.library 801 Reference.one_over_x
                            [Integer 0; Integer 1] (-10)%float 10%float 800)
    as [[r1|]|ex] eqn:E1;
    [|vm_compute in E1; discriminate|vm_compute in E1; discriminate].
  destruct (sample_function Reference.library 801 Reference.one_over_x
                            [Integer 1; Integer 0] (-10)%float 10%float 800)
    as [[r2|]|ex] eqn:E2;
    [|vm_compute in E2; discriminate|vm_compute in E2; discriminate].
  apply sample_function_returns in E1. apply sample_function_returns in E2.
  assert (Hsame : forall s, In s [Integer 0; Integer 1] <-> In s [Integer 1; Integer 0])
    by (intros s; simpl; tauto).
  exists r1. split; [exact E1|].
  rewrite (sample_function_calls_agree _ _ _ _ _ _ _ _ _
             (of_library_single_valued Reference.library) Hsame E1 E2).
  exact E2.
Defined.

(** ** The function 1/x *)

(** C3 (as amended): for [1/x], given what the library answers on it: the
    exclusion set is {0}; the value reported for f(0) is the library's
    complex infinity [zoo], not the failure marker [None]; the list of real
    roots is empty; sampling over the default interval returns, and no
    sampled [x] is within 1e-2 of 0. *)
Theorem one_over_x_analysis (lib : sp.Library) (n0 : Expr) :
  sp.simplify lib Reference.one_over_x = Return Reference.one_over_x ->
  sp.fraction lib Reference.one_over_x = Return (Integer 1, x) ->
  sp.solve_Eq lib x (Integer 0) = Return [Integer 0] ->
  sp.im lib (Integer 0) = Return (Integer 0) ->
  sp.simplify lib (Integer 0) = Return (Integer 0) ->
  sp.N lib (Integer 0) = Return n0 ->
  sp.__float__ lib n0 = Return 0%float ->
  sp.subs lib Reference.one_over_x (PyInt 0) = Return ComplexInfinity ->
  sp.simplify lib ComplexInfinity = Return ComplexInfinity ->
  sp.solve_Eq lib Reference.one_over_x (Integer 0) = Return [] ->
  compute_domain lib Reference.one_over_x
    = Return ("Dominio: todos los reales, excepto x = " ++ sp.str lib n0,
              [Integer 0], [], [])
  /\ compute_intersections lib Reference.one_over_x = Return (Some ComplexInfinity, [])
  /\ exists xs ys,
       sample_function lib 801 Reference.one_over_x [Integer 0]
                       (-10)%float 10%float 800 = Return (Some (xs, ys))
       /\ Forall (fun c => PrimFloat.ltb (PrimFloat.abs (c - 0)) tolerance = false) xs.
Proof.
  intros Hsimp Hfrac Hsolve Him Hsimp0 HN HF Hsubs Hsimpz Hsolve1.
  split; [|split].
  - unfold compute_domain, find_denominator_singularities.
    rewrite Hsimp; cbn [bind try_except]. rewrite Hfrac; cbn [bind try_except].
    change (expr_eqb x (Integer 1)) with false; cbv iota.
    rewrite Hsolve; cbn [bind try_except filterM]. unfold im_is_zero.
    rewrite Him; cbn [bind try_except]. rewrite expr_eqb_refl; cbn [bind try_except mapM].
    rewrite Hsimp0; cbn [bind try_except add_simplified]. rewrite Hsimp0; cbn [bind].
    change (find_log_constraints lib Reference.one_over_x)
      with (Return (@nil Boolean)).
    change (find_even_root_problems lib Reference.one_over_x)
      with (Return (@nil Boolean)).
    change (set_add (Integer 0) []) with [Integer 0].
    cbn [nonempty orb mapM bind]. rewrite HN; cbn [bind]. reflexivity.
  - unfold compute_intersections. rewrite Hsubs; cbn [bind try_except].
    rewrite Hsimpz; cbn [bind try_except]. rewrite Hsolve1; cbn [bind try_except filterM].
    reflexivity.
  - destruct default_interval_leaves as (Hd & Hleaves & _).
    unfold sample_function. rewrite Hd; cbn [bind]. rewrite sample_loop_spec, Hleaves.
    do 2 eexists. split; [reflexivity|]. cbn [app].
    apply Forall_map, Forall_forall. intros [c y] Hp. apply kept_In in Hp.
    destruct Hp as (_ & E & _). simpl.
    apply (near_exception_false _ _ _ E (Integer 0) n0 0%float); [left; reflexivity| |]; assumption.
Qed.

Lemma one_over_x_analysis_witness :
  compute_domain Reference.library Reference.one_over_x
    = Return ("Dominio: todos los reales, excepto x = 0", [Integer 0], [], [])
  /\ compute_intersections Reference.library Reference.one_over_x
     = Return (Some ComplexInfinity, [])
  /\ exists xs ys,
       sample_function Reference.library 801 Reference.one_over_x [Integer 0]
                       (-10)%float 10%float 800 = Return (Some (xs, ys))
       /\ Forall (fun c => PrimFloat.ltb (PrimFloat.abs (c - 0)) tolerance = false) xs.
Proof.
  exact (one_over_x_analysis Reference.library (Integer 0)
           eq_refl eq_refl eq_refl eq_refl eq_refl eq_refl eq_refl eq_refl eq_refl eq_refl).
Defined.

(** C3, as stated, fails: for [1/x] the intersection solver does not
    report the failure marker for f(0); substitution yields the library's
    [zoo] without raising, and that is what is returned. *)
Lemma one_over_x_y_intercept_is_not_the_failure_marker :
  compute_intersections Reference.library Reference.one_over_x
    = Return (Some ComplexInfinity, [])
  /\ ~ (exists roots,
          compute_intersections Reference.library Reference.one_over_x
            = Return (None, roots)).
Proof.
  split; [reflexivity|]. intros (roots & H). vm_compute in H. discriminate.
Qed.

(** ** The order of floats *)

Lemma SFltb_trans (a b c : spec_float) :
  SFltb a b = true -> SFltb b c = true -> SFltb a c = true.
Proof.
  unfold SFltb.
  destruct a as [sa|sa| |sa ma ea], b as [sb|sb| |sb mb eb], c as [sc|sc| |sc mc ec];
    simpl; try discriminate;
    try (destruct sa; discriminate); try (destruct sb; discriminate);
    try (destruct sa, sb; discriminate); try (destruct sb, sc; discriminate);
    try (destruct sa, sb, sc; simpl; congruence).
  change (Pos.compare_cont Eq ma mb) with (Pos.compare ma mb).
  change (Pos.compare_cont Eq mb mc) with (Pos.compare mb mc).
  change (Pos.compare_cont Eq ma mc) with (Pos.compare ma mc).
  destruct sa, sb, sc; try discriminate; try reflexivity;
    destruct (Z.compare_spec ea eb), (Z.compare_spec eb ec), (Z.compare_spec ea ec);
    try lia; simpl; try discriminate; try reflexivity;
    destruct (Pos.compare_spec ma mb), (Pos.compare_spec mb mc), (Pos.compare_spec ma mc);
    simpl; try discriminate; try reflexivity; lia.
Qed.

(** For a number [b], [a >= b] and [b >= c] give [a >= c]. *)
Lemma SFltb_false_trans (a b c : spec_float) :
  b <> S754_nan ->
  SFltb a b = false -> SFltb b c = false -> SFltb a c = false.
Proof.
  unfold SFltb. intros Hb.
  destruct a as [sa|sa| |sa ma ea], b as [sb|sb| |sb mb eb], c as [sc|sc| |sc mc ec];
    simpl; try congruence;
    try (destruct sa; simpl; congruence); try (destruct sb; simpl; congruence);
    try (destruct sc; simpl; congruence);
    try (destruct sa, sb; simpl; congruence); try (destruct sb, sc; simpl; congruence);
    try (destruct sa, sc; simpl; congruence);
    try (destruct sa, sb, sc; simpl; congruence).
  change (Pos.compare_cont Eq ma mb) with (Pos.compare ma mb).
  change (Pos.compare_cont Eq mb mc) with (Pos.compare mb mc).
  change (Pos.compare_cont Eq ma mc) with (Pos.compare ma mc).
  destruct sa, sb, sc; try discriminate; try reflexivity;
    destruct (Z.compare_spec ea eb), (Z.compare_spec eb ec), (Z.compare_spec ea ec);
    try lia; simpl; try discriminate; try reflexivity;
    destruct (Pos.compare_spec ma mb), (Pos.compare_spec mb mc), (Pos.compare_spec ma mc);
    simpl; try discriminate; try reflexivity; lia.
Qed.

Lemma isfinite_not_nan (v : float) : isfinite v = true -> Prim2SF v <> S754_nan.
Proof.
  unfold isfinite, PrimFloat.is_finite, PrimFloat.is_nan. intros H E.
  rewrite FloatAxioms.eqb_spec, E in H. simpl in H. discriminate.
Qed.

Lemma ltb_trans (a b c : float) :
  PrimFloat.ltb a b = true -> PrimFloat.ltb b c = true -> PrimFloat.ltb a c = true.
Proof. rewrite !FloatAxioms.ltb_spec. apply SFltb_trans. Qed.

Lemma ltb_false_trans (a b c : float) :
  isfinite b = true ->
  PrimFloat.ltb a b = false -> PrimFloat.ltb b c = false -> PrimFloat.ltb a c = false.
Proof.
  intros Hb. rewrite !FloatAxioms.ltb_spec. apply SFltb_false_trans.
  apply isfinite_not_nan; exact Hb.
Qed.

Lemma ltb_irrefl (a : float) : PrimFloat.ltb a a = false.
Proof.
  rewrite FloatAxioms.ltb_spec. unfold SFltb.
  destruct (Prim2SF a) as [s|s| |s m e]; simpl; try reflexivity; try (destruct s; reflexivity).
  change (Pos.compare_cont Eq m m) with (Pos.compare m m).
  rewrite Z.compare_refl, Pos.compare_refl. destruct s; reflexivity.
Qed.

(** [min] returns an item of the list that no item is below. *)
Lemma py_min_spec (y : float) (ys : list float) :
  Forall (fun v => isfinite v = true) (y :: ys) ->
  In (py_min y ys) (y :: ys)
  /\ forall v, In v (y :: ys) -> PrimFloat.ltb v (py_min y ys) = false.
Proof.
  unfold py_min. revert y; induction ys as [|w ys IH]; intros y Hfin.
  - simpl. split; [auto|]. intros v [<-|[]]. apply ltb_irrefl.
  - inversion Hfin as [|? ? Hy Hrest]; subst.
    inversion Hrest as [|? ? Hw Hys]; subst. cbn [fold_left].
    set (m := if PrimFloat.ltb w y then w else y).
    assert (Hm : isfinite m = true) by (unfold m; destruct (PrimFloat.ltb w y); assumption).
    destruct (IH m (Forall_cons _ Hm Hys)) as [Hin Hlb].
    set (r := fold_left (fun m v => if PrimFloat.ltb v m then v else m) ys m) in *.
    assert (Hmr : PrimFloat.ltb m r = false) by (apply Hlb; left; reflexivity).
    split.
    + destruct Hin as [E|Hin]; [|right; right; exact Hin].
      rewrite <- E. unfold m. destruct (PrimFloat.ltb w y); simpl; auto.
    + intros v [<-|[<-|Hv]]; [| |apply Hlb; right; exact Hv].
      * unfold m in Hmr. destruct (PrimFloat.ltb w y) eqn:E; [|exact Hmr].
        destruct (PrimFloat.ltb y r) eqn:C; [|reflexivity].
        rewrite (ltb_trans _ _ _ E C) in Hmr. discriminate.
      * unfold m in Hmr, Hm. destruct (PrimFloat.ltb w y) eqn:E; [exact Hmr|].
        apply (ltb_false_trans w y r Hy E Hmr).
Qed.

(** [max] returns an item of the list that no item is above. *)
Lemma py_max_spec (y : float) (ys : list float) :
  Forall (fun v => isfinite v = true) (y :: ys) ->
  In (py_max y ys) (y :: ys)
  /\ forall v, In v (y :: ys) -> PrimFloat.ltb (py_max y ys) v = false.
Proof.
  unfold py_max. revert y; induction ys as [|w ys IH]; intros y Hfin.
  - simpl. split; [auto|]. intros v [<-|[]]. apply ltb_irrefl.
  - inversion Hfin as [|? ? Hy Hrest]; subst.
    inversion Hrest as [|? ? Hw Hys]; subst. cbn [fold_left].
    set (m := if PrimFloat.ltb y w then w else y).
    assert (Hm : isfinite m = true) by (unfold m; destruct (PrimFloat.ltb y w); assumption).
    destruct (IH m (Forall_cons _ Hm Hys)) as [Hin Hub].
    set (r := fold_left (fun m v => if PrimFloat.ltb m v then v else m) ys m) in *.
    assert (Hrm : PrimFloat.ltb r m = false) by (apply Hub; left; reflexivity).
    split.
    + destruct Hin as [E|Hin]; [|right; right; exact Hin].
      rewrite <- E. unfold m. destruct (PrimFloat.ltb y w); simpl; auto.
    + intros v [<-|[<-|Hv]]; [| |apply Hub; right; exact Hv].
      * unfold m in Hrm. destruct (PrimFloat.ltb y w) eqn:E; [|exact Hrm].
        destruct (PrimFloat.ltb r y) eqn:C; [|reflexivity].
        rewrite (ltb_trans _ _ _ C E) in Hrm. discriminate.
      * unfold m in Hrm, Hm. destruct (PrimFloat.ltb y w) eqn:E; [exact Hrm|].
        apply (ltb_false_trans r y w Hy Hrm E).
Qed.

(** ** The range estimator *)

Lemma range_sample_Some (lib : sp.Library) (expr : Expr) (val : Z) (fv : float) :
  range_sample lib expr val = Some fv <->
  exists s n,
    sp.subs lib expr (PyInt val) = Return s /\ sp.N lib s = Return n
    /\ sp.__float__ lib n = Return fv /\ isfinite fv = true.
Proof.
  unfold range_sample. split.
  - destruct (sp.subs lib expr (PyInt val)) as [s|] eqn:H1; simpl; [|discriminate].
    destruct (sp.N lib s) as [n|] eqn:H2; simpl; [|discriminate].
    destruct (sp.__float__ lib n) as [v|] eqn:H3; [|discriminate].
    destruct (isfinite v) eqn:H4; [|discriminate].
    intros H; inversion H; subst. eauto 8.
  - intros (s & n & H1 & H2 & H3 & H4). rewrite H1; simpl. rewrite H2; simpl.
    rewrite H3, H4. reflexivity.
Qed.

Lemma range_samples_In (lib : sp.Library) (expr : Expr) (fv : float) :
  In fv (range_samples lib expr) <->
  exists val, In val (py_range (-50) 51 2) /\ range_sample lib expr val = Some fv.
Proof.
  unfold range_samples. rewrite in_flat_map. split.
  - intros (val & Hin & H). exists val. split; [exact Hin|].
    destruct (range_sample lib expr val); [|contradiction].
    destruct H as [->|[]]. reflexivity.
  - intros (val & Hin & H). exists val. rewrite H. simpl; auto.
Qed.

Lemma range_samples_finite (lib : sp.Library) (expr : Expr) :
  Forall (fun v => isfinite v = true) (range_samples lib expr).
Proof.
  apply Forall_forall. intros v Hv. apply range_samples_In in Hv.
  destruct Hv as (val & _ & H). apply range_sample_Some in H.
  destruct H as (s & n & _ & _ & _ & F). exact F.
Qed.

(** C5 (as amended): when the exact range computation raises, the
    expression is evaluated at the integers -50, -48, ..., 50; the values
    kept are those that convert to a finite float; with none, the answer is
    that no estimate could be produced; otherwise the answer is the text
    "aprox [lo, hi] (muestreo)", where [lo] and [hi] are the minimum and the
    maximum of the kept values, each printed with four significant digits
    (format [.4g]). *)
Theorem compute_range_fallback (lib : sp.Library) (expr : Expr) (ex : PyException) :
  sp.function_range lib expr = Raise ex ->
  py_range (-50) 51 2 =
    [-50; -48; -46; -44; -42; -40; -38; -36; -34; -32; -30; -28; -26; -24; -22;
     -20; -18; -16; -14; -12; -10; -8; -6; -4; -2; 0; 2; 4; 6; 8; 10; 12; 14; 16;
     18; 20; 22; 24; 26; 28; 30; 32; 34; 36; 38; 40; 42; 44; 46; 48; 50]%Z
  /\ (forall fv,
        In fv (range_samples lib expr) <->
        exists val s n,
          In val (py_range (-50) 51 2)
          /\ sp.subs lib expr (PyInt val) = Return s /\ sp.N lib s = Return n
          /\ sp.__float__ lib n = Return fv /\ isfinite fv = true)
  /\ (range_samples lib expr = [] ->
      compute_range lib expr = Return "No se pudo estimar el recorrido")
  /\ (forall y ys,
        range_samples lib expr = y :: ys ->
        let lo := py_min y ys in
        let hi := py_max y ys in
        In lo (y :: ys) /\ In hi (y :: ys)
        /\ (forall v, In v (y :: ys) ->
              PrimFloat.ltb v lo = false /\ PrimFloat.ltb hi v = false)
        /\ compute_range lib expr
           = Return ("aprox [" ++ format_4g lo ++ ", " ++ format_4g hi ++ "] (muestreo)")).
Proof.
  intros Hfr. split; [reflexivity|]. split; [|split].
  - intros fv. rewrite range_samples_In. split.
    + intros (val & Hin & H). apply range_sample_Some in H.
      destruct H as (s & n & H). exists val, s, n. tauto.
    + intros (val & s & n & Hin & H). exists val. split; [exact Hin|].
      apply range_sample_Some. eauto.
  - intros E. unfold compute_range. rewrite Hfr, E. reflexivity.
  - intros y ys E lo hi. pose proof (range_samples_finite lib expr) as Hfin.
    rewrite E in Hfin. destruct (py_min_spec y ys Hfin) as [Hlo Hlb].
    destruct (py_max_spec y ys Hfin) as [Hhi Hub].
    split; [exact Hlo|]. split; [exact Hhi|]. split; [intros v Hv; split; auto|].
    unfold compute_range. rewrite Hfr, E. reflexivity.
Qed.

Lemma compute_range_fallback_witness :
  compute_range Reference.library Reference.x_plus_sin_x
    = Return "aprox [-49.74, 49.74] (muestreo)".
Proof.
  destruct (compute_range_fallback Reference.library Reference.x_plus_sin_x
              (mkException "NotImplementedError"
                           "Infinite number of critical points for x + sin(x)")
              eq_refl) as (_ & _ & _ & H).
  destruct (range_samples Reference.library Reference.x_plus_sin_x) as [|y ys] eqn:E;
    [vm_compute in E; discriminate|].
  destruct (H y ys eq_refl) as (_ & _ & _ & R). rewrite R.
  vm_compute in E. inversion E. vm_compute. reflexivity.
Defined.

(** C5, as stated, fails: for [x + sin(x)] the exact range is not found;
    the least finite sample is -49.73762514629607 and the text printed is
    "aprox [-49.74, 49.74] (muestreo)", whose bounds are not the minimum and
    maximum and lie outside them. *)
Lemma compute_range_prints_rounded_bounds :
  (exists ex, sp.function_range Reference.library Reference.x_plus_sin_x = Raise ex)
  /\ compute_range Reference.library Reference.x_plus_sin_x
     = Return "aprox [-49.74, 49.74] (muestreo)"
  /\ ~ printed_bounds_within Reference.library Reference.x_plus_sin_x.
Proof.
  split; [eexists; reflexivity|]. split; [vm_compute; reflexivity|].
  unfold printed_bounds_within.
  destruct (range_samples Reference.library Reference.x_plus_sin_x) as [|y ys] eqn:E;
    [vm_compute in E; discriminate|].
  vm_compute in E. inversion E; subst y ys; clear E.
  intros (H & _). unfold frac_le in H. vm_compute in H. apply H. reflexivity.
Qed.

(** * Further properties of the engine *)

(** ** Logarithm and even-root constraints *)

(** X1: [find_log_constraints] asks the library for [a > 0] exactly for
    the first arguments [a] of the logarithm sub-terms of the expression,
    and returns the library's answers, one per sub-term: the relation when
    the comparison is left unevaluated, [True] or [False] when it evaluates.
    It raises when one of these comparisons raises, and an expression
    without logarithms gets the empty list without any comparison. *)
Theorem find_log_constraints_exactly_log_arguments (lib : sp.Library) (expr : Expr) :
  (forall a, In a (log_arguments expr) <->
             exists rest, In (Func "log" (a :: rest)) (preorder expr))
  /\ (forall cs,
        find_log_constraints lib expr = Return cs ->
        List.length cs = List.length (log_arguments expr)
        /\ (forall a,
              In a (log_arguments expr) ->
              exists c, In c cs /\ sp.StrictGreaterThan lib a (Integer 0) = Return c)
        /\ (forall c,
              In c cs ->
              exists a, In a (log_arguments expr)
                        /\ sp.StrictGreaterThan lib a (Integer 0) = Return c))
  /\ (forall ex,
        find_log_constraints lib expr = Raise ex ->
        exists a, In a (log_arguments expr)
                  /\ sp.StrictGreaterThan lib a (Integer 0) = Raise ex)
  /\ ((exists a ex, In a (log_arguments expr)
                    /\ sp.StrictGreaterThan lib a (Integer 0) = Raise ex) ->
      exists ex, find_log_constraints lib expr = Raise ex)
  /\ ((forall f l, In (Func f l) (preorder expr) -> f <> "log") ->
      find_log_constraints lib expr = Return []).
Proof.
  split; [apply log_arguments_In|]. split; [|split; [|split]].
  - intros cs H. apply (mapM_Return_members _ _ _ H).
  - intros ex H. apply (mapM_Raise_inv _ _ _ H).
  - intros H. apply mapM_raises. exact H.
  - intros Hno. unfold find_log_constraints.
    destruct (log_arguments expr) as [|a l] eqn:E; [reflexivity|].
    exfalso. destruct (proj1 (log_arguments_In expr a)) as (rest & Hp).
    + rewrite E. left; reflexivity.
    + exact (Hno _ _ Hp eq_refl).
Qed.

Lemma find_log_constraints_exactly_log_arguments_witness :
  let log_x_base_2 :=
    Mul [Func "log" [x]; Pow (Func "log" [Integer 2]) (Integer (-1))] in
  (exists cs,
     find_log_constraints Reference.library log_x_base_2 = Return cs
     /\ List.length cs = 2%nat
     /\ In (Unevaluated (StrictGreaterThan x (Integer 0))) cs
     /\ In BooleanTrue cs)
  /\ find_log_constraints Reference.library Reference.x_plus_1 = Return []
  /\ exists ex,
       find_log_constraints Reference.library (Func "log" [Reference.one_plus_2i])
       = Raise ex.
Proof.
  intros log_x_base_2. split; [|split].
  - destruct (find_log_constraints Reference.library log_x_base_2) as [cs|ex] eqn:E;
      [|vm_compute in E; discriminate].
    destruct (find_log_constraints_exactly_log_arguments
                Reference.library log_x_base_2) as (_ & H & _).
    destruct (H cs E) as (L & Hall & _).
    exists cs. split; [reflexivity|]. split; [exact L|]. split.
    + destruct (Hall x) as (c & Hc & Ec); [left; reflexivity|].
      vm_compute in Ec. inversion Ec; subst c. exact Hc.
    + destruct (Hall (Integer 2)) as (c & Hc & Ec); [right; left; reflexivity|].
      vm_compute in Ec. inversion Ec; subst c. exact Hc.
  - destruct (find_log_constraints_exactly_log_arguments
                Reference.library Reference.x_plus_1) as (_ & _ & _ & _ & H).
    apply H. intros f l Hin. vm_compute in Hin.
    repeat (destruct Hin as [Hin|Hin]; [discriminate|]). destruct Hin.
  - destruct (find_log_constraints_exactly_log_arguments
                Reference.library (Func "log" [Reference.one_plus_2i]))
      as (_ & _ & _ & H & _).
    apply H. exists Reference.one_plus_2i. eexists. split; [left; reflexivity|].
    reflexivity.
Defined.

Lemma set_add_NoDup (e : Expr) (s : list Expr) : NoDup s -> NoDup (set_add e s).
Proof.
  intros H. unfold set_add, list_append. destruct (set_mem e s) eqn:M; [exact H|].
  apply NoDup_app; [exact H | constructor; [intros [] | constructor] |].
  intros a Ha [<-|[]]. apply set_mem_In in Ha. congruence.
Qed.

Lemma set_of_list_NoDup (l : list Expr) : NoDup (set_of_list l).
Proof.
  unfold set_of_list. assert (H : NoDup (@nil Expr)) by constructor.
  revert H. generalize (@nil Expr) as acc.
  induction l as [|e l IH]; simpl; intros acc H; [exact H|].
  apply IH, set_add_NoDup, H.
Qed.

Lemma first_arguments_length (l : list Expr) :
  (forall f, In f l -> args f <> []) ->
  List.length (flat_map (fun f => match args f with a :: _ => [a] | [] => [] end) l)
  = List.length l.
Proof.
  induction l as [|f l IH]; simpl; intros H; [reflexivity|].
  rewrite length_app, IH by (intros; apply H; auto).
  destruct (args f) eqn:E; [exfalso; apply (H f); auto | reflexivity].
Qed.

(** X2: [find_log_constraints] makes one comparison per distinct logarithm
    sub-term, however often the sub-term occurs in the expression: when
    every logarithm has an argument, the list it returns is as long as the
    set of logarithm sub-terms.  The answers themselves can repeat: two
    numeric arguments both give [True]. *)
Theorem find_log_constraints_one_per_logarithm (lib : sp.Library) (expr : Expr)
    (cs : list Boolean) :
  (forall l, In (Func "log" l) (preorder expr) -> l <> []) ->
  find_log_constraints lib expr = Return cs ->
  NoDup (atoms isinstance_log expr)
  /\ (forall f, In f (atoms isinstance_log expr) <->
                In f (preorder expr) /\ isinstance_log f = true)
  /\ List.length cs = List.length (atoms isinstance_log expr).
Proof.
  intros Hargs H. split; [apply set_of_list_NoDup|]. split; [intros f; apply atoms_In|].
  apply mapM_Return, Forall2_length in H. rewrite <- H.
  unfold log_arguments. apply first_arguments_length.
  intros f Hf. apply atoms_In in Hf. destruct Hf as [Hp Hcls].
  destruct f; simpl in Hcls; try discriminate.
  apply String.eqb_eq in Hcls. subst. simpl. exact (Hargs _ Hp).
Qed.

Lemma find_log_constraints_one_per_logarithm_witness :
  let twice := Add [Func "log" [x]; Mul [Integer 2; Func "log" [x]]] in
  let numeric := Add [Mul [x; Func "log" [Integer 2]]; Func "log" [Integer 3]] in
  find_log_constraints Reference.library twice
    = Return [Unevaluated (StrictGreaterThan x (Integer 0))]
  /\ List.length (atoms isinstance_log twice) = 1%nat
  /\ find_log_constraints Reference.library numeric = Return [BooleanTrue; BooleanTrue]
  /\ List.length (atoms isinstance_log numeric) = 2%nat.
Proof.
  intros twice numeric.
  assert (H1 : find_log_constraints Reference.library twice
               = Return [Unevaluated (StrictGreaterThan x (Integer 0))]) by reflexivity.
  assert (H2 : find_log_constraints Reference.library numeric
               = Return [BooleanTrue; BooleanTrue]) by reflexivity.
  split; [exact H1|]. split; [|split; [exact H2|]].
  - destruct (find_log_constraints_one_per_logarithm Reference.library twice _
                ltac:(intros l Hin; vm_compute in Hin;
                      repeat (destruct Hin as [Hin|Hin];
                              [try discriminate; inversion Hin; discriminate|]);
                      destruct Hin) H1) as (_ & _ & L).
    symmetry. exact L.
  - destruct (find_log_constraints_one_per_logarithm Reference.library numeric _
                ltac:(intros l Hin; vm_compute in Hin;
                      repeat (destruct Hin as [Hin|Hin];
                              [try discriminate; inversion Hin; discriminate|]);
                      destruct Hin) H2) as (_ & _ & L).
    symmetry. exact L.
Defined.

Lemma as_base_exp_exponent (b n : Expr) :
  is_Rational (snd (as_base_exp (Pow b n))) = is_Rational n
  /\ q (snd (as_base_exp (Pow b n))) = q n.
Proof.
  destruct b; try (split; reflexivity). cbn [as_base_exp].
  destruct ((p =? 1)%Z && negb (q0 =? 1)%positive); [|split; reflexivity].
  destruct n; split; reflexivity.
Qed.

(** X3: [find_even_root_problems] returns the empty list exactly when no
    power sub-term has a rational exponent with an even denominator: powers
    with integer exponents, with odd roots, or with a float exponent such as
    0.5 never give a constraint. *)
Theorem find_even_root_problems_empty_iff (lib : sp.Library) (expr : Expr) :
  find_even_root_problems lib expr = Return [] <->
  forall b n, In (Pow b n) (preorder expr) ->
              is_Rational n = true -> (q n mod 2 <> 0)%Z.
Proof.
  split.
  - intros E b n Hp HR Hq.
    apply mapM_Return in E. inversion E as [Hnil|]; subst.
    assert (H : In (fst (as_base_exp (Pow b n))) (even_root_bases expr)).
    { apply even_root_bases_In. exists (Pow b n).
      destruct (as_base_exp_exponent b n) as [E1 E2].
      rewrite E1, E2. auto. }
    rewrite <- Hnil in H. contradiction.
  - intros H. unfold find_even_root_problems.
    destruct (even_root_bases expr) as [|c cs] eqn:E; [reflexivity|].
    exfalso.
    assert (Hc : In c (even_root_bases expr)) by (rewrite E; left; reflexivity).
    apply even_root_bases_In in Hc.
    destruct Hc as (p & Hp & Hcls & HR & Hq & _).
    destruct p as [| | | | | | | | | | |b n|]; simpl in Hcls; try discriminate.
    destruct (as_base_exp_exponent b n) as [E1 E2]. rewrite E1 in HR. rewrite E2 in Hq.
    exact (H b n Hp HR Hq).
Qed.

Lemma find_even_root_problems_empty_iff_witness :
  find_even_root_problems Reference.library (Pow x (Rational 1 3)) = Return []
  /\ find_even_root_problems Reference.library (Pow x (Float 0.5)) = Return [].
Proof.
  split; apply (proj2 (find_even_root_problems_empty_iff _ _));
    intros b n H HR; vm_compute in H;
    repeat (destruct H as [H|H]; [try discriminate; inversion H; subst|]);
    try (vm_compute in HR; discriminate); try (vm_compute; discriminate);
    destruct H.
Defined.

(** ** The singularity search *)

Lemma filterM_filter {A} (p : A -> outcome bool) (l r : list A) :
  filterM p l = Return r ->
  r = filter (fun a => match p a with Return true => true | _ => false end) l.
Proof.
  revert r; induction l as [|a l IH]; simpl; intros r H.
  - inversion H; reflexivity.
  - inv_bind H. inv_bind H. inversion H; subst; clear H.
    rewrite Hv, (IH _ Hv0). destruct v; reflexivity.
Qed.

Lemma filterM_im_is_zero (lib : sp.Library) (sols real_sols : list Expr) :
  filterM (im_is_zero lib) sols = Return real_sols ->
  real_sols = filter (im_zero_b lib) sols.
Proof.
  intros H. rewrite (filterM_filter _ _ _ H). apply filter_ext. intros s.
  unfold im_is_zero, im_zero_b. destruct (sp.im lib s) as [i|]; simpl; [|reflexivity].
  destruct (expr_eqb i (Integer 0)); reflexivity.
Qed.

Lemma filterM_raises {A} (p : A -> outcome bool) (l : list A) :
  (exists a ex, In a l /\ p a = Raise ex) -> exists ex, filterM p l = Raise ex.
Proof.
  induction l as [|a l IH]; intros (b & ex & Hin & Hb); [destruct Hin|].
  simpl. destruct (p a) as [keep|ex'] eqn:Ea; simpl; [|eauto].
  destruct Hin as [->|Hin]; [congruence|].
  destruct IH as (ex'' & E); [eauto|]. rewrite E. simpl. eauto.
Qed.

(** X4: a non-empty result of [find_denominator_singularities] has one
    entry per solution of [den = 0] with zero imaginary part, in the order
    the solver gave them, each the simplified form of its solution; so it
    is never longer than the solver's list. *)
Theorem find_denominator_singularities_one_per_real_solution
    (lib : sp.Library) (expr : Expr) (l : list Expr) :
  find_denominator_singularities lib expr = Return l ->
  l <> [] ->
  exists e' num den sols,
    sp.simplify lib expr = Return e'
    /\ sp.fraction lib e' = Return (num, den)
    /\ den <> Integer 1
    /\ sp.solve_Eq lib den (Integer 0) = Return sols
    /\ Forall2 (fun s m => sp.simplify lib s = Return m) (filter (im_zero_b lib) sols) l
    /\ (List.length l <= List.length sols)%nat.
Proof.
  unfold find_denominator_singularities. intros H Hne.
  destruct (sp.simplify lib expr) as [e'|] eqn:H1; simpl in H; [|inversion H; congruence].
  destruct (sp.fraction lib e') as [[num den]|] eqn:H2; simpl in H; [|inversion H; congruence].
  destruct (expr_eqb den (Integer 1)) eqn:Ed; [inversion H; congruence|].
  destruct (sp.solve_Eq lib den (Integer 0)) as [sols|] eqn:H3; simpl in H;
    [|inversion H; congruence].
  destruct (filterM (im_is_zero lib) sols) as [real_sols|] eqn:H4; simpl in H;
    [|inversion H; congruence].
  destruct (mapM (sp.simplify lib) real_sols) as [r|] eqn:H5; simpl in H;
    [|inversion H; congruence].
  inversion H; subst r; clear H.
  apply filterM_im_is_zero in H4. subst real_sols.
  apply mapM_Return in H5.
  exists e', num, den, sols. repeat split; auto.
  - apply expr_eqb_neq; exact Ed.
  - rewrite <- (Forall2_length H5). apply filter_length_le.
Qed.

Lemma find_denominator_singularities_one_per_real_solution_witness :
  exists sols,
    sp.solve_Eq Reference.library x (Integer 0) = Return sols
    /\ Forall2 (fun s m => sp.simplify Reference.library s = Return m)
               (filter (im_zero_b Reference.library) sols) [Integer 0].
Proof.
  destruct (find_denominator_singularities_one_per_real_solution
              Reference.library Reference.one_over_x [Integer 0] eq_refl
              ltac:(discriminate))
    as (e' & num & den & sols & H1 & H2 & _ & H3 & H4 & _).
  vm_compute in H1. inversion H1; subst e'.
  vm_compute in H2. inversion H2; subst num den.
  exists sols. split; assumption.
Defined.

(** X5: the search is all or nothing: when computing the imaginary part
    of one solution raises, or simplifying one solution with zero imaginary
    part raises, the result is the empty list, whatever the other solutions
    are. *)
Theorem find_denominator_singularities_all_or_nothing
    (lib : sp.Library) (expr e' num den : Expr) (sols : list Expr) (s : Expr)
    (ex : PyException) :
  sp.simplify lib expr = Return e' ->
  sp.fraction lib e' = Return (num, den) ->
  sp.solve_Eq lib den (Integer 0) = Return sols ->
  In s sols ->
  sp.im lib s = Raise ex
  \/ (sp.im lib s = Return (Integer 0) /\ sp.simplify lib s = Raise ex) ->
  find_denominator_singularities lib expr = Return [].
Proof.
  intros H1 H2 H3 Hin Hs. unfold find_denominator_singularities.
  rewrite H1; simpl. rewrite H2; simpl.
  destruct (expr_eqb den (Integer 1)); [reflexivity|]. rewrite H3; simpl.
  destruct (filterM (im_is_zero lib) sols) as [real_sols|ex'] eqn:H4; simpl; [|reflexivity].
  destruct Hs as [Him|[Him Hsimp]].
  - destruct (filterM_raises (im_is_zero lib) sols) as (ex'' & E); [|congruence].
    exists s, ex. split; [exact Hin|]. unfold im_is_zero. rewrite Him. reflexivity.
  - destruct (mapM_raises (sp.simplify lib) real_sols) as (ex'' & E).
    + exists s, ex. split; [|exact Hsimp].
      apply (proj2 (filterM_Return _ _ _ H4)). split; [exact Hin|].
      apply im_is_zero_true; exact Him.
    + rewrite E. reflexivity.
Qed.

Lemma find_denominator_singularities_all_or_nothing_witness :
  find_denominator_singularities Faulty.im_raises Reference.one_over_x = Return []
  /\ find_denominator_singularities Reference.library Reference.one_over_x
     = Return [Integer 0].
Proof.
  split; [|reflexivity].
  exact (find_denominator_singularities_all_or_nothing
           Faulty.im_raises Reference.one_over_x Reference.one_over_x (Integer 1) x
           [Integer 0] (Integer 0) Faulty.failure
           eq_refl eq_refl eq_refl (or_introl eq_refl) (or_introl eq_refl)).
Defined.

(** ** The domain analyzer as a whole *)

Lemma add_simplified_NoDup (lib : sp.Library) (den_sing acc excl : list Expr) :
  NoDup acc -> add_simplified lib den_sing acc = Return excl -> NoDup excl.
Proof.
  revert acc; induction den_sing as [|s l IH]; simpl; intros acc Hacc H.
  - inversion H; subst; exact Hacc.
  - inv_bind H. apply (IH _ (set_add_NoDup _ _ Hacc) H).
Qed.

Lemma add_simplified_length (lib : sp.Library) (den_sing acc excl : list Expr) :
  add_simplified lib den_sing acc = Return excl ->
  (List.length excl <= List.length acc + List.length den_sing)%nat.
Proof.
  revert acc; induction den_sing as [|s l IH]; simpl; intros acc H.
  - inversion H; subst; lia.
  - inv_bind H. apply IH in H. unfold set_add, list_append in H.
    destruct (set_mem v acc); [lia|]. rewrite length_app in H. simpl in H. lia.
Qed.

Lemma add_simplified_Raise_inv (lib : sp.Library) (den_sing acc : list Expr)
    (ex : PyException) :
  add_simplified lib den_sing acc = Raise ex ->
  exists s, In s den_sing /\ sp.simplify lib s = Raise ex.
Proof.
  revert acc; induction den_sing as [|s l IH]; simpl; intros acc; [discriminate|].
  destruct (sp.simplify lib s) as [s'|ex'] eqn:E; simpl.
  - intros H. destruct (IH _ H) as (s0 & ? & ?). eauto.
  - intros H; inversion H; subst. eauto.
Qed.

(** X6: the exclusions [compute_domain] returns form a set: no value
    occurs twice, even when several singularities simplify to the same
    expression, and there are at most as many exclusions as singularities
    found. *)
Theorem compute_domain_exclusions_without_repetition
    (lib : sp.Library) (expr : Expr) desc excl logs roots :
  compute_domain lib expr = Return (desc, excl, logs, roots) ->
  NoDup excl
  /\ exists den_sing,
       find_denominator_singularities lib expr = Return den_sing
       /\ (List.length excl <= List.length den_sing)%nat
       /\ forall m, In m excl <-> exists s, In s den_sing /\ sp.simplify lib s = Return m.
Proof.
  intros H. apply compute_domain_inv in H. destruct H as (den_sing & Hf & Ha & _ & _).
  split; [apply (add_simplified_NoDup _ _ _ _ (NoDup_nil _) Ha)|].
  exists den_sing. split; [exact Hf|]. split; [apply (add_simplified_length _ _ _ _ Ha)|].
  intros m. destruct (add_simplified_In _ _ _ _ Ha) as [_ Hin]. rewrite Hin.
  simpl. tauto.
Qed.

Lemma compute_domain_exclusions_without_repetition_witness :
  NoDup [Integer 0].
Proof.
  exact (proj1 (compute_domain_exclusions_without_repetition
                  Reference.library Reference.one_over_x
                  "Dominio: todos los reales, excepto x = 0" [Integer 0] [] [] eq_refl)).
Defined.

(** X7: [compute_domain] can raise, and only from its unguarded library
    calls, met in this order: the simplification of a singularity before it
    enters the exclusion set, a comparison of the logarithm scan, a
    comparison of the even-root scan, or the numeric evaluation of an
    exclusion for the description. *)
Theorem compute_domain_raises_only_from_unguarded_calls
    (lib : sp.Library) (expr : Expr) (ex : PyException) :
  compute_domain lib expr = Raise ex ->
  exists den_sing,
    find_denominator_singularities lib expr = Return den_sing
    /\ ((exists s, In s den_sing /\ sp.simplify lib s = Raise ex)
        \/ exists excl,
             add_simplified lib den_sing [] = Return excl
             /\ ((exists a, In a (log_arguments expr)
                            /\ sp.StrictGreaterThan lib a (Integer 0) = Raise ex)
                 \/ exists logs,
                      find_log_constraints lib expr = Return logs
                      /\ ((exists base,
                              In base (even_root_bases expr)
                              /\ sp.StrictGreaterThan lib base NegativeInfinity = Raise ex)
                          \/ exists roots,
                               find_even_root_problems lib expr = Return roots
                               /\ exists v, In v excl /\ sp.N lib v = Raise ex))).
Proof.
  unfold compute_domain. intros H.
  destruct (find_denominator_singularities_total lib expr) as (den_sing & Hf).
  rewrite Hf in H; cbn [bind] in H. exists den_sing. split; [exact Hf|].
  destruct (add_simplified lib den_sing []) as [excl|ex'] eqn:Ha; cbn [bind] in H;
    [|left; inversion H; subst ex'; apply (add_simplified_Raise_inv _ _ _ _ Ha)].
  right. exists excl. split; [reflexivity|].
  destruct (find_log_constraints lib expr) as [logs|ex'] eqn:Hl; cbn [bind] in H;
    [|left; inversion H; subst ex'; apply (mapM_Raise_inv _ _ _ Hl)].
  right. exists logs. split; [reflexivity|].
  destruct (find_even_root_problems lib expr) as [roots|ex'] eqn:Hr; cbn [bind] in H;
    [|left; inversion H; subst ex'; apply (mapM_Raise_inv _ _ _ Hr)].
  right. exists roots. split; [reflexivity|].
  destruct (nonempty excl) eqn:E0.
  - cbn [orb] in H. cbv iota in H.
    destruct (mapM (fun v => n <- sp.N lib v;; Return (sp.str lib n)) excl)
      as [names|ex'] eqn:Hm; cbn [bind] in H.
    + destruct (nonempty logs), (nonempty roots); discriminate.
    + inversion H; subst ex'. apply mapM_Raise_inv in Hm.
      destruct Hm as (v & Hv & E). exists v. split; [exact Hv|].
      destruct (sp.N lib v); simpl in E; [discriminate | congruence].
  - cbn [orb] in H. destruct (nonempty logs), (nonempty roots); discriminate.
Qed.

Lemma compute_domain_raises_only_from_unguarded_calls_witness :
  compute_domain Faulty.N_raises Reference.one_over_x = Raise Faulty.failure
  /\ (exists v, In v [Integer 0] /\ sp.N Faulty.N_raises v = Raise Faulty.failure)
  /\ compute_domain Reference.library (Func "log" [Reference.one_plus_2i])
     = Raise (mkException "TypeError" "Invalid comparison of non-real 1 + 2*I")
  /\ compute_domain Reference.library (Pow Reference.one_plus_2i (Rational 1 2))
     = Raise (mkException "TypeError" "Invalid comparison of non-real 1 + 2*I").
Proof.
  split; [reflexivity|]. split; [|split; reflexivity].
  destruct (compute_domain_raises_only_from_unguarded_calls
              Faulty.N_raises Reference.one_over_x Faulty.failure eq_refl)
    as (den_sing & Hf
        & [(s & Hs & E)
          |(excl & Ha
            & [(a & Hin & E)
              |(logs & Hl
                & [(base & Hin & E)|(roots & Hr & v & Hv & E)])])]).
  - vm_compute in E. discriminate.
  - vm_compute in Hin. destruct Hin.
  - vm_compute in Hin. destruct Hin.
  - vm_compute in Hf. inversion Hf; subst den_sing.
    vm_compute in Ha. inversion Ha; subst excl. eauto.
Defined.

(** ** The intersection solver *)

(** X8: when [compute_intersections] reports a value at zero, that value
    is the simplified substitution of 0, and the roots are the solver's
    solutions with zero imaginary part, in the solver's order and not
    simplified. *)
Theorem compute_intersections_success
    (lib : sp.Library) (expr y : Expr) (roots : list Expr) :
  compute_intersections lib expr = Return (Some y, roots) ->
  exists s0 sols,
    sp.subs lib expr (PyInt 0) = Return s0
    /\ sp.simplify lib s0 = Return y
    /\ sp.solve_Eq lib expr (Integer 0) = Return sols
    /\ roots = filter (im_zero_b lib) sols
    /\ forall s, In s sols -> exists i, sp.im lib s = Return i.
Proof.
  unfold compute_intersections. intros H.
  destruct (sp.subs lib expr (PyInt 0)) as [s0|] eqn:H1; simpl in H; [|discriminate].
  destruct (sp.simplify lib s0) as [y0|] eqn:H2; simpl in H; [|discriminate].
  destruct (sp.solve_Eq lib expr (Integer 0)) as [sols|] eqn:H3; simpl in H; [|discriminate].
  destruct (filterM (im_is_zero lib) sols) as [rs|] eqn:H4; simpl in H; [|discriminate].
  inversion H; subst. exists s0, sols. repeat split; auto.
  - apply filterM_im_is_zero; exact H4.
  - intros s Hs. destruct (filterM_Return _ _ _ H4) as [Hall _].
    rewrite Forall_forall in Hall. destruct (Hall s Hs) as (b & Hb).
    unfold im_is_zero in Hb. destruct (sp.im lib s); [eauto | discriminate].
Qed.

Lemma compute_intersections_success_witness :
  compute_intersections Reference.library Reference.x_plus_1
    = Return (Some (Integer 1), [Integer (-1)])
  /\ exists sols,
       sp.solve_Eq Reference.library Reference.x_plus_1 (Integer 0) = Return sols
       /\ [Integer (-1)] = filter (im_zero_b Reference.library) sols.
Proof.
  split; [reflexivity|].
  destruct (compute_intersections_success Reference.library Reference.x_plus_1
              (Integer 1) [Integer (-1)] eq_refl)
    as (s0 & sols & _ & _ & H3 & H4 & _).
  exists sols. split; assumption.
Defined.

(** X9: [compute_intersections] never raises, and a failure of any of its
    steps costs both results: when the root solver raises, or the imaginary
    part of one solution cannot be computed, the value at zero is reported
    as [None] although it had been computed. *)
Theorem compute_intersections_failure_loses_value_at_zero
    (lib : sp.Library) (expr : Expr) :
  (exists r, compute_intersections lib expr = Return r)
  /\ (forall ex,
        sp.solve_Eq lib expr (Integer 0) = Raise ex ->
        compute_intersections lib expr = Return (None, []))
  /\ (forall sols s ex,
        sp.solve_Eq lib expr (Integer 0) = Return sols ->
        In s sols -> sp.im lib s = Raise ex ->
        compute_intersections lib expr = Return (None, []))
  /\ (forall roots, compute_intersections lib expr = Return (None, roots) -> roots = []).
Proof.
  unfold compute_intersections. split; [|split; [|split]].
  - apply (try_except_total _ (fun _ => (None, []))).
  - intros ex H. destruct (sp.subs lib expr (PyInt 0)) as [s0|]; simpl; [|reflexivity].
    destruct (sp.simplify lib s0); simpl; [|reflexivity]. rewrite H. reflexivity.
  - intros sols s ex H Hin Him.
    destruct (sp.subs lib expr (PyInt 0)) as [s0|]; simpl; [|reflexivity].
    destruct (sp.simplify lib s0); simpl; [|reflexivity]. rewrite H; simpl.
    destruct (filterM_raises (im_is_zero lib) sols) as (ex' & E).
    + exists s, ex. split; [exact Hin|]. unfold im_is_zero. rewrite Him. reflexivity.
    + rewrite E. reflexivity.
  - intros roots H.
    destruct (sp.subs lib expr (PyInt 0)) as [s0|]; simpl in H; [|inversion H; reflexivity].
    destruct (sp.simplify lib s0); simpl in H; [|inversion H; reflexivity].
    destruct (sp.solve_Eq lib expr (Integer 0)) as [sols|]; simpl in H;
      [|inversion H; reflexivity].
    destruct (filterM (im_is_zero lib) sols); simpl in H; inversion H; reflexivity.
Qed.

Lemma compute_intersections_failure_loses_value_at_zero_witness :
  sp.subs Faulty.solve_raises Reference.x_plus_1 (PyInt 0) = Return (Integer 1)
  /\ compute_intersections Faulty.solve_raises Reference.x_plus_1 = Return (None, []).
Proof.
  split; [reflexivity|].
  destruct (compute_intersections_failure_loses_value_at_zero
              Faulty.solve_raises Reference.x_plus_1) as (_ & H & _).
  exact (H Faulty.failure eq_refl).
Defined.

(** ** The range estimator *)

Lemma flat_map_length_le {A B} (f : A -> list B) (l : list A) :
  (forall a, (List.length (f a) <= 1)%nat) ->
  (List.length (flat_map f l) <= List.length l)%nat.
Proof.
  intros H. induction l as [|a l IH]; simpl; [lia|].
  rewrite length_app. specialize (H a). lia.
Qed.

(** X10: [compute_range] never raises.  When the exact computation
    returns, its text is the answer and no sampling takes place; otherwise
    the answer is one of the two texts of the sampling fallback. *)
Theorem compute_range_answers (lib : sp.Library) (expr : Expr) :
  (forall rng, sp.function_range lib expr = Return rng ->
               compute_range lib expr = Return rng)
  /\ exists answer,
       compute_range lib expr = Return answer
       /\ (sp.function_range lib expr = Return answer
           \/ (exists ex, sp.function_range lib expr = Raise ex)
              /\ (answer = "No se pudo estimar el recorrido"
                  \/ exists lo hi,
                       In lo (range_samples lib expr) /\ In hi (range_samples lib expr)
                       /\ answer = "aprox [" ++ format_4g lo ++ ", " ++ format_4g hi
                                   ++ "] (muestreo)")).
Proof.
  unfold compute_range. split.
  - intros rng H. rewrite H. reflexivity.
  - destruct (sp.function_range lib expr) as [rng|ex]; simpl; [eauto|].
    pose proof (range_samples_finite lib expr) as Hfin.
    destruct (range_samples lib expr) as [|y ys]; [eauto 8|].
    eexists. split; [reflexivity|]. right. split; [eauto|]. right.
    exists (py_min y ys), (py_max y ys).
    split; [apply py_min_spec; exact Hfin|]. split; [apply py_max_spec; exact Hfin|].
    reflexivity.
Qed.

(** X11: the sampling fallback keeps at most 51 values, and the minimum
    it prints from is never above the maximum. *)
Theorem range_samples_bounded_and_ordered (lib : sp.Library) (expr : Expr) :
  (List.length (range_samples lib expr) <= 51)%nat
  /\ forall y ys, range_samples lib expr = y :: ys ->
                  PrimFloat.ltb (py_max y ys) (py_min y ys) = false.
Proof.
  split.
  - unfold range_samples.
    change 51%nat with (List.length (py_range (-50) 51 2)).
    apply flat_map_length_le. intros val. destruct (range_sample lib expr val); simpl; lia.
  - intros y ys E. pose proof (range_samples_finite lib expr) as Hfin. rewrite E in Hfin.
    apply (proj2 (py_max_spec y ys Hfin)). apply py_min_spec; exact Hfin.
Qed.

(** ** The curve sampler: bounds, point count and exclusions *)

Lemma near_exception_ext (lib : sp.Library) (e1 e2 : list Expr) (c : float) :
  (forall s, In s e1 <-> In s e2) ->
  near_exception lib e1 c = near_exception lib e2 c.
Proof.
  intros H. unfold near_exception. apply eq_true_iff_eq.
  rewrite !existsb_exists. split; intros (s & Hs & E); exists s; (split; [apply H; exact Hs | exact E]).
Qed.

Lemma near_exception_app (lib : sp.Library) (e1 e2 : list Expr) (c : float) :
  near_exception lib (e1 ++ e2) c = near_exception lib e1 c || near_exception lib e2 c.
Proof. unfold near_exception. apply existsb_app. Qed.

Lemma sample_function_ext (lib : sp.Library) (fuel : nat) (expr : Expr)
    (e1 e2 : list Expr) (x_min x_max : float) (n_points : Z) :
  (forall c, near_exception lib e1 c = near_exception lib e2 c) ->
  sample_function lib fuel expr e1 x_min x_max n_points
  = sample_function lib fuel expr e2 x_min x_max n_points.
Proof.
  intros H. unfold sample_function.
  destruct (float_of_int (Z.max 1 n_points)) as [d|]; [|reflexivity]. cbn [bind].
  rewrite !sample_loop_spec.
  assert (E : forall curs, kept lib expr e1 curs = kept lib expr e2 curs).
  { intros curs. unfold kept. apply flat_map_ext. intros c. rewrite H. reflexivity. }
  rewrite E. reflexivity.
Qed.

(** X12: the sampled curve depends on the exclusions as a set: two lists
    with the same members, in any order and with any repetitions, give the
    same result. *)
Theorem sample_function_exclusions_as_set (lib : sp.Library) (fuel : nat) (expr : Expr)
    (e1 e2 : list Expr) (x_min x_max : float) (n_points : Z) :
  (forall s, In s e1 <-> In s e2) ->
  sample_function lib fuel expr e1 x_min x_max n_points
  = sample_function lib fuel expr e2 x_min x_max n_points.
Proof.
  intros H. apply sample_function_ext. intros c. apply near_exception_ext, H.
Qed.

Lemma sample_function_exclusions_as_set_witness :
  sample_function Reference.library 801 Reference.one_over_x
                  [Integer 0; Integer 1] (-10)%float 10%float 800
  = sample_function Reference.library 801 Reference.one_over_x
                    [Integer 1; Integer 0; Integer 1] (-10)%float 10%float 800.
Proof.
  apply sample_function_exclusions_as_set.
  intros s; simpl; tauto.
Defined.

Lemma combine_fst_snd {A B} (pts : list (A * B)) :
  combine (map fst pts) (map snd pts) = pts.
Proof. induction pts as [|[a b] pts IH]; simpl; [|rewrite IH]; reflexivity. Qed.

Lemma kept_app (lib : sp.Library) (expr : Expr) (excl more : list Expr)
    (curs : list float) :
  kept lib expr (excl ++ more) curs
  = filter (fun p => negb (near_exception lib more (fst p))) (kept lib expr excl curs).
Proof.
  unfold kept. induction curs as [|c curs IH]; simpl; [reflexivity|].
  rewrite filter_app, <- IH, near_exception_app.
  destruct (near_exception lib excl c); simpl; [reflexivity|].
  destruct (near_exception lib more c) eqn:E; simpl.
  - destruct (sample_point lib expr c); simpl; [rewrite E|]; reflexivity.
  - destruct (sample_point lib expr c); simpl; [rewrite E|]; reflexivity.
Qed.

(** X13: further exclusions only remove points: sampling with the
    exclusions [excl ++ more] gives the points sampled with [excl] that are
    not within the tolerance of a member of [more], in the same order and
    with the same values. *)
Theorem sample_function_more_exclusions (lib : sp.Library) (fuel : nat) (expr : Expr)
    (excl more : list Expr) (x_min x_max : float) (n_points : Z)
    (xs ys : list float) :
  sample_function lib fuel expr excl x_min x_max n_points = Return (Some (xs, ys)) ->
  sample_function lib fuel expr (excl ++ more) x_min x_max n_points
  = Return (Some (map fst (away_from lib more xs ys),
                  map snd (away_from lib more xs ys))).
Proof.
  intros H. apply sample_function_inv in H.
  destruct H as (d & Hd & Hleaves & -> & ->).
  unfold sample_function. rewrite Hd; cbn [bind].
  rewrite sample_loop_spec, Hleaves. cbn [app].
  unfold away_from. rewrite combine_fst_snd, kept_app. reflexivity.
Qed.

Lemma sample_function_more_exclusions_witness :
  sample_function Reference.library 4 Reference.one_over_x [] 1%float 3%float 2
    = Return (Some ([1; 2; 3], [1; 1 / 2; 1 / 3]))%float
  /\ sample_function Reference.library 4 Reference.one_over_x ([] ++ [Integer 2])
                     1%float 3%float 2
     = Return (Some ([1; 3], [1; 1 / 3]))%float.
Proof.
  assert (H : sample_function Reference.library 4 Reference.one_over_x [] 1%float 3%float 2
              = Return (Some ([1; 2; 3], [1; 1 / 2; 1 / 3]))%float)
    by (vm_compute; reflexivity).
  split; [exact H|].
  rewrite (sample_function_more_exclusions _ _ _ _ [Integer 2] _ _ _ _ _ H).
  vm_compute. reflexivity.
Defined.

(** X14: an exclusion whose numeric evaluation or conversion to a float
    raises is skipped: the result is the same as without it. *)
Theorem sample_function_ignores_unconvertible_exclusion (lib : sp.Library) (fuel : nat)
    (expr : Expr) (s : Expr) (excl : list Expr) (x_min x_max : float) (n_points : Z) :
  (exists ex, sp.N lib s = Raise ex)
  \/ (exists n ex, sp.N lib s = Return n /\ sp.__float__ lib n = Raise ex) ->
  sample_function lib fuel expr (s :: excl) x_min x_max n_points
  = sample_function lib fuel expr excl x_min x_max n_points.
Proof.
  intros H. apply sample_function_ext. intros c. unfold near_exception. simpl.
  destruct H as [(ex & E)|(n & ex & E1 & E2)].
  - rewrite E. reflexivity.
  - rewrite E1; simpl. rewrite E2. reflexivity.
Qed.

Lemma sample_function_ignores_unconvertible_exclusion_witness :
  sample_function Reference.library 801 Reference.one_over_x
                  [ComplexInfinity; Integer 0] (-10)%float 10%float 800
  = sample_function Reference.library 801 Reference.one_over_x
                    [Integer 0] (-10)%float 10%float 800.
Proof.
  apply sample_function_ignores_unconvertible_exclusion.
  right. exists ComplexInfinity. eexists. split; reflexivity.
Defined.

Lemma kept_length (lib : sp.Library) (expr : Expr) (excl : list Expr) (curs : list float) :
  (List.length (kept lib expr excl curs) <= List.length curs)%nat.
Proof.
  unfold kept. apply flat_map_length_le. intros c.
  destruct (near_exception lib excl c); simpl; [lia|].
  destruct (sample_point lib expr c); simpl; lia.
Qed.

Lemma default_grid_inside :
  forallb (fun c => PrimFloat.leb (-10) c && PrimFloat.ltb c 10)
          (grid 801 10%float ((10 - (-10)) / 800)%float (-10)%float) = true.
Proof. vm_compute. reflexivity. Qed.

(** X15: with the default bounds -10, 10 and 800 points, whatever the
    expression and the exclusions, at most 800 points are returned, every
    sampled [x] satisfies [-10 <= x < 10], and so the right end of the
    interval is never sampled. *)
Theorem sample_function_default_interval (lib : sp.Library) (fuel : nat) (expr : Expr)
    (domain_exceptions : list Expr) (xs ys : list float) :
  sample_function lib fuel expr domain_exceptions (-10)%float 10%float 800
    = Return (Some (xs, ys)) ->
  (List.length xs <= 800)%nat
  /\ Forall (fun c => PrimFloat.leb (-10) c = true /\ PrimFloat.ltb c 10 = true) xs
  /\ ~ In 10%float xs.
Proof.
  intros H. apply sample_function_inv in H. destruct H as (d & Hd & Hleaves & Hxs & _).
  destruct default_interval_leaves as (Hd' & L & Hlen).
  assert (d = 800%float) by congruence. subst d.
  assert (G : grid fuel 10 ((10 - -10) / 800) (-10)
              = grid 801 10 ((10 - -10) / 800) (-10)).
  { destruct (Nat.le_ge_cases fuel 801) as [Hle|Hle].
    - symmetry. apply (leaves_grid_mono _ _ _ _ _ Hle Hleaves).
    - apply (leaves_grid_mono _ _ _ _ _ Hle L). }
  rewrite G in Hxs.
  assert (Hall : Forall (fun c => PrimFloat.leb (-10) c = true /\ PrimFloat.ltb c 10 = true) xs).
  { subst xs. apply Forall_map, Forall_forall. intros [c y] Hp. apply kept_In in Hp.
    destruct Hp as (Hc & _ & _). simpl.
    pose proof default_grid_inside as F. rewrite forallb_forall in F.
    apply F in Hc. apply andb_true_iff in Hc. exact Hc. }
  split; [|split; [exact Hall|]].
  - subst xs. rewrite length_map, <- Hlen. apply kept_length.
  - intros Hin. rewrite Forall_forall in Hall. destruct (Hall _ Hin) as [_ C].
    vm_compute in C. discriminate.
Qed.

Lemma sample_function_default_interval_witness :
  exists xs ys,
    sample_function Reference.library 801 Reference.one_over_x [Integer 0]
                    (-10)%float 10%float 800 = Return (Some (xs, ys))
    /\ (List.length xs <= 800)%nat /\ ~ In 10%float xs.
Proof.
  destruct (sample_function Reference.library 801 Reference.one_over_x [Integer 0]
                            (-10)%float 10%float 800) as [[[xs ys]|]|ex] eqn:E;
    [|vm_compute in E; discriminate|vm_compute in E; discriminate].
  exists xs, ys. split; [reflexivity|].
  destruct (sample_function_default_interval _ _ _ _ _ _ E) as (H1 & _ & H3).
  split; assumption.
Defined.

(** X16: the sampling [on_plot] asks for always ends: with the bounds
    -10 and 10 and 800 points the loop makes exactly 800 passes, whatever
    the expression and the exclusions.  801 tests of its condition give the
    result, the one [on_plot] draws; more tests change nothing and fewer do
    not reach the end. *)
Theorem sample_function_default_passes (lib : sp.Library) (expr : Expr)
    (domain_exceptions : list Expr) (fuel : nat) :
  ((801 <= fuel)%nat ->
   sample_function lib fuel expr domain_exceptions (-10)%float 10%float 800
   = Return (Some (AnalizadorGUI.default_samples lib expr domain_exceptions)))
  /\ ((fuel <= 800)%nat ->
      sample_function lib fuel expr domain_exceptions (-10)%float 10%float 800
      = Return None).
Proof.
  destruct default_interval_leaves as (Hd & L & _).
  assert (E : forall f,
             sample_function lib f expr domain_exceptions (-10)%float 10%float 800
             = Return (if leaves f 10 ((10 - -10) / 800) (-10)
                       then let pts := kept lib expr domain_exceptions
                                            (grid f 10 ((10 - -10) / 800) (-10)) in
                            Some (map fst pts, map snd pts)
                       else None)).
  { intros f. unfold sample_function. rewrite Hd; cbn [bind].
    rewrite sample_loop_spec. reflexivity. }
  split; intros Hle.
  - destruct (leaves_grid_mono 801%nat fuel _ _ _ Hle L) as [L' G].
    unfold AnalizadorGUI.default_samples.
    rewrite (E 801%nat), (E fuel), L, L', G. reflexivity.
  - rewrite E.
    destruct (leaves fuel 10 ((10 - -10) / 800) (-10)) eqn:Lf; [|reflexivity].
    destruct (leaves_grid_mono fuel 800%nat _ _ _ Hle Lf) as [L800 _].
    vm_compute in L800. discriminate.
Qed.

Lemma sample_function_default_passes_witness :
  sample_function Reference.library 801 Reference.one_over_x [Integer 0]
                  (-10)%float 10%float 800
  = Return (Some (AnalizadorGUI.default_samples Reference.library Reference.one_over_x
                    [Integer 0]))
  /\ sample_function Reference.library 800 Reference.one_over_x [Integer 0]
                     (-10)%float 10%float 800
     = Return None.
Proof.
  destruct (sample_function_default_passes Reference.library Reference.one_over_x
              [Integer 0] 801) as [H _].
  destruct (sample_function_default_passes Reference.library Reference.one_over_x
              [Integer 0] 800) as [_ H'].
  split; [apply H; lia | apply H'; lia].
Defined.

(** X17: when the step is zero, as with [x_min = x_max], and [x_min] is a
    number, the loop condition never fails: the sampler does not return,
    whatever the number of iterations. *)
Theorem sample_function_zero_step_never_returns (lib : sp.Library) (fuel : nat)
    (expr : Expr) (domain_exceptions : list Expr) (x_min x_max : float)
    (n_points : Z) (d : float) :
  float_of_int (Z.max 1 n_points) = Return d ->
  ((x_max - x_min) / d)%float = 0%float ->
  PrimFloat.leb x_min x_max = true ->
  (x_min + 0)%float = x_min ->
  sample_function lib fuel expr domain_exceptions x_min x_max n_points = Return None.
Proof.
  intros Hd Hstep Hle Hadd. unfold sample_function. rewrite Hd; cbn [bind].
  rewrite sample_loop_spec, Hstep, (zero_step_never_leaves fuel x_max x_min Hle Hadd).
  reflexivity.
Qed.

Lemma sample_function_zero_step_never_returns_witness :
  sample_function Reference.library 1000 Reference.x_plus_1 [] 5%float 5%float 800
  = Return None.
Proof.
  exact (sample_function_zero_step_never_returns Reference.library 1000
           Reference.x_plus_1 [] 5%float 5%float 800 800%float
           eq_refl eq_refl eq_refl eq_refl).
Defined.

(** * The window's callbacks *)

Import AnalizadorGUI.
Local Open Scope gui_scope.

(** X18: when the entry does not parse, [on_analyze] replaces the text by
    the two lines of the error report and changes nothing else: the
    expression, the exclusions, the axes and the evaluated point of the
    previous analysis stay in force. *)
Theorem on_analyze_parse_error (lib : sp.Library) (rt : Runtime) (a : App)
    (ex : PyException) :
  strip rt (func_entry a) <> "" ->
  sp.sympify lib (strip rt (func_entry a)) = Raise ex ->
  exc_str ex <> "" ->
  on_analyze lib rt a
  = (Return tt, set_text (lines ["Error al parsear la función:"; exc_str ex]) a).
Proof.
  intros Hne Hs Hmsg. unfold on_analyze, and_then, get.
  apply String.eqb_neq in Hne. rewrite Hne.
  unfold lift, safe_sympify. rewrite Hs. cbn [bind try_except modify truthy].
  apply String.eqb_neq in Hmsg. rewrite Hmsg. cbn [negb log modify].
  reflexivity.
Qed.

Lemma on_analyze_parse_error_witness :
  let analysed :=
    snd (on_analyze Reference.library ReferenceShell.runtime (set_func_entry "1/x" init)) in
  let after :=
    snd (on_analyze Reference.library ReferenceShell.runtime
           (set_func_entry "x +" analysed)) in
  parsed_expr after = Some Reference.one_over_x
  /\ domain_exceptions after = [Integer 0].
Proof.
  intros analysed after. unfold after.
  rewrite (on_analyze_parse_error Reference.library ReferenceShell.runtime
             (set_func_entry "x +" analysed)
             (mkException "SympifyError"
                "Sympify of expression 'could not parse 'x +'' failed, because of exception being raised:
SyntaxError: invalid syntax (<string>, line 1)")
             ltac:(discriminate) eq_refl ltac:(discriminate)).
  vm_compute. split; reflexivity.
Defined.

(** X19: [on_analyze] stores the parsed expression before the domain
    analysis and the exclusions after it: when [compute_domain] raises, the
    callback ends with that exception, the new expression is stored and
    reported, and the exclusions are still those of the previous analysis. *)
Theorem on_analyze_domain_failure (lib : sp.Library) (rt : Runtime) (a : App)
    (e e' : Expr) (ex : PyException) :
  strip rt (func_entry a) <> "" ->
  sp.sympify lib (strip rt (func_entry a)) = Return e ->
  sp.simplify lib e = Return e' ->
  compute_domain lib e' = Raise ex ->
  on_analyze lib rt a
  = (Raise ex,
     set_text (lines ["Función parseada:"; sp.str lib e']) (set_parsed_expr (Some e') a))
  /\ domain_exceptions (snd (on_analyze lib rt a)) = domain_exceptions a.
Proof.
  intros Hne Hs Hsimp Hd.
  assert (E : on_analyze lib rt a
              = (Raise ex,
                 set_text (lines ["Función parseada:"; sp.str lib e'])
                          (set_parsed_expr (Some e') a))).
  { unfold on_analyze, and_then, get.
    apply String.eqb_neq in Hne. rewrite Hne.
    unfold lift, safe_sympify. rewrite Hs. cbn [bind try_except modify truthy].
    cbv iota. unfold simplify_obj. rewrite Hsimp. cbn [bind modify log].
    rewrite Hd. reflexivity. }
  split; [exact E | rewrite E; reflexivity].
Qed.

Lemma on_analyze_domain_failure_witness :
  let a := set_domain_exceptions [Integer 5] (set_func_entry "1/x" init) in
  fst (on_analyze Faulty.N_raises ReferenceShell.runtime a) = Raise Faulty.failure
  /\ parsed_expr (snd (on_analyze Faulty.N_raises ReferenceShell.runtime a))
     = Some Reference.one_over_x
  /\ domain_exceptions (snd (on_analyze Faulty.N_raises ReferenceShell.runtime a))
     = [Integer 5].
Proof.
  intros a.
  destruct (on_analyze_domain_failure Faulty.N_raises ReferenceShell.runtime a
              Reference.one_over_x Reference.one_over_x Faulty.failure
              ltac:(discriminate) eq_refl eq_refl eq_refl) as [E D].
  rewrite D. rewrite E. repeat split.
Defined.

(** ** What the callbacks leave alone *)

Section Keeps.

Context {X : Type} (attr : App -> X).

Lemma keeps_ret {A} (v : A) : keeps attr (ret v).
Proof. intros a; reflexivity. Qed.

Lemma keeps_raise {A} (e : PyException) : keeps attr (@raise A e).
Proof. intros a; reflexivity. Qed.

Lemma keeps_lift {A} (c : outcome A) : keeps attr (lift c).
Proof. intros a; reflexivity. Qed.

Lemma keeps_get : keeps attr get.
Proof. intros a; reflexivity. Qed.

Lemma keeps_modify (f : App -> App) :
  (forall a, attr (f a) = attr a) -> keeps attr (modify f).
Proof. intros H a; apply H. Qed.

Lemma keeps_and_then {A B} (c : action A) (k : A -> action B) :
  keeps attr c -> (forall v, keeps attr (k v)) -> keeps attr (and_then c k).
Proof.
  intros Hc Hk a. unfold and_then. specialize (Hc a).
  destruct (c a) as [[v|e] a']; simpl in *; [rewrite Hk|]; exact Hc.
Qed.

End Keeps.

Ltac keeps_tac :=
  lazymatch goal with
  | |- keeps _ (and_then _ _) => apply keeps_and_then; [keeps_tac | intros ?; keeps_tac]
  | |- keeps _ (match ?x with _ => _ end) => destruct x; keeps_tac
  | |- _ =>
      first
        [ apply keeps_ret | apply keeps_raise | apply keeps_lift | apply keeps_get
        | assumption
        | apply keeps_modify; reflexivity ]
  end.

Lemma keeps_log {X} (attr : App -> X) (msgs : list string) :
  (forall t a, attr (set_text t a) = attr a) -> keeps attr (log msgs).
Proof. intros H. apply keeps_modify. intros a; apply H. Qed.

Lemma keeps_plot_roots {X} (attr : App -> X) (lib : sp.Library) (x_roots : list Expr) :
  (forall l a, attr (set_ax l a) = attr a) -> keeps attr (plot_roots lib x_roots).
Proof.
  intros H. induction x_roots as [|r rest IH]; simpl; [apply keeps_ret|].
  apply keeps_and_then; [|intros _; exact IH].
  destruct (n <- sp.N lib r;; sp.__float__ lib n);
    [apply keeps_modify; intros ?; apply H | apply keeps_ret].
Qed.

Lemma keeps_plot_exclusions {X} (attr : App -> X) (lib : sp.Library)
    (exclusions : list Expr) :
  (forall l a, attr (set_ax l a) = attr a) -> keeps attr (plot_exclusions lib exclusions).
Proof.
  intros H. induction exclusions as [|r rest IH]; simpl; [apply keeps_ret|].
  apply keeps_and_then; [|intros _; exact IH].
  destruct (n <- sp.N lib r;; sp.__float__ lib n);
    [apply keeps_modify; intros ?; apply H | apply keeps_ret].
Qed.

Lemma keeps_point_on_analyze (lib : sp.Library) (rt : Runtime) :
  keeps x_eval_point (on_analyze lib rt).
Proof. unfold on_analyze, log, show. keeps_tac. Qed.

(** X20: [on_analyze] never draws and never edits the entries: in every
    case, also when it raises, the two entries, the axes and the canvas are
    as before.  It shows a message box only for an entry that is blank once
    stripped, and then it does nothing else. *)
Theorem on_analyze_never_draws (lib : sp.Library) (rt : Runtime) (a : App) :
  (func_entry (snd (on_analyze lib rt a)) = func_entry a
   /\ x_entry (snd (on_analyze lib rt a)) = x_entry a
   /\ ax (snd (on_analyze lib rt a)) = ax a
   /\ canvas (snd (on_analyze lib rt a)) = canvas a)
  /\ (strip rt (func_entry a) = "" ->
      on_analyze lib rt a
      = (Return tt,
         set_dialogs (dialogs a ++ [showwarning "Entrada vacía"
                                      "Ingrese una función en la caja 'Función f(x)'."])%list
                     a))
  /\ (strip rt (func_entry a) <> "" ->
      dialogs (snd (on_analyze lib rt a)) = dialogs a).
Proof.
  split; [|split].
  - assert (K1 : keeps func_entry (on_analyze lib rt))
      by (unfold on_analyze, log, show; keeps_tac).
    assert (K2 : keeps x_entry (on_analyze lib rt))
      by (unfold on_analyze, log, show; keeps_tac).
    assert (K3 : keeps ax (on_analyze lib rt))
      by (unfold on_analyze, log, show; keeps_tac).
    assert (K4 : keeps canvas (on_analyze lib rt))
      by (unfold on_analyze, log, show; keeps_tac).
    repeat split; [apply K1 | apply K2 | apply K3 | apply K4].
  - intros H. unfold on_analyze, and_then, get. rewrite H. reflexivity.
  - intros Hne. apply String.eqb_neq in Hne.
    remember (on_analyze lib rt a) as r eqn:E.
    unfold on_analyze in E. unfold and_then at 1 in E. unfold get at 1 in E.
    cbn beta iota in E. rewrite Hne in E.
    lazymatch type of E with
    | r = ?c ?s =>
        assert (K : keeps dialogs c) by (unfold log; keeps_tac);
        rewrite E; apply K
    end.
Qed.

Lemma on_analyze_never_draws_witness :
  let drawn := set_canvas [Grid true] (set_ax [Grid true] init) in
  on_analyze Reference.library ReferenceShell.runtime (set_func_entry "   " drawn)
  = (Return tt,
     set_dialogs [showwarning "Entrada vacía"
                    "Ingrese una función en la caja 'Función f(x)'."]
                 (set_func_entry "   " drawn))
  /\ dialogs (snd (on_analyze Reference.library ReferenceShell.runtime
                     (set_func_entry "1/x" drawn))) = []
  /\ canvas (snd (on_analyze Reference.library ReferenceShell.runtime
                    (set_func_entry "1/x" drawn))) = [Grid true].
Proof.
  intros drawn.
  destruct (on_analyze_never_draws Reference.library ReferenceShell.runtime
              (set_func_entry "   " drawn)) as (_ & B & _).
  destruct (on_analyze_never_draws Reference.library ReferenceShell.runtime
              (set_func_entry "1/x" drawn)) as ((_ & _ & _ & C) & _ & D).
  split; [exact (B eq_refl)|]. split; [|exact C].
  apply D. vm_compute. discriminate.
Defined.

Lemma keeps_point_on_plot (lib : sp.Library) (rt : Runtime) :
  keeps x_eval_point (on_plot lib rt).
Proof.
  pose proof (keeps_point_on_analyze lib rt) as H.
  pose proof (fun r => keeps_plot_roots x_eval_point lib r (fun _ _ => eq_refl)) as Hr.
  pose proof (fun r => keeps_plot_exclusions x_eval_point lib r (fun _ _ => eq_refl)) as He.
  unfold on_plot, log, ax_add.
  repeat lazymatch goal with
  | |- keeps _ (and_then _ _) => apply keeps_and_then; [|intros ?]
  | |- keeps _ (match ?x with _ => _ end) => destruct x
  | |- keeps _ (plot_roots _ _) => apply Hr
  | |- keeps _ (plot_exclusions _ _) => apply He
  | |- _ =>
      first
        [ apply keeps_ret | apply keeps_raise | apply keeps_lift | apply keeps_get
        | assumption
        | apply keeps_modify; reflexivity ]
  end.
Qed.

(** ** What a plot holds *)

Lemma adds_ret : adds [] (ret tt).
Proof. intros a. unfold ret, set_ax. rewrite app_nil_r. destruct a; reflexivity. Qed.

Lemma adds_ax_add (art : Artist) : adds [art] (ax_add art).
Proof. intros a; reflexivity. Qed.

Lemma adds_seq (l1 l2 : list Artist) (c1 c2 : action unit) :
  adds l1 c1 -> adds l2 c2 -> adds (l1 ++ l2)%list (c1 ;;; c2).
Proof.
  intros H1 H2 a. unfold and_then. rewrite H1, H2. unfold set_ax; simpl.
  rewrite app_assoc. reflexivity.
Qed.

Lemma adds_plot_roots (lib : sp.Library) (x_roots : list Expr) :
  adds (root_markers lib x_roots) (plot_roots lib x_roots).
Proof.
  induction x_roots as [|r rest IH]; simpl; [apply adds_ret|].
  apply adds_seq; [|exact IH].
  destruct (n <- sp.N lib r;; sp.__float__ lib n); [apply adds_ax_add | apply adds_ret].
Qed.

Lemma adds_plot_exclusions (lib : sp.Library) (exclusions : list Expr) :
  adds (exclusion_markers lib exclusions) (plot_exclusions lib exclusions).
Proof.
  induction exclusions as [|r rest IH]; simpl; [apply adds_ret|].
  apply adds_seq; [|exact IH].
  destruct (n <- sp.N lib r;; sp.__float__ lib n); [apply adds_ax_add | apply adds_ret].
Qed.

Lemma nonempty_true {A} (l : list A) : nonempty l = true <-> l <> [].
Proof. destruct l; simpl; split; congruence. Qed.

Lemma and_then_adds {B} (l v : list Artist) (c : action unit) (k : action B) (a : App) :
  adds l c -> and_then c (fun _ => k) (set_ax v a) = k (set_ax (v ++ l)%list a).
Proof. intros H. unfold and_then. rewrite H. reflexivity. Qed.

Lemma adds_intercept (lib : sp.Library) (rt : Runtime) (y0 : option Expr) :
  adds (intercept_marker lib rt y0)
       match float_N_obj lib rt y0 with
       | Return y0f =>
           ax_add (Scatter 0%float y0f "o" 50 None ("f(0)=" ++ sp.str_float lib y0f))
       | Raise _ => ret tt
       end.
Proof.
  unfold intercept_marker. destruct (float_N_obj lib rt y0);
    [apply adds_ax_add | apply adds_ret].
Qed.

Lemma adds_point (pt : option (float * option float)) :
  adds (point_marker pt)
       match pt with
       | Some (xv, Some yv) =>
           ax_add (Scatter xv yv "o" 80 (Some "red")
                           ("Punto evaluado (" ++ format_g 3 xv ++ ","
                            ++ format_g 3 yv ++ ")"))
       | _ => ret tt
       end.
Proof.
  unfold point_marker. destruct pt as [[xv [yv|]]|];
    [apply adds_ax_add | apply adds_ret | apply adds_ret].
Qed.

(** The run of [on_plot] on a stored expression with sample points. *)
Lemma on_plot_run (lib : sp.Library) (rt : Runtime) (a : App) (e : Expr)
    (xs ys : list float) (y0 : option Expr) (x_roots : list Expr) :
  parsed_expr a = Some e ->
  default_samples lib e (domain_exceptions a) = (xs, ys) ->
  xs <> [] ->
  compute_intersections lib e = Return (y0, x_roots) ->
  on_plot lib rt a
  = (Return tt,
     let contents :=
       plot_contents lib rt e xs ys y0 x_roots (domain_exceptions a) (x_eval_point a) in
     set_text (text a ++ lines ["Gráfica generada."])
              (set_canvas contents (set_ax contents a))).
Proof.
  intros Hp Hs Hne Hi. apply nonempty_true in Hne.
  unfold on_plot. unfold and_then at 1. unfold get at 1. cbn beta iota.
  rewrite Hp. unfold and_then at 1. unfold ret at 1. cbn beta iota.
  unfold and_then at 1. unfold get at 1. cbn beta iota. rewrite Hp.
  unfold and_then at 1. unfold modify at 1. cbn beta iota.
  rewrite Hs, Hne.
  rewrite (and_then_adds _ _ _ _ _ (adds_ax_add _)).
  unfold and_then at 1. unfold lift at 1. rewrite Hi. cbn beta iota.
  rewrite (and_then_adds _ _ _ _ _ (adds_intercept lib rt y0)).
  rewrite (and_then_adds _ _ _ _ _ (adds_plot_roots lib x_roots)).
  rewrite (and_then_adds _ _ _ _ _ (adds_plot_exclusions lib (domain_exceptions a))).
  rewrite (and_then_adds _ _ _ _ _ (adds_point (x_eval_point a))).
  rewrite (and_then_adds _ _ _ _ _ (adds_ax_add _)).
  rewrite (and_then_adds _ _ _ _ _ (adds_ax_add _)).
  rewrite (and_then_adds _ _ _ _ _ (adds_ax_add _)).
  rewrite (and_then_adds _ _ _ _ _ (adds_ax_add _)).
  rewrite (and_then_adds _ _ _ _ _ (adds_ax_add _)).
  rewrite <- !app_assoc. cbn [app].
  unfold and_then, modify, log. unfold plot_contents, decorations. reflexivity.
Qed.

Lemma compute_intersections_returns (lib : sp.Library) (e : Expr) :
  exists y0 x_roots, compute_intersections lib e = Return (y0, x_roots).
Proof.
  destruct (try_except_total
              (s0 <- sp.subs lib e (PyInt 0) ;;
               y_at_0 <- sp.simplify lib s0 ;;
               sol <- sp.solve_Eq lib e (Integer 0) ;;
               real_roots <- filterM (im_is_zero lib) sol ;;
               Return (Some y_at_0, real_roots))
              (fun _ => (None, []))) as ([y0 x_roots] & H).
  exists y0, x_roots. exact H.
Qed.

(** ** The evaluated point *)

(** X21: the evaluated point is written by [on_evaluate] only: [on_clear],
    [on_analyze] and [on_plot] leave it as it is, so it outlives the function
    it was computed for, and every later plot that completes draws it, in
    red, whatever expression is then stored. *)
Theorem evaluated_point_outlives_its_function (lib : sp.Library) (rt : Runtime)
    (a : App) :
  x_eval_point (snd (on_clear a)) = x_eval_point a
  /\ x_eval_point (snd (on_analyze lib rt a)) = x_eval_point a
  /\ x_eval_point (snd (on_plot lib rt a)) = x_eval_point a
  /\ forall e xv yv,
       parsed_expr a = Some e ->
       fst (default_samples lib e (domain_exceptions a)) <> [] ->
       x_eval_point a = Some (xv, Some yv) ->
       In (Scatter xv yv "o" 80 (Some "red")
                   ("Punto evaluado (" ++ format_g 3 xv ++ "," ++ format_g 3 yv ++ ")"))
          (canvas (snd (on_plot lib rt a))).
Proof.
  split; [|split; [|split]].
  - assert (H : keeps x_eval_point on_clear) by (unfold on_clear; keeps_tac). apply H.
  - apply keeps_point_on_analyze.
  - apply keeps_point_on_plot.
  - intros e xv yv Hp Hne Hpt.
    destruct (default_samples lib e (domain_exceptions a)) as [xs ys] eqn:Hs.
    destruct (compute_intersections_returns lib e) as (y0 & x_roots & Hi).
    rewrite (on_plot_run lib rt a e xs ys y0 x_roots Hp Hs Hne Hi).
    cbn [snd]. unfold set_text, set_canvas. cbn [canvas].
    unfold plot_contents. rewrite Hpt. right.
    apply in_or_app; right. apply in_or_app; right. apply in_or_app; right.
    apply in_or_app; left. left. reflexivity.
Qed.

Lemma evaluated_point_outlives_its_function_witness :
  let lib := Reference.library in
  let rt := ReferenceShell.runtime in
  let evaluated := snd (on_evaluate lib rt (set_x_entry "2" (set_func_entry "x + 1" init))) in
  let cleared := snd (on_clear evaluated) in
  let analysed := snd (on_analyze lib rt (set_func_entry "1/x" cleared)) in
  parsed_expr analysed = Some Reference.one_over_x
  /\ In (Scatter 2 3 "o" 80 (Some "red") "Punto evaluado (2,3)")
        (canvas (snd (on_plot lib rt analysed))).
Proof.
  intros lib rt evaluated cleared analysed.
  split; [vm_compute; reflexivity|].
  destruct (evaluated_point_outlives_its_function lib rt analysed) as (_ & _ & _ & H).
  apply (H Reference.one_over_x 2%float 3%float).
  - vm_compute; reflexivity.
  - intros E. vm_compute in E. discriminate.
  - vm_compute; reflexivity.
Defined.

(** ** Plotting *)

(** X22: when the stored expression has no sample point in the default
    interval, [on_plot] clears the axes, reports it in the text and returns
    without drawing: the canvas keeps what it showed. *)
Theorem on_plot_without_points (lib : sp.Library) (rt : Runtime) (a : App) (e : Expr) :
  parsed_expr a = Some e ->
  fst (default_samples lib e (domain_exceptions a)) = [] ->
  on_plot lib rt a
  = (Return tt,
     set_text (text a ++ lines ["No hay puntos muestreables para graficar (posible dominio muy restringido)."])
              (set_ax [] a))
  /\ canvas (snd (on_plot lib rt a)) = canvas a.
Proof.
  intros Hp Hs.
  assert (E : on_plot lib rt a
              = (Return tt,
                 set_text (text a ++ lines ["No hay puntos muestreables para graficar (posible dominio muy restringido)."])
                          (set_ax [] a))).
  { unfold on_plot. unfold and_then at 1. unfold get at 1. cbn beta iota.
    rewrite Hp. unfold and_then at 1. unfold ret at 1. cbn beta iota.
    unfold and_then at 1. unfold get at 1. cbn beta iota. rewrite Hp.
    unfold and_then at 1. unfold modify at 1. cbn beta iota.
    destruct (default_samples lib e (domain_exceptions a)) as [xs ys].
    simpl in Hs. subst xs. reflexivity. }
  split; [exact E | rewrite E; reflexivity].
Qed.

Lemma on_plot_without_points_witness :
  let analysed :=
    snd (on_analyze Faulty.N_raises ReferenceShell.runtime
           (set_func_entry "x + 1" init)) in
  parsed_expr analysed = Some Reference.x_plus_1
  /\ ax (snd (on_plot Faulty.N_raises ReferenceShell.runtime analysed)) = []
  /\ canvas (snd (on_plot Faulty.N_raises ReferenceShell.runtime analysed))
     = canvas analysed.
Proof.
  intros analysed.
  assert (Hp : parsed_expr analysed = Some Reference.x_plus_1) by (vm_compute; reflexivity).
  destruct (on_plot_without_points Faulty.N_raises ReferenceShell.runtime analysed
              Reference.x_plus_1 Hp ltac:(vm_compute; reflexivity)) as [E C].
  split; [exact Hp|]. split; [rewrite E; reflexivity | exact C].
Defined.

(** X23: a plot that completes holds, in this order: the curve, the
    marker of f(0) when it converts to a float, a marker for each root and a
    dashed line for each exclusion that converts, the evaluated point when
    there is one, and the decorations; the canvas shows exactly this and the
    text gains the line "Gráfica generada.". *)
Theorem on_plot_completed (lib : sp.Library) (rt : Runtime) (a : App) (e : Expr)
    (xs ys : list float) (y0 : option Expr) (x_roots : list Expr) :
  parsed_expr a = Some e ->
  default_samples lib e (domain_exceptions a) = (xs, ys) ->
  xs <> [] ->
  compute_intersections lib e = Return (y0, x_roots) ->
  on_plot lib rt a
  = (Return tt,
     let contents :=
       plot_contents lib rt e xs ys y0 x_roots (domain_exceptions a) (x_eval_point a) in
     set_text (text a ++ lines ["Gráfica generada."])
              (set_canvas contents (set_ax contents a))).
Proof. apply on_plot_run. Qed.

Lemma on_plot_completed_witness :
  let analysed :=
    snd (on_analyze Reference.library ReferenceShell.runtime
           (set_func_entry "1/x" init)) in
  skipn 1 (canvas (snd (on_plot Reference.library ReferenceShell.runtime analysed)))
  = (VLine 0 "--" "x=0.0" :: decorations)%list.
Proof.
  intros analysed.
  destruct (default_samples Reference.library Reference.one_over_x [Integer 0])
    as [xs ys] eqn:Hs.
  rewrite (on_plot_completed Reference.library ReferenceShell.runtime analysed
             Reference.one_over_x xs ys (Some ComplexInfinity) []
             ltac:(vm_compute; reflexivity) Hs
             ltac:(intros E; rewrite E in Hs; vm_compute in Hs; discriminate)
             ltac:(vm_compute; reflexivity)).
  vm_compute. reflexivity.
Defined.

(** ** Callbacks without a stored expression *)

(** X24: without a stored expression [on_plot] and [on_evaluate] first run
    [on_analyze]; when that leaves no expression (blank entry, parse error,
    or an exception) they do nothing more: their effect and their outcome
    are those of [on_analyze]. *)
Theorem callbacks_analyze_first (lib : sp.Library) (rt : Runtime) (a : App) :
  parsed_expr a = None ->
  parsed_expr (snd (on_analyze lib rt a)) = None ->
  on_plot lib rt a = on_analyze lib rt a
  /\ on_evaluate lib rt a = on_analyze lib rt a.
Proof.
  intros Hp Hafter. split.
  - unfold on_plot.
    unfold and_then at 1. unfold get at 1. cbn beta iota. rewrite Hp.
    unfold and_then at 1.
    destruct (on_analyze lib rt a) as [[[]|ex] a'] eqn:E;
      cbn [snd] in Hafter; cbn beta iota; [|reflexivity].
    unfold and_then at 1. unfold get at 1. cbn beta iota.
    rewrite Hafter. reflexivity.
  - unfold on_evaluate.
    unfold and_then at 1. unfold get at 1. cbn beta iota. rewrite Hp.
    unfold and_then at 1.
    destruct (on_analyze lib rt a) as [[[]|ex] a'] eqn:E;
      cbn [snd] in Hafter; cbn beta iota; [|reflexivity].
    unfold and_then at 1. unfold get at 1. cbn beta iota.
    rewrite Hafter. reflexivity.
Qed.

Lemma callbacks_analyze_first_witness :
  let a := set_func_entry "x +" init in
  on_plot Reference.library ReferenceShell.runtime a
  = on_analyze Reference.library ReferenceShell.runtime a
  /\ on_evaluate Reference.library ReferenceShell.runtime a
     = on_analyze Reference.library ReferenceShell.runtime a.
Proof.
  intros a.
  exact (callbacks_analyze_first Reference.library ReferenceShell.runtime a
           eq_refl eq_refl).
Defined.

(** ** Evaluating a point *)

Lemma log_each_run (steps : list string) (a : App) :
  log_each steps a
  = (Return tt, set_text (fold_left (fun t s => t ++ lines [s]) steps (text a)) a).
Proof.
  revert a; induction steps as [|s rest IH]; intros a.
  - destruct a; reflexivity.
  - cbn [log_each fold_left]. unfold and_then, log, modify at 1. rewrite IH.
    reflexivity.
Qed.

(** The run of [on_evaluate] on a value that reads as a float. *)
Lemma on_evaluate_run (lib : sp.Library) (rt : Runtime) (a : App) (e : Expr)
    (x_val : float) (steps : list string) (numeric : option float)
    (err : option string) :
  parsed_expr a = Some e ->
  strip rt (x_entry a) <> "" ->
  parse_float rt (strip rt (x_entry a)) = Return x_val ->
  evaluate_point lib e (PyFloat x_val) = Return (steps, numeric, err) ->
  let logged := fold_left (fun t s => t ++ lines [s]) steps (text a) in
  on_evaluate lib rt a
  = if truthy err then
      (Return tt,
       set_text (logged ++ lines ["Error en evaluación:";
                                  match err with Some m => m | None => "" end]) a)
    else
      on_plot lib rt
        (set_x_eval_point (Some (x_val, numeric))
           (set_text (logged ++ lines ["Punto evaluado: (" ++ sp.str_float lib x_val
                                       ++ ", " ++ str_float_obj lib numeric ++ ")"]) a)).
Proof.
  intros Hp Hx Hf He logged. unfold on_evaluate.
  unfold and_then at 1. unfold get at 1. cbn beta iota. rewrite Hp.
  unfold and_then at 1. unfold ret at 1. cbn beta iota.
  unfold and_then at 1. unfold get at 1. cbn beta iota. rewrite Hp.
  apply String.eqb_neq in Hx. rewrite Hx, Hf.
  unfold and_then at 1. unfold lift at 1. rewrite He. cbn beta iota.
  unfold and_then at 1. rewrite log_each_run.
  destruct (truthy err); [reflexivity|].
  unfold and_then, log, modify. reflexivity.
Qed.

Lemma evaluate_point_returns (lib : sp.Library) (e : Expr) (x_val : pynum) :
  exists r, evaluate_point lib e x_val = Return r.
Proof.
  unfold evaluate_point.
  apply (try_except_total _
           (fun ex => (["Error en evaluación: " ++ exc_str ex], None, Some (exc_str ex)))).
Qed.

Ltac keeps_plot_tac :=
  lazymatch goal with
  | |- keeps _ (and_then _ _) =>
      apply keeps_and_then; [keeps_plot_tac | intros ?; keeps_plot_tac]
  | |- keeps _ (plot_roots _ _) => apply keeps_plot_roots; reflexivity
  | |- keeps _ (plot_exclusions _ _) => apply keeps_plot_exclusions; reflexivity
  | |- keeps _ (match ?x with _ => _ end) => destruct x; keeps_plot_tac
  | |- _ =>
      first
        [ apply keeps_ret | apply keeps_raise | apply keeps_lift | apply keeps_get
        | apply keeps_modify; reflexivity ]
  end.

(** With a stored expression [on_plot] shows no message box. *)
Lemma on_plot_stored_keeps_dialogs (lib : sp.Library) (rt : Runtime) (a : App) (e : Expr) :
  parsed_expr a = Some e -> dialogs (snd (on_plot lib rt a)) = dialogs a.
Proof.
  intros Hp. remember (on_plot lib rt a) as r eqn:E.
  unfold on_plot in E. unfold and_then at 1 in E. unfold get at 1 in E.
  cbn beta iota in E. rewrite Hp in E.
  unfold and_then at 1 in E. unfold ret at 1 in E. cbn beta iota in E.
  unfold and_then at 1 in E. unfold get at 1 in E. cbn beta iota in E.
  rewrite Hp in E.
  lazymatch type of E with
  | r = ?c ?s =>
      assert (K : keeps dialogs c) by (unfold log, ax_add; keeps_plot_tac);
      rewrite E; apply K
  end.
Qed.

(** X25: with a stored expression, [on_evaluate] shows a warning for a
    blank value and an error box for a value that is not a number, and in
    both cases nothing is evaluated, logged, stored or plotted; for a value
    that reads as a number it shows no message box, whatever the evaluation
    gives. *)
Theorem on_evaluate_message_boxes (lib : sp.Library) (rt : Runtime) (a : App) (e : Expr) :
  parsed_expr a = Some e ->
  (strip rt (x_entry a) = "" ->
   on_evaluate lib rt a
   = (Return tt,
      set_dialogs (dialogs a ++ [showwarning "Entrada vacía"
                                   "Ingrese un valor numérico para x."])%list a))
  /\ (forall ex,
        strip rt (x_entry a) <> "" ->
        parse_float rt (strip rt (x_entry a)) = Raise ex ->
        on_evaluate lib rt a
        = (Return tt,
           set_dialogs (dialogs a ++ [showerror "Error" "Valor de x no es numérico."])%list
                       a))
  /\ (forall x_val,
        strip rt (x_entry a) <> "" ->
        parse_float rt (strip rt (x_entry a)) = Return x_val ->
        dialogs (snd (on_evaluate lib rt a)) = dialogs a).
Proof.
  intros Hp. split; [|split].
  - intros Hx. unfold on_evaluate.
    unfold and_then at 1. unfold get at 1. cbn beta iota. rewrite Hp.
    unfold and_then at 1. unfold ret at 1. cbn beta iota.
    unfold and_then at 1. unfold get at 1. cbn beta iota. rewrite Hp, Hx. reflexivity.
  - intros ex Hx Hf. unfold on_evaluate.
    unfold and_then at 1. unfold get at 1. cbn beta iota. rewrite Hp.
    unfold and_then at 1. unfold ret at 1. cbn beta iota.
    unfold and_then at 1. unfold get at 1. cbn beta iota. rewrite Hp.
    apply String.eqb_neq in Hx. rewrite Hx, Hf. reflexivity.
  - intros x_val Hx Hf.
    destruct (evaluate_point_returns lib e (PyFloat x_val)) as ([[steps numeric] err] & He).
    rewrite (on_evaluate_run lib rt a e x_val steps numeric err Hp Hx Hf He).
    destruct (truthy err); [reflexivity|].
    rewrite (on_plot_stored_keeps_dialogs lib rt _ e); [reflexivity | exact Hp].
Qed.

Lemma on_evaluate_message_boxes_witness :
  let analysed :=
    snd (on_analyze Reference.library ReferenceShell.runtime
           (set_func_entry "x + 1" init)) in
  dialogs (snd (on_evaluate Reference.library ReferenceShell.runtime
                  (set_x_entry "  " analysed)))
  = [showwarning "Entrada vacía" "Ingrese un valor numérico para x."]
  /\ dialogs (snd (on_evaluate Reference.library ReferenceShell.runtime
                     (set_x_entry "dos" analysed)))
     = [showerror "Error" "Valor de x no es numérico."]
  /\ dialogs (snd (on_evaluate Reference.library ReferenceShell.runtime
                     (set_x_entry "2" analysed)))
     = [].
Proof.
  intros analysed.
  destruct (on_evaluate_message_boxes Reference.library ReferenceShell.runtime
              (set_x_entry "  " analysed) Reference.x_plus_1
              ltac:(vm_compute; reflexivity)) as (H1 & _ & _).
  destruct (on_evaluate_message_boxes Reference.library ReferenceShell.runtime
              (set_x_entry "dos" analysed) Reference.x_plus_1
              ltac:(vm_compute; reflexivity)) as (_ & H2 & _).
  destruct (on_evaluate_message_boxes Reference.library ReferenceShell.runtime
              (set_x_entry "2" analysed) Reference.x_plus_1
              ltac:(vm_compute; reflexivity)) as (_ & _ & H3).
  rewrite (H1 eq_refl).
  rewrite (H2 (mkException "ValueError" "could not convert string to float: 'dos'")
              ltac:(vm_compute; discriminate) eq_refl).
  rewrite (H3 2%float ltac:(vm_compute; discriminate) eq_refl).
  repeat split; vm_compute; reflexivity.
Defined.

(** X26: when the evaluation fails with a message, [on_evaluate] reports it
    twice, once as the trace entry and once under its own heading, stores no
    point and does not plot. *)
Theorem on_evaluate_reports_failure_twice (lib : sp.Library) (rt : Runtime) (a : App)
    (e : Expr) (x_val : float) (ex : PyException) :
  parsed_expr a = Some e ->
  strip rt (x_entry a) <> "" ->
  parse_float rt (strip rt (x_entry a)) = Return x_val ->
  evaluation_raises lib e (PyFloat x_val) ex ->
  exc_str ex <> "" ->
  on_evaluate lib rt a
  = (Return tt,
     set_text ((text a ++ lines ["Error en evaluación: " ++ exc_str ex])
               ++ lines ["Error en evaluación:"; exc_str ex]) a).
Proof.
  intros Hp Hx Hf He Hmsg.
  rewrite (on_evaluate_run lib rt a e x_val _ _ _ Hp Hx Hf
             (evaluate_point_failure lib e (PyFloat x_val) ex He)).
  cbn [truthy]. apply String.eqb_neq in Hmsg. rewrite Hmsg. reflexivity.
Qed.

Lemma on_evaluate_reports_failure_twice_witness :
  let analysed :=
    snd (on_analyze Reference.library ReferenceShell.runtime
           (set_func_entry "1/x" init)) in
  let after :=
    snd (on_evaluate Reference.library ReferenceShell.runtime (set_x_entry "0" analysed)) in
  text after
  = (text analysed ++ lines ["Error en evaluación: Cannot convert complex to float"])
    ++ lines ["Error en evaluación:"; "Cannot convert complex to float"]
  /\ x_eval_point after = None.
Proof.
  intros analysed after. unfold after.
  rewrite (on_evaluate_reports_failure_twice Reference.library ReferenceShell.runtime
             (set_x_entry "0" analysed) Reference.one_over_x 0%float
             (mkException "TypeError" "Cannot convert complex to float")
             ltac:(vm_compute; reflexivity) ltac:(vm_compute; discriminate) eq_refl
             ltac:(right; exists ComplexInfinity; split; [reflexivity|];
                   right; exists ComplexInfinity; split; [reflexivity|];
                   right; exists ComplexInfinity; split; reflexivity)
             ltac:(discriminate)).
  split; reflexivity.
Defined.

(** X27: a successful evaluation logs the trace and the point, stores the
    point with its value, and then does what [on_plot] does on the window in
    that state. *)
Theorem on_evaluate_stores_point_then_plots (lib : sp.Library) (rt : Runtime) (a : App)
    (e s simp n : Expr) (x_val numeric : float) :
  parsed_expr a = Some e ->
  strip rt (x_entry a) <> "" ->
  parse_float rt (strip rt (x_entry a)) = Return x_val ->
  sp.subs lib e (PyFloat x_val) = Return s ->
  sp.simplify lib s = Return simp ->
  sp.N lib s = Return n ->
  sp.__float__ lib n = Return numeric ->
  on_evaluate lib rt a
  = on_plot lib rt
      (set_x_eval_point (Some (x_val, Some numeric))
         (set_text
            ((((text a
                ++ lines ["Expresión original: " ++ sp.srepr lib e])
               ++ lines ["Sustituyendo x = " ++ sp.str_float lib x_val ++ " -> "
                         ++ sp.str lib simp])
              ++ lines ["Cálculo numérico: f(" ++ sp.str_float lib x_val ++ ") = "
                        ++ sp.str_float lib numeric])
             ++ lines ["Punto evaluado: (" ++ sp.str_float lib x_val ++ ", "
                       ++ sp.str_float lib numeric ++ ")"]) a))
  /\ x_eval_point (snd (on_evaluate lib rt a)) = Some (x_val, Some numeric).
Proof.
  intros Hp Hx Hf H1 H2 H3 H4.
  pose proof (on_evaluate_run lib rt a e x_val _ _ _ Hp Hx Hf
                (evaluate_point_success lib e (PyFloat x_val) s simp n numeric
                   H1 H2 H3 H4)) as E.
  cbn [truthy fold_left str_float_obj str_num] in E.
  split; [exact E|]. rewrite E. rewrite keeps_point_on_plot. reflexivity.
Qed.

Lemma on_evaluate_stores_point_then_plots_witness :
  let analysed :=
    snd (on_analyze Reference.library ReferenceShell.runtime
           (set_func_entry "x + 1" init)) in
  x_eval_point (snd (on_evaluate Reference.library ReferenceShell.runtime
                       (set_x_entry "2" analysed)))
  = Some (2%float, Some 3%float).
Proof.
  intros analysed.
  exact (proj2 (on_evaluate_stores_point_then_plots
                  Reference.library ReferenceShell.runtime (set_x_entry "2" analysed)
                  Reference.x_plus_1 (Float 3) (Float 3) (Float 3) 2%float 3%float
                  ltac:(vm_compute; reflexivity) ltac:(vm_compute; discriminate)
                  eq_refl eq_refl eq_refl eq_refl eq_refl)).
Defined.

(** X28: a failure whose exception has an empty message is not recognised:
    [on_evaluate] treats the evaluation as a success, logs the point with
    the value [None], and stores a point without value, which no plot
    draws. *)
Theorem on_evaluate_silent_failure (lib : sp.Library) (rt : Runtime) (a : App)
    (e : Expr) (x_val : float) (ex : PyException) :
  parsed_expr a = Some e ->
  strip rt (x_entry a) <> "" ->
  parse_float rt (strip rt (x_entry a)) = Return x_val ->
  evaluation_raises lib e (PyFloat x_val) ex ->
  exc_str ex = "" ->
  on_evaluate lib rt a
  = on_plot lib rt
      (set_x_eval_point (Some (x_val, None))
         (set_text ((text a ++ lines ["Error en evaluación: "])
                    ++ lines ["Punto evaluado: (" ++ sp.str_float lib x_val ++ ", None)"])
                   a))
  /\ x_eval_point (snd (on_evaluate lib rt a)) = Some (x_val, None)
  /\ point_marker (x_eval_point (snd (on_evaluate lib rt a))) = [].
Proof.
  intros Hp Hx Hf He Hmsg.
  pose proof (on_evaluate_run lib rt a e x_val _ _ _ Hp Hx Hf
                (evaluate_point_failure lib e (PyFloat x_val) ex He)) as E.
  rewrite Hmsg in E. cbn [truthy String.eqb negb fold_left str_float_obj] in E.
  assert (P : x_eval_point (snd (on_evaluate lib rt a)) = Some (x_val, None)).
  { rewrite E. rewrite keeps_point_on_plot. reflexivity. }
  split; [exact E|]. split; [exact P | rewrite P; reflexivity].
Qed.

Lemma on_evaluate_silent_failure_witness :
  let analysed :=
    snd (on_analyze float_raises_silently ReferenceShell.runtime
           (set_func_entry "x + 1" init)) in
  parsed_expr analysed = Some Reference.x_plus_1
  /\ x_eval_point (snd (on_evaluate float_raises_silently ReferenceShell.runtime
                          (set_x_entry "2" analysed)))
     = Some (2%float, None).
Proof.
  intros analysed. split; [vm_compute; reflexivity|].
  destruct (on_evaluate_silent_failure float_raises_silently ReferenceShell.runtime
              (set_x_entry "2" analysed) Reference.x_plus_1 2%float
              (mkException "TypeError" "")
              ltac:(vm_compute; reflexivity) ltac:(vm_compute; discriminate) eq_refl
              ltac:(right; exists (Float 3); split; [reflexivity|];
                    right; exists (Float 3); split; [reflexivity|];
                    right; exists (Float 3); split; reflexivity)
              eq_refl) as (_ & P & _).
  exact P.
Defined.

(** ** The analysis stored in the window *)

(** X29: once [compute_domain] has returned in [on_analyze], the window
    holds the simplified expression and its exclusions, each exclusion
    once, whether the rest of the callback completes or raises. *)
Theorem on_analyze_stores_analysis (lib : sp.Library) (rt : Runtime) (a : App)
    (e e' : Expr) desc excl logs roots :
  strip rt (func_entry a) <> "" ->
  sp.sympify lib (strip rt (func_entry a)) = Return e ->
  sp.simplify lib e = Return e' ->
  compute_domain lib e' = Return (desc, excl, logs, roots) ->
  parsed_expr (snd (on_analyze lib rt a)) = Some e'
  /\ domain_exceptions (snd (on_analyze lib rt a)) = excl
  /\ NoDup excl.
Proof.
  intros Hne Hs Hsimp Hd.
  assert (Hnd : NoDup excl).
  { apply compute_domain_inv in Hd. destruct Hd as (den_sing & _ & Ha & _ & _).
    apply (add_simplified_NoDup _ _ _ _ (NoDup_nil _) Ha). }
  remember (on_analyze lib rt a) as r eqn:E.
  unfold on_analyze in E. unfold and_then at 1 in E. unfold get at 1 in E.
  cbn beta iota in E.
  apply String.eqb_neq in Hne. rewrite Hne in E.
  unfold and_then at 1 in E. unfold lift at 1 in E. unfold safe_sympify in E.
  rewrite Hs in E. cbn [bind try_except] in E. cbn beta iota in E.
  unfold and_then at 1 in E. unfold modify at 1 in E. cbn beta iota in E.
  cbn [truthy] in E.
  unfold and_then at 1 in E. unfold lift at 1 in E. unfold simplify_obj at 1 in E.
  rewrite Hsimp in E. cbn [bind] in E. cbn beta iota in E.
  unfold and_then at 1 in E. unfold modify at 1 in E. cbn beta iota in E.
  unfold and_then at 1 in E. unfold log at 1 in E. unfold modify at 1 in E.
  cbn beta iota in E.
  unfold and_then at 1 in E. unfold lift at 1 in E. rewrite Hd in E.
  cbn beta iota in E.
  unfold and_then at 1 in E. unfold modify at 1 in E. cbn beta iota in E.
  lazymatch type of E with
  | r = ?c ?s =>
      assert (K1 : keeps parsed_expr c) by (unfold log; keeps_tac);
      assert (K2 : keeps domain_exceptions c) by (unfold log; keeps_tac);
      rewrite E, (K1 s), (K2 s)
  end.
  repeat split. exact Hnd.
Qed.

Lemma on_analyze_stores_analysis_witness :
  let after :=
    snd (on_analyze Reference.library ReferenceShell.runtime
           (set_func_entry "1/x" init)) in
  parsed_expr after = Some Reference.one_over_x
  /\ domain_exceptions after = [Integer 0]
  /\ NoDup [Integer 0].
Proof.
  intros after.
  exact (on_analyze_stores_analysis Reference.library ReferenceShell.runtime
           (set_func_entry "1/x" init) Reference.one_over_x Reference.one_over_x
           "Dominio: todos los reales, excepto x = 0" [Integer 0] [] []
           ltac:(vm_compute; discriminate) eq_refl eq_refl eq_refl).
Defined.
